(** * easy-reals: controllers and database services over a relational store

    A shallow embedding of the NestJS controllers ([SeriesController],
    [VideosController], [SocialController], [UsersController]), of the
    database services they call and of [PaginatedResponseDto] and the
    [HttpExceptionFilter].

    Conventions of the embedding:
    - a table is a finite map from the primary key [id] to its row;
    - an [async] method is a function [Db -> Outcome A * Db]: the store is
      threaded through, and a write made before an exception is thrown stays
      in the store;
    - JS integers (Prisma [Int] columns, validated [@IsInt] inputs) are [Z];
      the rates and averages the code computes by division are IEEE 754
      binary64 numbers, as every JS number is: [float], with the kernel's
      primitive operations;
    - a string is the sequence of the bytes of its UTF-8 encoding;
    - [undefined]/[null] is [None] where the code does not tell them apart,
      and a [Js.Optional] where it does;
    - the Prisma client is not part of the repository: its calls
      ([findUnique], [findFirst], [findMany], [create], [update], [delete])
      are modelled in [Module Prisma] after the client's documented
      behaviour. *)

From Stdlib Require Import ZArith QArith Qround Ascii String Floats.
From stdpp Require Import base option list gmap strings pretty.

Local Open Scope string_scope.
Local Open Scope Z_scope.

(** ** JavaScript values and operators used by the code *)
Module Js.

(** A JSON leaf value, as stored in a [Record<string, any>] setting. *)
Inductive Json :=
| JNull
| JBool (b : bool)
| JNum (n : Z)
| JStr (s : string).

(** A [Record<string, any>] object. *)
Abbreviation Obj := (gmap string Json).

(** [{ ...base, ...over }]: later spreads win. *)
Definition spread (base over : Obj) : Obj := over ∪ base.

(** Truthiness of an optional string: [undefined] and [''] are falsy. *)
Definition truthy_str (o : option string) : bool :=
  match o with
  | Some s => negb (String.eqb s "")
  | None => false
  end.

(** Truthiness of an optional object or array: only [undefined] is falsy. *)
Definition truthy_ref {A} (o : option A) : bool :=
  match o with
  | Some _ => true
  | None => false
  end.

(** [a || d] on an optional string with a string default. *)
Definition or_str (a : option string) (d : string) : string :=
  match a with
  | Some s => if String.eqb s "" then d else s
  | None => d
  end.

(** [a || d] on an optional number with a number default. *)
Definition or_num (a : option Z) (d : Z) : Z :=
  match a with
  | Some n => if n =? 0 then d else n
  | None => d
  end.

(** [a || d] on an optional object. *)
Definition or_ref {A} (a : option A) (d : A) : A :=
  match a with
  | Some x => x
  | None => d
  end.

(** Index normalisation of [Array.prototype.slice]. *)
Definition relative_index (len k : Z) : Z :=
  if k <? 0 then Z.max (len + k) 0 else Z.min k len.

(** [l.slice(start, stop)]. *)
Definition slice {A} (l : list A) (start stop : Z) : list A :=
  let len := Z.of_nat (length l) in
  let from := relative_index len start in
  let to := relative_index len stop in
  take (Z.to_nat (to - from)) (drop (Z.to_nat from) l).

(** [s.includes(sub)]: [sub] occurs in [s]. (On well-formed strings a
    sequence of characters occurs in another exactly when its UTF-8 bytes
    occur in the other's.) *)
Fixpoint includes (s sub : string) : bool :=
  match s with
  | EmptyString => String.prefix sub EmptyString
  | String _ s' => String.prefix sub s || includes s' sub
  end.

(** [`${n}`] for an integer. *)
Definition num_to_string (n : Z) : string := pretty n.

(** A member of a request body that the code tests against [undefined]:
    absent, [null] (which [@IsOptional()] lets through as it does
    [undefined]), or a value. *)
Inductive Optional (A : Type) :=
| Undefined
| Null
| Value (a : A).
Arguments Undefined {A}.
Arguments Null {A}.
Arguments Value {A} a.

(** [o !== undefined]. *)
Definition defined {A} (o : Optional A) : bool :=
  match o with
  | Undefined => false
  | _ => true
  end.

(** The JS number that holds the integer [z]: exact while [|z| <= 2^53],
    which the integers of the modelled code are taken to be. *)
Definition Number_of_Z (z : Z) : float :=
  match z with
  | Z0 => 0%float
  | Zpos _ => PrimFloat.of_uint63 (Uint63.of_Z z)
  | Zneg p => PrimFloat.opp (PrimFloat.of_uint63 (Uint63.of_Z (Zpos p)))
  end.



End Js.

(** ** Exceptions *)

(** The NestJS HTTP exceptions the controllers throw. *)
Inductive HttpException :=
| BadRequestException (message : string)
| ForbiddenException (message : string)
| NotFoundException (message : string)
| ConflictException (message : string).

(** Everything a request handler can throw: a NestJS HTTP exception, a
    Prisma error with its [code], any other error of the Prisma client (it
    carries no code the handlers test for), a JS [TypeError], or a plain
    [Error]. *)
Inductive Exception :=
| Http (e : HttpException)
| PrismaClientKnownRequestError (code : string)
| PrismaClientError
| TypeError
| Error (message : string).

(** [exception.getStatus()]. *)
Definition getStatus (e : HttpException) : Z :=
  match e with
  | BadRequestException _ => 400
  | ForbiddenException _ => 403
  | NotFoundException _ => 404
  | ConflictException _ => 409
  end.

(** [error.code === c] in a [catch] clause. *)
Definition has_code (e : Exception) (c : string) : bool :=
  match e with
  | PrismaClientKnownRequestError code => String.eqb code c
  | _ => false
  end.

(** ** Rows of the store *)

Record Profile := mkProfile {
  profile_id : string;
  profile_email : string;
  profile_fullName : option string;
  profile_isActive : bool;
}.

Record UserSeries := mkUserSeries {
  series_id : string;
  series_userId : string;
  series_name : string;
  series_description : option string;
  series_customPrompt : option string;
  series_visualStyle : option Js.Obj;
  series_voiceSettings : option Js.Obj;
  series_musicSettings : option Js.Obj;
  series_videoDuration : Z;
  series_contentStyle : string;
  series_useTrendingTopics : bool;
  series_isActive : bool;
  series_totalVideosGenerated : Z;
  series_totalViews : Z;
  series_totalLikes : Z;
  series_createdAt : Z;
  series_updatedAt : Z;
}.

Record Video := mkVideo {
  video_id : string;
  video_userId : string;
  video_seriesId : string;
  video_title : string;
  video_description : option string;
  video_script : string;
  video_promptUsed : string;
  video_tags : list string;
  video_generationSettings : Js.Obj;
  video_status : string;
  video_generationProgress : Z;
  video_errorMessage : option string;
  video_createdAt : Z;
  video_updatedAt : Z;
}.

Record SocialAccount := mkSocialAccount {
  account_id : string;
  account_userId : string;
  account_platform : string;
  account_platformUserId : string;
  account_username : string;
  account_displayName : option string;
  account_accessToken : string;
  account_refreshToken : option string;
  account_tokenExpiresAt : option Z;
  account_followerCount : option Z;
  account_profileImageUrl : option string;
  account_isVerified : option bool;
  account_isActive : bool;
  account_autoPost : bool;
  account_connectedAt : Z;
  account_lastSyncAt : option Z;
}.

Record SocialPost := mkSocialPost {
  post_id : string;
  post_socialAccountId : string;
  post_videoId : string;
  post_viewsCount : Z;
  post_likesCount : Z;
  post_commentsCount : Z;
  post_sharesCount : Z;
  post_scheduledFor : option Z;
  post_publishedAt : option Z;
  post_createdAt : Z;
}.

(** The relational store. *)
Record Db := mkDb {
  profiles : gmap string Profile;
  userSeries : gmap string UserSeries;
  videos : gmap string Video;
  socialAccounts : gmap string SocialAccount;
  socialPosts : gmap string SocialPost;
}.

Definition set_profiles (t : gmap string Profile) (db : Db) : Db :=
  mkDb t (userSeries db) (videos db) (socialAccounts db) (socialPosts db).
Definition set_userSeries (t : gmap string UserSeries) (db : Db) : Db :=
  mkDb (profiles db) t (videos db) (socialAccounts db) (socialPosts db).
Definition set_videos (t : gmap string Video) (db : Db) : Db :=
  mkDb (profiles db) (userSeries db) t (socialAccounts db) (socialPosts db).
Definition set_socialAccounts (t : gmap string SocialAccount) (db : Db) : Db :=
  mkDb (profiles db) (userSeries db) (videos db) t (socialPosts db).
Definition set_socialPosts (t : gmap string SocialPost) (db : Db) : Db :=
  mkDb (profiles db) (userSeries db) (videos db) (socialAccounts db) t.

(** ** Request handlers: store passing with exceptions *)

Inductive Outcome (A : Type) :=
| Returned (a : A)
| Thrown (e : Exception).
Arguments Returned {A} a.
Arguments Thrown {A} e.

Definition Handler (A : Type) : Type := Db -> Outcome A * Db.

Definition ret {A} (a : A) : Handler A := fun db => (Returned a, db).

Definition throw {A} (e : Exception) : Handler A := fun db => (Thrown e, db).

Definition bind {A B} (m : Handler A) (k : A -> Handler B) : Handler B :=
  fun db =>
    match m db with
    | (Returned a, db') => k a db'
    | (Thrown e, db') => (Thrown e, db')
    end.

(** [try { m } catch (error) { h error }]. *)
Definition try_catch {A} (m : Handler A) (h : Exception -> Handler A) : Handler A :=
  fun db =>
    match m db with
    | (Returned a, db') => (Returned a, db')
    | (Thrown e, db') => h e db'
    end.

Notation "'let*' x := m 'in' k" := (bind m (fun x => k))
  (at level 10, x pattern, m at level 100, k at level 200).
Notation "m ;;; k" := (bind m (fun _ => k))
  (at level 100, k at level 200, right associativity).

(** ** The Prisma client *)
Module Prisma.

Section Table.
Context {R : Type}.
Variable tbl : Db -> gmap string R.
Variable set_tbl : gmap string R -> Db -> Db.
Variable key : R -> string.

(** [findUnique({ where: { id } })]. *)
Definition findUnique (id : string) : Handler (option R) :=
  fun db => (Returned (tbl db !! id), db).

(** [findFirst({ where })]: some row satisfying the filter, if any. *)
Definition findFirst (p : R -> bool) : Handler (option R) :=
  fun db => (Returned (snd <$> list_find (fun r => p r = true) (map_to_list (tbl db)).*2), db).

(** [create({ data })]: the primary key must be new. *)
Definition create (r : R) : Handler R :=
  fun db =>
    match tbl db !! key r with
    | Some _ => (Thrown (PrismaClientKnownRequestError "P2002"), db)
    | None => (Returned r, set_tbl (<[key r := r]> (tbl db)) db)
    end.

(** [update({ where: { id }, data })]: P2025 when the row is gone. *)
Definition update (id : string) (f : R -> R) : Handler R :=
  fun db =>
    match tbl db !! id with
    | Some r => (Returned (f r), set_tbl (<[id := f r]> (tbl db)) db)
    | None => (Thrown (PrismaClientKnownRequestError "P2025"), db)
    end.

(** [delete({ where: { id } })]: P2025 when the row is gone. The rows that
    refer to the deleted one go with it: [cascade id] is what the store does
    to them. *)
Definition delete (cascade : string -> Db -> Db) (id : string) : Handler R :=
  fun db =>
    match tbl db !! id with
    | Some r => (Returned r, cascade id (set_tbl (base.delete id (tbl db)) db))
    | None => (Thrown (PrismaClientKnownRequestError "P2025"), db)
    end.
End Table.

(** Referential actions. The Prisma schema is not among the sources; the
    handlers document the three relations as cascading: deleting a series
    deletes "all associated videos", deleting a video "all associated social
    posts", disconnecting a social account "all associated data". *)

(** The posts of the video [id] go. *)
Definition cascade_video (id : string) (db : Db) : Db :=
  set_socialPosts
    (filter (fun kp => post_videoId (snd kp) <> id) (socialPosts db)) db.

(** The posts of the social account [id] go. *)
Definition cascade_socialAccount (id : string) (db : Db) : Db :=
  set_socialPosts
    (filter (fun kp => post_socialAccountId (snd kp) <> id) (socialPosts db)) db.

(** Does the post belong to a stored video of the series [id]? *)
Definition post_of_series (db : Db) (id : string) (p : SocialPost) : bool :=
  match videos db !! post_videoId p with
  | Some v => String.eqb (video_seriesId v) id
  | None => false
  end.

(** The videos of the series [id] go, and their posts with them. *)
Definition cascade_userSeries (id : string) (db : Db) : Db :=
  mkDb (profiles db) (userSeries db)
    (filter (fun kv => video_seriesId (snd kv) <> id) (videos db))
    (socialAccounts db)
    (filter (fun kp => post_of_series db id (snd kp) = false) (socialPosts db)).

(** Insertion of a row into a list ordered by decreasing [k]. *)
Fixpoint insert_desc {R} (k : R -> Z) (x : R) (l : list R) : list R :=
  match l with
  | [] => [x]
  | y :: l' => if k y <? k x then x :: l else y :: insert_desc k x l'
  end.

(** [orderBy: { <k>: 'desc' }]. *)
Definition order_desc {R} (k : R -> Z) (l : list R) : list R :=
  foldr (insert_desc k) [] l.

(** [findMany({ where, orderBy: { <k>: 'desc' } })]. *)
Definition findMany_desc {R} (tbl : gmap string R) (p : R -> bool) (k : R -> Z) : list R :=
  order_desc k (filter (fun r => p r = true) (map_to_list tbl).*2).

(** [skip] and [take] of a [findMany], for a [take] that is not negative
    (the callers pass a page size); a negative [skip] is rejected by the
    client. *)
Definition skip_take {R} (skip take_ : Z) (l : list R) : Handler (list R) :=
  if skip <? 0 then throw PrismaClientError
  else ret (take (Z.to_nat take_) (drop (Z.to_nat skip) l)).

End Prisma.

(** ** dto/common/pagination.dto.ts *)

Record PaginationDto := mkPaginationDto {
  page : option Z;
  limit : option Z;
  search : option string;
}.

Record PaginationMetaDto := mkPaginationMetaDto {
  meta_page : Z;
  meta_limit : Z;
  meta_total : Z;
  meta_totalPages : Z;
  meta_hasNext : bool;
  meta_hasPrev : bool;
}.

Record PaginatedResponseDto (T : Type) := mkPaginatedResponseDto {
  data : list T;
  meta : PaginationMetaDto;
}.
Arguments mkPaginatedResponseDto {T} data meta.
Arguments data {T} p.
Arguments meta {T} p.

(** [Math.ceil(total / limit)] for a [limit] other than 0: the quotient of
    the two integers, rounded up. A zero [limit] never reaches the
    constructor: both callers pass [paginationDto.limit || 10]. *)
Definition Math_ceil_div (total limit : Z) : Z :=
  Qceiling (inject_Z total / inject_Z limit).

(** [new PaginatedResponseDto(data, total, page, limit)]. *)
Definition new_PaginatedResponseDto {T} (data : list T) (total page limit : Z)
  : PaginatedResponseDto T :=
  let totalPages := Math_ceil_div total limit in
  mkPaginatedResponseDto data
    (mkPaginationMetaDto page limit total totalPages
       (page <? totalPages) (1 <? page)).

(** ** database/series.service.ts *)
Module SeriesService.

(** The fields a [Prisma.UserSeriesUpdateInput] built from an
    [UpdateSeriesDto] can carry. *)
Record UserSeriesUpdateInput := mkUserSeriesUpdateInput {
  upd_name : option string;
  upd_description : option string;
  upd_customPrompt : option string;
  upd_videoDuration : option Z;
  upd_contentStyle : option string;
  upd_useTrendingTopics : option bool;
  upd_isActive : option bool;
}.

(** The [stats] argument of [updateSeriesStats]. *)
Record StatsInput := mkStatsInput {
  totalVideosGenerated : option Z;
  totalViews : option Z;
  totalLikes : option Z;
}.

Definition with_isActive (isActive : bool) (updatedAt : Z) (s : UserSeries) : UserSeries :=
  mkUserSeries (series_id s) (series_userId s) (series_name s)
    (series_description s) (series_customPrompt s) (series_visualStyle s)
    (series_voiceSettings s) (series_musicSettings s) (series_videoDuration s)
    (series_contentStyle s) (series_useTrendingTopics s) isActive
    (series_totalVideosGenerated s) (series_totalViews s) (series_totalLikes s)
    (series_createdAt s) updatedAt.

Definition with_stats (generated views likes updatedAt : Z) (s : UserSeries) : UserSeries :=
  mkUserSeries (series_id s) (series_userId s) (series_name s)
    (series_description s) (series_customPrompt s) (series_visualStyle s)
    (series_voiceSettings s) (series_musicSettings s) (series_videoDuration s)
    (series_contentStyle s) (series_useTrendingTopics s) (series_isActive s)
    generated views likes (series_createdAt s) updatedAt.

(** [{ ...data, updatedAt }] as a row update: a field that is absent from
    [data] keeps its column. *)
Definition with_data (d : UserSeriesUpdateInput) (updatedAt : Z) (s : UserSeries) : UserSeries :=
  mkUserSeries (series_id s) (series_userId s)
    (default (series_name s) (upd_name d))
    (match upd_description d with Some x => Some x | None => series_description s end)
    (match upd_customPrompt d with Some x => Some x | None => series_customPrompt s end)
    (series_visualStyle s) (series_voiceSettings s) (series_musicSettings s)
    (default (series_videoDuration s) (upd_videoDuration d))
    (default (series_contentStyle s) (upd_contentStyle d))
    (default (series_useTrendingTopics s) (upd_useTrendingTopics d))
    (default (series_isActive s) (upd_isActive d))
    (series_totalVideosGenerated s) (series_totalViews s) (series_totalLikes s)
    (series_createdAt s) updatedAt.

Section WithClock.
(** [new Date()] at the time of the request. *)
Variable now : Z.

Definition getUserSeries (userId : string) : Handler (list UserSeries) :=
  fun db =>
    (Returned (Prisma.findMany_desc (userSeries db)
                 (fun s => String.eqb (series_userId s) userId) series_createdAt), db).

Definition getSeriesById (id : string) : Handler (option UserSeries) :=
  Prisma.findUnique userSeries id.

Definition updateSeries (id : string) (d : UserSeriesUpdateInput) : Handler UserSeries :=
  Prisma.update userSeries set_userSeries id (with_data d now).

Definition toggleSeriesStatus (id : string) (isActive : bool) : Handler UserSeries :=
  Prisma.update userSeries set_userSeries id (with_isActive isActive now).

Definition updateSeriesStats (id : string) (stats : StatsInput) : Handler UserSeries :=
  let* current := Prisma.findUnique userSeries id in
  match current with
  | None => throw (Error "Series not found")
  | Some current =>
      Prisma.update userSeries set_userSeries id
        (with_stats
           (match totalVideosGenerated stats with
            | Some n => n
            | None => series_totalVideosGenerated current + 1
            end)
           (match totalViews stats with
            | Some n => n
            | None => series_totalViews current
            end)
           (match totalLikes stats with
            | Some n => n
            | None => series_totalLikes current
            end)
           now)
  end.

Definition deleteSeries (id : string) : Handler UserSeries :=
  Prisma.delete userSeries set_userSeries Prisma.cascade_userSeries id.
End WithClock.

(** The [data] argument of [createSeries], with the [CreateSeriesDto]
    fields the controller spreads into it. *)
Record CreateData := mkCreateData {
  cs_userId : string;
  cs_name : string;
  cs_description : option string;
  cs_customPrompt : option string;
  cs_visualStyle : option Js.Obj;
  cs_voiceSettings : option Js.Obj;
  cs_musicSettings : option Js.Obj;
  cs_videoDuration : option Z;
  cs_contentStyle : option string;
  cs_useTrendingTopics : option bool;
  cs_isActive : option bool;
}.

Section Creation.
Variable now : Z.
(** The primary key the store generates for the next series row. *)
Variable newId : string.
(** The schema's column defaults of a series row, as a row (the Prisma
    schema is not among the sources): only the columns a request may leave
    out, and the three counters, are read from it. *)
Variable defaults : UserSeries.

(** The row [prisma.userSeries.create] inserts for [{ ...data,
    visualStyle: data.visualStyle || {}, voiceSettings: data.voiceSettings
    || {}, musicSettings: data.musicSettings || {} }]. *)
Definition created_row (d : CreateData) : UserSeries :=
  mkUserSeries newId (cs_userId d) (cs_name d) (cs_description d) (cs_customPrompt d)
    (Some (Js.or_ref (cs_visualStyle d) ∅))
    (Some (Js.or_ref (cs_voiceSettings d) ∅))
    (Some (Js.or_ref (cs_musicSettings d) ∅))
    (default (series_videoDuration defaults) (cs_videoDuration d))
    (default (series_contentStyle defaults) (cs_contentStyle d))
    (default (series_useTrendingTopics defaults) (cs_useTrendingTopics d))
    (default (series_isActive defaults) (cs_isActive d))
    (series_totalVideosGenerated defaults) (series_totalViews defaults)
    (series_totalLikes defaults) now now.

Definition createSeries (d : CreateData) : Handler UserSeries :=
  Prisma.create userSeries set_userSeries series_id (created_row d).
End Creation.

(** [findMany({ where: { isActive: true } })], in the store's order. *)
Definition getActiveSeries : Handler (list UserSeries) :=
  fun db =>
    (Returned (filter (fun s => series_isActive s = true) (map_to_list (userSeries db)).*2),
     db).

End SeriesService.

(** [if (c) throw e;] *)
Definition throw_if (c : bool) (e : Exception) : Handler unit :=
  if c then throw e else ret tt.

(** [a !== b] on strings. *)
Definition strict_ne (a b : string) : bool := negb (String.eqb a b).

(** [catch (error) { if (error.code === 'P2025') throw new
    NotFoundException(msg); throw error; }] *)
Definition rethrow_P2025 {A} (msg : string) (error : Exception) : Handler A :=
  if has_code error "P2025" then throw (Http (NotFoundException msg))
  else throw error.

(** ** series/series.controller.ts

    A handler returns the row (or rows) its response DTO is projected
    from; [userId] is [req.user.id]. *)
Module SeriesController.

Section WithClock.
Variable now : Z.

Definition getSeriesById (userId id : string) : Handler UserSeries :=
  let* series := SeriesService.getSeriesById id in
  match series with
  | None => throw (Http (NotFoundException "Series not found"))
  | Some series =>
      throw_if (strict_ne (series_userId series) userId)
        (Http (ForbiddenException "You can only access your own series")) ;;;
      ret series
  end.

Definition updateSeries (userId id : string)
    (updateSeriesDto : SeriesService.UserSeriesUpdateInput) : Handler UserSeries :=
  let* existingSeries := SeriesService.getSeriesById id in
  match existingSeries with
  | None => throw (Http (NotFoundException "Series not found"))
  | Some existingSeries =>
      throw_if (strict_ne (series_userId existingSeries) userId)
        (Http (ForbiddenException "You can only update your own series")) ;;;
      try_catch (SeriesService.updateSeries now id updateSeriesDto)
        (rethrow_P2025 "Series not found")
  end.

Definition toggleSeriesStatus (userId id : string) (isActive : bool)
    : Handler UserSeries :=
  let* existingSeries := SeriesService.getSeriesById id in
  match existingSeries with
  | None => throw (Http (NotFoundException "Series not found"))
  | Some existingSeries =>
      throw_if (strict_ne (series_userId existingSeries) userId)
        (Http (ForbiddenException "You can only modify your own series")) ;;;
      SeriesService.toggleSeriesStatus now id isActive
  end.

Definition deleteSeries (userId id : string) : Handler unit :=
  let* existingSeries := SeriesService.getSeriesById id in
  match existingSeries with
  | None => throw (Http (NotFoundException "Series not found"))
  | Some existingSeries =>
      throw_if (strict_ne (series_userId existingSeries) userId)
        (Http (ForbiddenException "You can only delete your own series")) ;;;
      try_catch (SeriesService.deleteSeries id ;;; ret tt)
        (rethrow_P2025 "Series not found")
  end.

Definition getSeriesAnalytics (userId id : string) : Handler UserSeries :=
  let* series := SeriesService.getSeriesById id in
  match series with
  | None => throw (Http (NotFoundException "Series not found"))
  | Some series =>
      throw_if (strict_ne (series_userId series) userId)
        (Http (ForbiddenException "You can only access your own series analytics")) ;;;
      ret series
  end.
End WithClock.

Record CreateSeriesDto := mkCreateSeriesDto {
  csd_name : string;
  csd_description : option string;
  csd_customPrompt : option string;
  csd_visualStyle : option Js.Obj;
  csd_voiceSettings : option Js.Obj;
  csd_musicSettings : option Js.Obj;
  csd_videoDuration : option Z;
  csd_contentStyle : option string;
  csd_useTrendingTopics : option bool;
  csd_isActive : option bool;
}.

(** [{ userId, ...createSeriesDto }]. *)
Definition seriesData (userId : string) (dto : CreateSeriesDto) : SeriesService.CreateData :=
  SeriesService.mkCreateData userId (csd_name dto) (csd_description dto)
    (csd_customPrompt dto) (csd_visualStyle dto) (csd_voiceSettings dto)
    (csd_musicSettings dto) (csd_videoDuration dto) (csd_contentStyle dto)
    (csd_useTrendingTopics dto) (csd_isActive dto).

Definition createSeries (now : Z) (newId : string) (defaults : UserSeries)
    (userId : string) (createSeriesDto : CreateSeriesDto) : Handler UserSeries :=
  SeriesService.createSeries now newId defaults (seriesData userId createSeriesDto).

Section Search.
(** [String.prototype.toLowerCase], which is the engine's: the handlers are
    modelled for whatever function on strings it is. *)
Variable toLowerCase : string -> string.

Definition getUserSeries (userId : string) (paginationDto : PaginationDto)
    (isActive : option bool) : Handler (PaginatedResponseDto UserSeries) :=
  let* series := SeriesService.getUserSeries userId in
  let filteredSeries :=
    match isActive with
    | Some b => filter (fun s => Bool.eqb (series_isActive s) b = true) series
    | None => series
    end in
  let filteredSeries :=
    if Js.truthy_str (search paginationDto) then
      let searchTerm := toLowerCase (default "" (search paginationDto)) in
      filter (fun s =>
                Js.includes (toLowerCase (series_name s)) searchTerm
                || match series_description s with
                   | Some d => Js.includes (toLowerCase d) searchTerm
                   | None => false
                   end = true) filteredSeries
    else filteredSeries in
  let page := Js.or_num (page paginationDto) 1 in
  let limit := Js.or_num (limit paginationDto) 10 in
  let startIndex := (page - 1) * limit in
  let endIndex := startIndex + limit in
  let paginatedSeries := Js.slice filteredSeries startIndex endIndex in
  ret (new_PaginatedResponseDto paginatedSeries
         (Z.of_nat (length filteredSeries)) page limit).

(** The [filteredSeries] list of [getUserSeries]: the user's series, latest
    first, after the [isActive] filter and the search filter. *)
Definition filteredSeries (userId : string) (search : option string)
    (isActive : option bool) (db : Db) : list UserSeries :=
  let series :=
    Prisma.findMany_desc (userSeries db)
      (fun s => String.eqb (series_userId s) userId) series_createdAt in
  let filteredSeries :=
    match isActive with
    | Some b => filter (fun s => Bool.eqb (series_isActive s) b = true) series
    | None => series
    end in
  if Js.truthy_str search then
    let searchTerm := toLowerCase (default "" search) in
    filter (fun s =>
              Js.includes (toLowerCase (series_name s)) searchTerm
              || match series_description s with
                 | Some d => Js.includes (toLowerCase d) searchTerm
                 | None => false
                 end = true) filteredSeries
  else filteredSeries.

End Search.

End SeriesController.

(** ** database/video.service.ts *)
Module VideoService.

(** The [data] argument of [createVideo]. *)
Record CreateData := mkCreateData {
  cd_userId : string;
  cd_seriesId : string;
  cd_title : string;
  cd_description : option string;
  cd_script : string;
  cd_promptUsed : string;
  cd_tags : option (list string);
  cd_generationSettings : option Js.Obj;
}.

(** The keys the [data] object of [updateVideoContent] holds when the
    controller builds it ([updateData], typed [any]); a [description] key
    may hold [null]. *)
Record ContentData := mkContentData {
  ct_title : option string;
  ct_description : Js.Optional string;
  ct_script : option string;
  ct_tags : option (list string);
  ct_generationSettings : option Js.Obj;
}.

(** The [options] argument of [getUserVideos]. *)
Record ListOptions := mkListOptions {
  opt_status : option string;
  opt_seriesId : option string;
  opt_limit : option Z;
  opt_offset : option Z;
}.

(** [data: { status, ...(progress !== undefined && { generationProgress:
    progress }), ...(errorMessage && { errorMessage }), updatedAt }], for a
    [progress] that is [undefined] or a number. *)
Definition with_status (status : string) (progress : option Z)
    (errorMessage : option string) (updatedAt : Z) (v : Video) : Video :=
  mkVideo (video_id v) (video_userId v) (video_seriesId v) (video_title v)
    (video_description v) (video_script v) (video_promptUsed v) (video_tags v)
    (video_generationSettings v)
    status
    (match progress with Some p => p | None => video_generationProgress v end)
    (if Js.truthy_str errorMessage then errorMessage else video_errorMessage v)
    (video_createdAt v) updatedAt.

(** [data: { ...data, status: 'ready', generationProgress: 100,
    updatedAt }]. *)
Definition with_content (d : ContentData) (updatedAt : Z) (v : Video) : Video :=
  mkVideo (video_id v) (video_userId v) (video_seriesId v)
    (default (video_title v) (ct_title d))
    (match ct_description d with
     | Js.Undefined => video_description v
     | Js.Null => None
     | Js.Value x => Some x
     end)
    (default (video_script v) (ct_script d))
    (video_promptUsed v)
    (default (video_tags v) (ct_tags d))
    (default (video_generationSettings v) (ct_generationSettings d))
    "ready" 100 (video_errorMessage v)
    (video_createdAt v) updatedAt.

Section WithStore.
(** [new Date()] at the time of the request. *)
Variable now : Z.
(** The primary key the store generates for the next video row. *)
Variable newId : string.
(** The schema's column defaults of a video row (the Prisma schema is
    not among the sources). *)
Variable defaultStatus : string.
Variable defaultProgress : Z.

(** The row [prisma.video.create] inserts for [{ ...data, tags: data.tags
    || [], generationSettings: data.generationSettings || {} }]. *)
Definition created_row (d : CreateData) : Video :=
  mkVideo newId (cd_userId d) (cd_seriesId d) (cd_title d)
    (cd_description d) (cd_script d) (cd_promptUsed d)
    (Js.or_ref (cd_tags d) [])
    (Js.or_ref (cd_generationSettings d) ∅)
    defaultStatus defaultProgress None now now.

Definition createVideo (d : CreateData) : Handler Video :=
  Prisma.create videos set_videos video_id (created_row d).

Definition findVideoById (id : string) : Handler (option Video) :=
  Prisma.findUnique videos id.

Definition getUserVideos (userId : string) (options : ListOptions)
    : Handler (list Video) :=
  fun db =>
    Prisma.skip_take (Js.or_num (opt_offset options) 0)
      (Js.or_num (opt_limit options) 20)
      (Prisma.findMany_desc (videos db)
         (fun v =>
            String.eqb (video_userId v) userId
            && (if Js.truthy_str (opt_status options)
                then String.eqb (video_status v) (default "" (opt_status options))
                else true)
            && (if Js.truthy_str (opt_seriesId options)
                then String.eqb (video_seriesId v) (default "" (opt_seriesId options))
                else true))
         video_createdAt) db.

(** A [null] progress passes [progress !== undefined] and reaches the
    client as [generationProgress: null]; the column is a required one (the
    response DTO declares [generationProgress: number], where it declares
    the nullable columns optional), so the client refuses the query before
    it touches the store. *)
Definition updateVideoStatus (id status : string) (progress : Js.Optional Z)
    (errorMessage : option string) : Handler Video :=
  match progress with
  | Js.Undefined =>
      Prisma.update videos set_videos id (with_status status None errorMessage now)
  | Js.Value progress =>
      Prisma.update videos set_videos id
        (with_status status (Some progress) errorMessage now)
  | Js.Null => throw PrismaClientError
  end.

Definition updateVideoContent (id : string) (d : ContentData) : Handler Video :=
  Prisma.update videos set_videos id (with_content d now).

Definition deleteVideo (id : string) : Handler Video :=
  Prisma.delete videos set_videos Prisma.cascade_video id.
End WithStore.

(** The [socialPosts] a query includes with a video. *)
Definition socialPosts_of (db : Db) (v : Video) : list SocialPost :=
  filter (fun p => post_videoId p = video_id v) (map_to_list (socialPosts db)).*2.

Section Analytics.
Variable now : Z.
Variable subDays : Z -> Z -> Z.

(** [getVideoAnalytics(userId, period = 30)]: the user's videos created in
    the period, each with its social posts, latest first. *)
Definition getVideoAnalytics (userId : string) (period : option Z)
    : Handler (list (Video * list SocialPost)) :=
  let period := default 30 period in
  let startDate := subDays now period in
  fun db =>
    (Returned
       ((fun v =>
           (v, socialPosts_of db v))
          <$> Prisma.findMany_desc (videos db)
                (fun v => String.eqb (video_userId v) userId
                          && (startDate <=? video_createdAt v))
                video_createdAt),
     db).
End Analytics.

End VideoService.

(** ** videos/videos.controller.ts *)
Module VideosController.

Record GenerateVideoDto := mkGenerateVideoDto {
  gen_seriesId : string;
  gen_topic : option string;
  gen_generationSettings : option Js.Obj;
  gen_priority : option string;
}.

(** [UpdateVideoDto]. Every member is [@IsOptional()], so it may be absent
    or [null]; the handler tells the two apart for [description] and (through
    [updateVideoStatus]) for [generationProgress], and tests the others for
    truthiness only. *)
Record UpdateVideoDto := mkUpdateVideoDto {
  uv_title : option string;
  uv_description : Js.Optional string;
  uv_script : option string;
  uv_tags : option (list string);
  uv_generationSettings : option Js.Obj;
  uv_status : option string;
  uv_generationProgress : Js.Optional Z;
  uv_errorMessage : option string;
}.

(** [Object.keys(updateData).length]. *)
Definition keys_length (d : VideoService.ContentData) : Z :=
  (if Js.truthy_ref (VideoService.ct_title d) then 1 else 0)
  + (if Js.defined (VideoService.ct_description d) then 1 else 0)
  + (if Js.truthy_ref (VideoService.ct_script d) then 1 else 0)
  + (if Js.truthy_ref (VideoService.ct_tags d) then 1 else 0)
  + (if Js.truthy_ref (VideoService.ct_generationSettings d) then 1 else 0).

(** The [updateData] object [updateVideo] fills from the DTO. *)
Definition updateData_of (dto : UpdateVideoDto) : VideoService.ContentData :=
  VideoService.mkContentData
    (if Js.truthy_str (uv_title dto) then uv_title dto else None)
    (uv_description dto)
    (if Js.truthy_str (uv_script dto) then uv_script dto else None)
    (if Js.truthy_ref (uv_tags dto) then uv_tags dto else None)
    (if Js.truthy_ref (uv_generationSettings dto) then uv_generationSettings dto else None).

(** The [generationSettings] object literal of [generateVideo]. *)
Definition merged_settings (series : UserSeries) (dto : GenerateVideoDto) : Js.Obj :=
  let styles :=
    Js.spread
      (Js.spread (Js.or_ref (series_visualStyle series) ∅)
                 (Js.or_ref (series_voiceSettings series) ∅))
      (Js.or_ref (series_musicSettings series) ∅) in
  let fixed :=
    <["priority" := Js.JStr (Js.or_str (gen_priority dto) "normal")]>
      (<["useTrending" := Js.JBool (series_useTrendingTopics series)]>
         (<["style" := Js.JStr (series_contentStyle series)]>
            (<["duration" := Js.JNum (series_videoDuration series)]> styles))) in
  Js.spread fixed (Js.or_ref (gen_generationSettings dto) ∅).

(** [generateDto.topic || `${series.name} Episode
    ${series.totalVideosGenerated + 1}`]. *)
Definition videoTitle (dto : GenerateVideoDto) (series : UserSeries) : string :=
  Js.or_str (gen_topic dto)
    (series_name series ++ " Episode "
       ++ Js.num_to_string (series_totalVideosGenerated series + 1)).

(** [series.customPrompt || '...']. *)
Definition prompt (series : UserSeries) : string :=
  Js.or_str (series_customPrompt series)
    "Generate engaging video content based on series theme".

(** The [videoData] object of [generateVideo]. *)
Definition videoData (userId : string) (dto : GenerateVideoDto) (series : UserSeries)
    : VideoService.CreateData :=
  VideoService.mkCreateData userId (gen_seriesId dto)
    (videoTitle dto series)
    (Some ("Auto-generated video for " ++ series_name series ++ " series"))
    "[AI Generated Script - Processing...]"
    (prompt series)
    (Some [series_name series; "ai-generated"])
    (Some (merged_settings series dto)).

(** Does [post.scheduledFor?.toISOString()] or
    [post.publishedAt?.toISOString()] give a string? *)
Definition has_date (post : SocialPost) : bool :=
  Js.truthy_ref (post_scheduledFor post) || Js.truthy_ref (post_publishedAt post).

(** Does building the response of a video throw? The object literal reads
    [video.series.id], a [TypeError] when the video has no series; and
    [plainToClass(VideoResponseDto, ...)] applies [VideoSocialPostDto]'s
    [@Transform(({ value }) => value?.toISOString())] to the [scheduledFor]
    and [publishedAt] of each post, which the handler has already turned into
    ISO strings: a [TypeError] as soon as a post of the video has one of the
    two dates. *)
Definition response_throws (db : Db) (video : Video) : bool :=
  negb (Js.truthy_ref (userSeries db !! video_seriesId video))
  || existsb has_date (VideoService.socialPosts_of db video).

(** [plainToClass(VideoResponseDto, { ...video, series: { id:
    video.series.id, name: video.series.name }, socialPosts })], for its
    outcome: a handler returns the row its response DTO is projected from. *)
Definition toResponse (video : Video) : Handler Video :=
  fun db => if response_throws db video then (Thrown TypeError, db) else (Returned video, db).

(** [l.map(f)] for an [f] that may throw. *)
Fixpoint map_handler {A B} (f : A -> Handler B) (l : list A) : Handler (list B) :=
  match l with
  | [] => ret []
  | x :: l' =>
      let* y := f x in
      let* ys := map_handler f l' in
      ret (y :: ys)
  end.

(** [{ ...video, status: 'queued', generationProgress: 0 }]. *)
Definition with_queued (v : Video) : Video :=
  mkVideo (video_id v) (video_userId v) (video_seriesId v) (video_title v)
    (video_description v) (video_script v) (video_promptUsed v) (video_tags v)
    (video_generationSettings v) "queued" 0 (video_errorMessage v)
    (video_createdAt v) (video_updatedAt v).

Section WithStore.
Variable now : Z.
Variable newId : string.
Variable defaultStatus : string.
Variable defaultProgress : Z.

Definition generateVideo (userId : string) (generateVideoDto : GenerateVideoDto)
    : Handler Video :=
  let* series := SeriesService.getSeriesById (gen_seriesId generateVideoDto) in
  match series with
  | None => throw (Http (BadRequestException "Series not found"))
  | Some series =>
      throw_if (strict_ne (series_userId series) userId)
        (Http (ForbiddenException "You can only generate videos in your own series")) ;;;
      throw_if (negb (series_isActive series))
        (Http (BadRequestException "Cannot generate videos for inactive series")) ;;;
      let* video :=
        VideoService.createVideo now newId defaultStatus defaultProgress
          (videoData userId generateVideoDto series) in
      VideoService.updateVideoStatus now (video_id video) "queued" (Js.Value 0) None ;;;
      SeriesService.updateSeriesStats now (gen_seriesId generateVideoDto)
        (SeriesService.mkStatsInput
           (Some (series_totalVideosGenerated series + 1)) None None) ;;;
      ret (with_queued video)
  end.

Definition getVideoById (userId id : string) : Handler Video :=
  let* video := VideoService.findVideoById id in
  match video with
  | None => throw (Http (NotFoundException "Video not found"))
  | Some video =>
      throw_if (strict_ne (video_userId video) userId)
        (Http (ForbiddenException "You can only access your own videos")) ;;;
      toResponse video
  end.

Definition updateVideo (userId id : string) (updateVideoDto : UpdateVideoDto)
    : Handler Video :=
  let* existingVideo := VideoService.findVideoById id in
  match existingVideo with
  | None => throw (Http (NotFoundException "Video not found"))
  | Some existingVideo =>
      throw_if (strict_ne (video_userId existingVideo) userId)
        (Http (ForbiddenException "You can only update your own videos")) ;;;
      try_catch
        ((if Js.truthy_str (uv_status updateVideoDto) then
            VideoService.updateVideoStatus now id
              (default "" (uv_status updateVideoDto))
              (uv_generationProgress updateVideoDto)
              (uv_errorMessage updateVideoDto) ;;; ret tt
          else ret tt) ;;;
         let updateData := updateData_of updateVideoDto in
         (if 0 <? keys_length updateData then
            VideoService.updateVideoContent now id updateData ;;; ret tt
          else ret tt) ;;;
         let* updatedVideo := VideoService.findVideoById id in
         match updatedVideo with
         | Some updatedVideo => toResponse updatedVideo
         | None => throw TypeError
         end)
        (rethrow_P2025 "Video not found")
  end.

Definition deleteVideo (userId id : string) : Handler unit :=
  let* existingVideo := VideoService.findVideoById id in
  match existingVideo with
  | None => throw (Http (NotFoundException "Video not found"))
  | Some existingVideo =>
      throw_if (strict_ne (video_userId existingVideo) userId)
        (Http (ForbiddenException "You can only delete your own videos")) ;;;
      try_catch (VideoService.deleteVideo id ;;; ret tt)
        (rethrow_P2025 "Video not found")
  end.
End WithStore.

Section Search.
(** [String.prototype.toLowerCase], as in [SeriesController]. *)
Variable toLowerCase : string -> string.

Definition getUserVideos (userId : string) (paginationDto : PaginationDto)
    (status seriesId : option string) : Handler (PaginatedResponseDto Video) :=
  let page := Js.or_num (page paginationDto) 1 in
  let limit := Js.or_num (limit paginationDto) 10 in
  let offset := (page - 1) * limit in
  let* videos :=
    VideoService.getUserVideos userId
      (VideoService.mkListOptions status seriesId (Some limit) (Some offset)) in
  let filteredVideos :=
    if Js.truthy_str (search paginationDto) then
      let searchTerm := toLowerCase (default "" (search paginationDto)) in
      filter (fun video =>
                Js.includes (toLowerCase (video_title video)) searchTerm
                || match video_description video with
                   | Some d => Js.includes (toLowerCase d) searchTerm
                   | None => false
                   end
                || existsb (fun tag => Js.includes (toLowerCase tag) searchTerm)
                     (video_tags video) = true) videos
    else videos in
  let* responseData := map_handler toResponse filteredVideos in
  let total := Z.of_nat (length filteredVideos) in
  ret (new_PaginatedResponseDto responseData total page limit).

(** The [filteredVideos] list of [getUserVideos], for a page of at least 1:
    the window of the user's videos the store returns, after the search
    filter. *)
Definition filteredVideos (userId : string) (paginationDto : PaginationDto)
    (status seriesId : option string) (db : Db) : list Video :=
  let page := Js.or_num (page paginationDto) 1 in
  let limit := Js.or_num (limit paginationDto) 10 in
  let videos :=
    take (Z.to_nat limit)
      (drop (Z.to_nat ((page - 1) * limit))
         (Prisma.findMany_desc (videos db)
            (fun v =>
               String.eqb (video_userId v) userId
               && (if Js.truthy_str status
                   then String.eqb (video_status v) (default "" status)
                   else true)
               && (if Js.truthy_str seriesId
                   then String.eqb (video_seriesId v) (default "" seriesId)
                   else true))
            video_createdAt)) in
  if Js.truthy_str (search paginationDto) then
    let searchTerm := toLowerCase (default "" (search paginationDto)) in
    filter (fun video =>
              Js.includes (toLowerCase (video_title video)) searchTerm
              || match video_description video with
                 | Some d => Js.includes (toLowerCase d) searchTerm
                 | None => false
                 end
              || existsb (fun tag => Js.includes (toLowerCase tag) searchTerm)
                   (video_tags video) = true) videos
  else videos.
End Search.

(** An entry of [recentVideos] in the analytics dashboard. *)
Record RecentVideo := mkRecentVideo {
  rv_id : string;
  rv_title : string;
  rv_status : string;
  rv_createdAt : Z;
  rv_socialPostsCount : Z;
  rv_totalViews : Z;
}.

(** The object [getVideoAnalytics] returns. *)
Record Dashboard := mkDashboard {
  totalVideos : Z;
  totalSocialPosts : Z;
  totalViews : Z;
  totalLikes : Z;
  avgGenerationCost : float;
  statusDistribution : gmap string Z;
  recentVideos : list RecentVideo;
  avgViewsPerVideo : float;
  avgLikesPerVideo : float;
  engagementRate : float;
}.

(** [videos.reduce((acc, video) => { acc[video.status] = (acc[video.status]
    || 0) + 1; return acc; }, {})], for statuses that are not names of
    members of [Object.prototype]. *)
Definition statusCounts (videos : list (Video * list SocialPost)) : gmap string Z :=
  foldl (fun acc video =>
           <[video_status (fst video) := Js.or_num (acc !! video_status (fst video)) 0 + 1]> acc)
    ∅ videos.

(** [posts.reduce((postSum, post) => postSum + f(post), 0) || 0]. *)
Definition postSum (f : SocialPost -> Z) (posts : list SocialPost) : Z :=
  Js.or_num (Some (foldl (fun postSum post => postSum + f post) 0 posts)) 0.

Section Analytics.
Variable now : Z.
Variable subDays : Z -> Z -> Z.
(** [Number(video.generationCost || 0)]: the video's generation-cost
    column, which the modelled row does not carry. *)
Variable generationCost : Video -> float.

Definition getVideoAnalytics (userId : string) (period : option Z) : Handler Dashboard :=
  let* videos := VideoService.getVideoAnalytics now subDays userId period in
  let count := Z.of_nat (length videos) in
  let totalSocialPosts :=
    foldl (fun sum video => sum + Js.or_num (Some (Z.of_nat (length (snd video)))) 0)
      0 videos in
  let totalViews :=
    foldl (fun sum video => sum + postSum post_viewsCount (snd video)) 0 videos in
  let totalLikes :=
    foldl (fun sum video => sum + postSum post_likesCount (snd video)) 0 videos in
  let avgGenerationCost :=
    if 0 <? count
    then PrimFloat.div
           (foldl (fun sum video => PrimFloat.add sum (generationCost (fst video)))
              0%float videos)
           (Js.Number_of_Z count)
    else 0%float in
  ret (mkDashboard count totalSocialPosts totalViews totalLikes avgGenerationCost
         (statusCounts videos)
         ((fun video =>
             mkRecentVideo (video_id (fst video)) (video_title (fst video))
               (video_status (fst video)) (video_createdAt (fst video))
               (Js.or_num (Some (Z.of_nat (length (snd video)))) 0)
               (postSum post_viewsCount (snd video)))
            <$> Js.slice videos 0 10)
         (if 0 <? count
          then PrimFloat.div (Js.Number_of_Z totalViews) (Js.Number_of_Z count)
          else 0%float)
         (if 0 <? count
          then PrimFloat.div (Js.Number_of_Z totalLikes) (Js.Number_of_Z count)
          else 0%float)
         (if 0 <? totalViews
          then PrimFloat.mul
                 (PrimFloat.div (Js.Number_of_Z totalLikes) (Js.Number_of_Z totalViews))
                 (Js.Number_of_Z 100)
          else 0%float)).
End Analytics.

End VideosController.

(** ** database/social-account.service.ts *)
Module SocialAccountService.

(** The [data] argument of [connectAccount]. *)
Record ConnectData := mkConnectData {
  cn_userId : string;
  cn_platform : string;
  cn_platformUserId : string;
  cn_username : string;
  cn_displayName : option string;
  cn_accessToken : string;
  cn_refreshToken : option string;
  cn_tokenExpiresAt : option Z;
  cn_followerCount : option Z;
  cn_profileImageUrl : option string;
  cn_isVerified : option bool;
  cn_autoPost : option bool;
}.

(** The fields a [Prisma.SocialAccountUpdateInput] built from an
    [UpdateSocialAccountDto] can carry: those of [ConnectSocialAccountDto],
    all optional, and [isActive]. *)
Record UpdateInput := mkUpdateInput {
  up_platform : option string;
  up_platformUserId : option string;
  up_username : option string;
  up_displayName : option string;
  up_accessToken : option string;
  up_refreshToken : option string;
  up_tokenExpiresAt : option Z;
  up_followerCount : option Z;
  up_profileImageUrl : option string;
  up_isVerified : option bool;
  up_autoPost : option bool;
  up_isActive : option bool;
}.

Definition keep {A} (new old : option A) : option A :=
  match new with Some x => Some x | None => old end.

(** [{ ...data, lastSyncAt }] as a row update. *)
Definition with_data (d : UpdateInput) (lastSyncAt : Z) (a : SocialAccount) : SocialAccount :=
  mkSocialAccount (account_id a) (account_userId a)
    (default (account_platform a) (up_platform d))
    (default (account_platformUserId a) (up_platformUserId d))
    (default (account_username a) (up_username d))
    (keep (up_displayName d) (account_displayName a))
    (default (account_accessToken a) (up_accessToken d))
    (keep (up_refreshToken d) (account_refreshToken a))
    (keep (up_tokenExpiresAt d) (account_tokenExpiresAt a))
    (keep (up_followerCount d) (account_followerCount a))
    (keep (up_profileImageUrl d) (account_profileImageUrl a))
    (keep (up_isVerified d) (account_isVerified a))
    (default (account_isActive a) (up_isActive d))
    (default (account_autoPost a) (up_autoPost d))
    (account_connectedAt a) (Some lastSyncAt).

(** [{ ...metrics, lastSyncAt }] as a row update. *)
Definition with_metrics (followerCount : option Z) (profileImageUrl : option string)
    (isVerified : option bool) (lastSyncAt : Z) (a : SocialAccount) : SocialAccount :=
  mkSocialAccount (account_id a) (account_userId a) (account_platform a)
    (account_platformUserId a) (account_username a) (account_displayName a)
    (account_accessToken a)
    (account_refreshToken a) (account_tokenExpiresAt a)
    (keep followerCount (account_followerCount a))
    (keep profileImageUrl (account_profileImageUrl a))
    (keep isVerified (account_isVerified a))
    (account_isActive a) (account_autoPost a)
    (account_connectedAt a) (Some lastSyncAt).

Definition with_autoPost (autoPost : bool) (a : SocialAccount) : SocialAccount :=
  mkSocialAccount (account_id a) (account_userId a) (account_platform a)
    (account_platformUserId a) (account_username a) (account_displayName a)
    (account_accessToken a)
    (account_refreshToken a) (account_tokenExpiresAt a)
    (account_followerCount a) (account_profileImageUrl a) (account_isVerified a)
    (account_isActive a) autoPost
    (account_connectedAt a) (account_lastSyncAt a).

(** [posts.reduce((sum, post) => sum + f(post), 0)], a sum of integers. *)
Definition reduce_sum (f : SocialPost -> Z) (posts : list SocialPost) : Z :=
  foldl (fun sum post => sum + f post) 0 posts.

(** The object [getAccountAnalytics] returns. *)
Record Analytics := mkAnalytics {
  an_account : SocialAccount;
  an_totalPosts : Z;
  an_totalViews : Z;
  an_totalLikes : Z;
  an_totalComments : Z;
  an_totalShares : Z;
  an_avgEngagementRate : float;
  an_postsPerDay : float;
  an_recentPosts : list SocialPost;
}.

Section WithStore.
Variable now : Z.
Variable newId : string.
(** Column defaults and unique constraints of the social-account table
    (the Prisma schema is not among the sources). *)
Variable defaultIsActive : bool.
Variable defaultAutoPost : bool.
Variable violatesUnique : gmap string SocialAccount -> SocialAccount -> bool.
(** [d.setDate(d.getDate() - days)]: the instant [days] calendar days
    before [d]. *)
Variable subDays : Z -> Z -> Z.

Definition connectAccount (d : ConnectData) : Handler SocialAccount :=
  let row :=
    mkSocialAccount newId (cn_userId d) (cn_platform d) (cn_platformUserId d)
      (cn_username d) (cn_displayName d) (cn_accessToken d) (cn_refreshToken d)
      (cn_tokenExpiresAt d) (cn_followerCount d) (cn_profileImageUrl d)
      (cn_isVerified d) defaultIsActive (default defaultAutoPost (cn_autoPost d))
      now None in
  fun db =>
    if violatesUnique (socialAccounts db) row
    then (Thrown (PrismaClientKnownRequestError "P2002"), db)
    else Prisma.create socialAccounts set_socialAccounts account_id row db.

Definition getSocialAccountById (id : string) : Handler (option SocialAccount) :=
  Prisma.findUnique socialAccounts id.

Definition getSocialAccountByPlatform (userId platform : string)
    : Handler (option SocialAccount) :=
  Prisma.findFirst socialAccounts
    (fun a =>
       String.eqb (account_userId a) userId
       && String.eqb (account_platform a) platform
       && Bool.eqb (account_isActive a) true).

(** [update({ where: { id }, data: { ...data, lastSyncAt } })]: P2025 when
    the row is gone, P2002 when the updated row violates a unique constraint
    against the other rows. *)
Definition updateSocialAccount (id : string) (d : UpdateInput) : Handler SocialAccount :=
  fun db =>
    match socialAccounts db !! id with
    | None => (Thrown (PrismaClientKnownRequestError "P2025"), db)
    | Some a =>
        if violatesUnique (base.delete id (socialAccounts db)) (with_data d now a)
        then (Thrown (PrismaClientKnownRequestError "P2002"), db)
        else Prisma.update socialAccounts set_socialAccounts id (with_data d now) db
    end.

Definition updateAccountMetrics (id : string) (followerCount : option Z)
    (profileImageUrl : option string) (isVerified : option bool)
    : Handler SocialAccount :=
  Prisma.update socialAccounts set_socialAccounts id
    (with_metrics followerCount profileImageUrl isVerified now).

Definition toggleAutoPost (id : string) (autoPost : bool) : Handler SocialAccount :=
  Prisma.update socialAccounts set_socialAccounts id (with_autoPost autoPost).

Definition getAccountAnalytics (accountId : string) (days : option Z)
    : Handler (option Analytics) :=
  let days := default 30 days in
  let startDate := subDays now days in
  let* account := Prisma.findUnique socialAccounts accountId in
  match account with
  | None => ret None
  | Some account =>
      fun db =>
        let posts :=
          Prisma.findMany_desc (socialPosts db)
            (fun p => String.eqb (post_socialAccountId p) accountId
                      && (startDate <=? post_createdAt p))
            post_createdAt in
        let totalPosts := Z.of_nat (length posts) in
        let totalViews := reduce_sum post_viewsCount posts in
        let totalLikes := reduce_sum post_likesCount posts in
        let totalComments := reduce_sum post_commentsCount posts in
        let totalShares := reduce_sum post_sharesCount posts in
        let avgEngagement :=
          if (0 <? totalPosts) && (0 <? totalViews)
          then PrimFloat.mul
                 (PrimFloat.div
                    (Js.Number_of_Z (totalLikes + totalComments + totalShares))
                    (Js.Number_of_Z totalViews))
                 (Js.Number_of_Z 100)
          else 0%float in
        (Returned
           (Some (mkAnalytics account totalPosts totalViews totalLikes
                    totalComments totalShares avgEngagement
                    (if 0 <? days
                     then PrimFloat.div (Js.Number_of_Z totalPosts) (Js.Number_of_Z days)
                     else 0%float)
                    (Js.slice posts 0 10))), db)
  end.

Definition disconnectAccount (id : string) : Handler SocialAccount :=
  Prisma.delete socialAccounts set_socialAccounts Prisma.cascade_socialAccount id.
End WithStore.

(** [{ accessToken, refreshToken, tokenExpiresAt: expiresAt, lastSyncAt }]
    as a row update: an [undefined] value leaves its column alone. *)
Definition with_tokens (accessToken : string) (refreshToken : option string)
    (expiresAt : option Z) (lastSyncAt : Z) (a : SocialAccount) : SocialAccount :=
  mkSocialAccount (account_id a) (account_userId a) (account_platform a)
    (account_platformUserId a) (account_username a) (account_displayName a) accessToken
    (keep refreshToken (account_refreshToken a))
    (keep expiresAt (account_tokenExpiresAt a))
    (account_followerCount a) (account_profileImageUrl a) (account_isVerified a)
    (account_isActive a) (account_autoPost a)
    (account_connectedAt a) (Some lastSyncAt).

Definition with_isActive (isActive : bool) (lastSyncAt : Z) (a : SocialAccount)
    : SocialAccount :=
  mkSocialAccount (account_id a) (account_userId a) (account_platform a)
    (account_platformUserId a) (account_username a) (account_displayName a)
    (account_accessToken a)
    (account_refreshToken a) (account_tokenExpiresAt a)
    (account_followerCount a) (account_profileImageUrl a) (account_isVerified a)
    isActive (account_autoPost a)
    (account_connectedAt a) (Some lastSyncAt).

Section Queries.
Variable now : Z.
Variable subDays : Z -> Z -> Z.

Definition updateTokens (id accessToken : string) (refreshToken : option string)
    (expiresAt : option Z) : Handler SocialAccount :=
  Prisma.update socialAccounts set_socialAccounts id
    (with_tokens accessToken refreshToken expiresAt now).

Definition toggleAccountStatus (id : string) (isActive : bool) : Handler SocialAccount :=
  Prisma.update socialAccounts set_socialAccounts id (with_isActive isActive now).

(** The [findMany] of [getUserSocialAccounts]: each account of the user with
    its five latest posts, latest connection first. *)
Definition getUserSocialAccounts (userId : string)
    : Handler (list (SocialAccount * list SocialPost)) :=
  fun db =>
    (Returned
       ((fun a =>
           (a, take 5 (Prisma.findMany_desc (socialPosts db)
                         (fun p => String.eqb (post_socialAccountId p) (account_id a))
                         post_createdAt)))
          <$> Prisma.findMany_desc (socialAccounts db)
                (fun a => String.eqb (account_userId a) userId) account_connectedAt),
     db).

(** [where: { ...(userId && { userId }), isActive: true, autoPost: true,
    OR: [{ tokenExpiresAt: null }, { tokenExpiresAt: { gt: new Date() } }] }],
    in the store's order. *)
Definition getActiveAccountsForPosting (userId : option string)
    : Handler (list SocialAccount) :=
  fun db =>
    (Returned
       (filter (fun a =>
                  (if Js.truthy_str userId
                   then String.eqb (account_userId a) (default "" userId)
                   else true)
                  && account_isActive a
                  && account_autoPost a
                  && match account_tokenExpiresAt a with
                     | None => true
                     | Some t => now <? t
                     end = true)
          (map_to_list (socialAccounts db)).*2),
     db).

(** [where: { isActive: true, refreshToken: { not: null }, tokenExpiresAt:
    { lt: tomorrow } }] with [tomorrow.setDate(tomorrow.getDate() + 1)], in
    the store's order. *)
Definition getAccountsNeedingRefresh : Handler (list SocialAccount) :=
  let tomorrow := subDays now (-1) in
  fun db =>
    (Returned
       (filter (fun a =>
                  account_isActive a
                  && Js.truthy_ref (account_refreshToken a)
                  && match account_tokenExpiresAt a with
                     | None => false
                     | Some t => t <? tomorrow
                     end = true)
          (map_to_list (socialAccounts db)).*2),
     db).
End Queries.

End SocialAccountService.

(** ** social/social.controller.ts *)
Module SocialController.

(** [ConnectSocialAccountDto]; [tokenExpiresAt] is the instant its date
    string denotes. *)
Record ConnectSocialAccountDto := mkConnectSocialAccountDto {
  dto_platform : string;
  dto_platformUserId : string;
  dto_username : string;
  dto_displayName : option string;
  dto_accessToken : string;
  dto_refreshToken : option string;
  dto_tokenExpiresAt : option Z;
  dto_followerCount : option Z;
  dto_profileImageUrl : option string;
  dto_isVerified : option bool;
  dto_autoPost : option bool;
}.

Section WithStore.
Variable now : Z.
Variable newId : string.
Variable defaultIsActive : bool.
Variable defaultAutoPost : bool.
Variable violatesUnique : gmap string SocialAccount -> SocialAccount -> bool.
Variable subDays : Z -> Z -> Z.

Definition connectSocialAccount (userId : string) (connectDto : ConnectSocialAccountDto)
    : Handler SocialAccount :=
  let* existingAccount :=
    SocialAccountService.getSocialAccountByPlatform userId (dto_platform connectDto) in
  throw_if (Js.truthy_ref existingAccount)
    (Http (ConflictException
             (dto_platform connectDto
                ++ " account is already connected. Disconnect the existing one first."))) ;;;
  try_catch
    (let accountData :=
       SocialAccountService.mkConnectData userId (dto_platform connectDto)
         (dto_platformUserId connectDto) (dto_username connectDto)
         (dto_displayName connectDto)
         (dto_accessToken connectDto) (dto_refreshToken connectDto)
         (dto_tokenExpiresAt connectDto) (dto_followerCount connectDto)
         (dto_profileImageUrl connectDto) (dto_isVerified connectDto)
         (dto_autoPost connectDto) in
     SocialAccountService.connectAccount now newId defaultIsActive defaultAutoPost
       violatesUnique accountData)
    (fun error =>
       if has_code error "P2002"
       then throw (Http (ConflictException "This social account is already connected"))
       else throw error).

Definition getSocialAccountById (userId id : string) : Handler SocialAccount :=
  let* account := SocialAccountService.getSocialAccountById id in
  match account with
  | None => throw (Http (NotFoundException "Social account not found"))
  | Some account =>
      throw_if (strict_ne (account_userId account) userId)
        (Http (ForbiddenException "You can only access your own social accounts")) ;;;
      ret account
  end.

Definition updateSocialAccount (userId id : string)
    (updateDto : SocialAccountService.UpdateInput) : Handler SocialAccount :=
  let* existingAccount := SocialAccountService.getSocialAccountById id in
  match existingAccount with
  | None => throw (Http (NotFoundException "Social account not found"))
  | Some existingAccount =>
      throw_if (strict_ne (account_userId existingAccount) userId)
        (Http (ForbiddenException "You can only update your own social accounts")) ;;;
      try_catch (SocialAccountService.updateSocialAccount now violatesUnique id updateDto)
        (rethrow_P2025 "Social account not found")
  end.

Definition toggleAutoPost (userId id : string) (autoPost : bool)
    : Handler SocialAccount :=
  let* existingAccount := SocialAccountService.getSocialAccountById id in
  match existingAccount with
  | None => throw (Http (NotFoundException "Social account not found"))
  | Some existingAccount =>
      throw_if (strict_ne (account_userId existingAccount) userId)
        (Http (ForbiddenException "You can only modify your own social accounts")) ;;;
      SocialAccountService.toggleAutoPost id autoPost
  end.

Definition syncSocialAccount (userId id : string) : Handler SocialAccount :=
  let* existingAccount := SocialAccountService.getSocialAccountById id in
  match existingAccount with
  | None => throw (Http (NotFoundException "Social account not found"))
  | Some existingAccount =>
      throw_if (strict_ne (account_userId existingAccount) userId)
        (Http (ForbiddenException "You can only sync your own social accounts")) ;;;
      SocialAccountService.updateAccountMetrics now id
        (account_followerCount existingAccount)
        (account_profileImageUrl existingAccount)
        (account_isVerified existingAccount)
  end.

Definition disconnectSocialAccount (userId id : string) : Handler unit :=
  let* existingAccount := SocialAccountService.getSocialAccountById id in
  match existingAccount with
  | None => throw (Http (NotFoundException "Social account not found"))
  | Some existingAccount =>
      throw_if (strict_ne (account_userId existingAccount) userId)
        (Http (ForbiddenException "You can only disconnect your own social accounts")) ;;;
      try_catch (SocialAccountService.disconnectAccount id ;;; ret tt)
        (rethrow_P2025 "Social account not found")
  end.

Definition getSocialAccountAnalytics (userId id : string) (days : option Z)
    : Handler SocialAccountService.Analytics :=
  let* existingAccount := SocialAccountService.getSocialAccountById id in
  match existingAccount with
  | None => throw (Http (NotFoundException "Social account not found"))
  | Some existingAccount =>
      throw_if (strict_ne (account_userId existingAccount) userId)
        (Http (ForbiddenException
                 "You can only access your own social account analytics")) ;;;
      let* analytics :=
        SocialAccountService.getAccountAnalytics now subDays id (Some (default 30 days)) in
      match analytics with
      | None => throw (Http (NotFoundException "Analytics data not found"))
      | Some analytics => ret analytics
      end
  end.
End WithStore.

(** The [recentStats] object of a response. *)
Record RecentStats := mkRecentStats {
  rs_totalPosts : Z;
  rs_totalViews : Z;
  rs_totalLikes : Z;
  rs_avgEngagementRate : float;
}.

Section Listing.
(** [Number(post.engagementRate)]: the post's engagement-rate column, which
    the modelled row does not carry. *)
Variable engagementRate : SocialPost -> float.

Definition recentStats (recentPosts : list SocialPost) : RecentStats :=
  let totalViews := SocialAccountService.reduce_sum post_viewsCount recentPosts in
  let totalLikes := SocialAccountService.reduce_sum post_likesCount recentPosts in
  let avgEngagementRate :=
    if (0 <? length recentPosts)%nat
    then PrimFloat.div
           (foldl (fun sum post => PrimFloat.add sum (engagementRate post)) 0%float
              recentPosts)
           (Js.Number_of_Z (Z.of_nat (length recentPosts)))
    else 0%float in
  mkRecentStats (Z.of_nat (length recentPosts)) totalViews totalLikes avgEngagementRate.

Definition getUserSocialAccounts (userId : string) (platform : option string)
    (isActive : option bool) : Handler (list (SocialAccount * RecentStats)) :=
  let* accounts := SocialAccountService.getUserSocialAccounts userId in
  let accounts :=
    if Js.truthy_str platform
    then filter (fun ap => account_platform (fst ap) = default "" platform) accounts
    else accounts in
  let accounts :=
    match isActive with
    | Some b => filter (fun ap => account_isActive (fst ap) = b) accounts
    | None => accounts
    end in
  ret ((fun ap => (fst ap, recentStats (snd ap))) <$> accounts).
End Listing.

End SocialController.

(** ** dto/social/social-account-response.dto.ts *)
Module SocialAccountResponseDto.

(** The [connectionStatus] getter, read at instant [now]; [tokenExpiresAt]
    is the instant its ISO string denotes. *)
Definition connectionStatus (now : Z) (a : SocialAccount) : string :=
  if match account_tokenExpiresAt a with
     | Some t => t <? now
     | None => false
     end
  then "expired"
  else if account_isActive a then "connected" else "error".

End SocialAccountResponseDto.

(** ** database/user.service.ts *)
Module UserService.

(** The [data] argument of [createProfile]. *)
Record CreateData := mkCreateData {
  cp_id : string;
  cp_email : string;
  cp_fullName : option string;
}.

(** Is [email] already the (unique) email of a stored profile? *)
Definition email_taken (tbl : gmap string Profile) (email : string) : bool :=
  existsb (fun p => String.eqb (profile_email p) email) (map_to_list tbl).*2.

Section WithStore.
(** Column default of [isActive] (the Prisma schema is not among the
    sources). *)
Variable defaultIsActive : bool.

(** [prisma.profile.create({ data })]: [email] is a unique column (it is
    the key of [findProfileByEmail]'s [findUnique]). *)
Definition createProfile (d : CreateData) : Handler Profile :=
  fun db =>
    if email_taken (profiles db) (cp_email d)
    then (Thrown (PrismaClientKnownRequestError "P2002"), db)
    else Prisma.create profiles set_profiles profile_id
           (mkProfile (cp_id d) (cp_email d) (cp_fullName d) defaultIsActive) db.
End WithStore.

(** The fields a [Prisma.ProfileUpdateInput] built from an
    [UpdateProfileDto] can carry. *)
Record UpdateInput := mkUpdateInput {
  pu_email : option string;
  pu_fullName : option string;
  pu_isActive : option bool;
}.

(** [{ ...data }] as a row update. *)
Definition with_data (d : UpdateInput) (p : Profile) : Profile :=
  mkProfile (profile_id p)
    (default (profile_email p) (pu_email d))
    (match pu_fullName d with Some x => Some x | None => profile_fullName p end)
    (default (profile_isActive p) (pu_isActive d)).

Definition with_isActive (isActive : bool) (p : Profile) : Profile :=
  mkProfile (profile_id p) (profile_email p) (profile_fullName p) isActive.

(** Is [email] the (unique) email of a stored profile other than [id]? *)
Definition email_taken_by_other (tbl : gmap string Profile) (id email : string) : bool :=
  existsb (fun kv => negb (String.eqb (fst kv) id)
                     && String.eqb (profile_email (snd kv)) email)
    (map_to_list tbl).

Definition findProfileById (id : string) : Handler (option Profile) :=
  Prisma.findUnique profiles id.

Definition getProfileWithAnalytics (id : string) : Handler (option Profile) :=
  Prisma.findUnique profiles id.

(** [prisma.profile.update({ where: { id }, data })]: P2025 when the row is
    gone, P2002 when the new email is another profile's. *)
Definition updateProfile (id : string) (d : UpdateInput) : Handler Profile :=
  fun db =>
    match profiles db !! id with
    | None => (Thrown (PrismaClientKnownRequestError "P2025"), db)
    | Some _ =>
        if match pu_email d with
           | Some email => email_taken_by_other (profiles db) id email
           | None => false
           end
        then (Thrown (PrismaClientKnownRequestError "P2002"), db)
        else Prisma.update profiles set_profiles id (with_data d) db
    end.

Definition deactivateProfile (id : string) : Handler Profile :=
  Prisma.update profiles set_profiles id (with_isActive false).

End UserService.

(** ** users/users.controller.ts *)
Module UsersController.

Record CreateProfileDto := mkCreateProfileDto {
  dto_email : string;
  dto_fullName : option string;
}.

Section WithStore.
Variable defaultIsActive : bool.
(** The value of [crypto.randomUUID()]. *)
Variable randomUUID : string.

Definition createProfile (createProfileDto : CreateProfileDto) : Handler Profile :=
  try_catch
    (let profileData :=
       UserService.mkCreateData randomUUID (dto_email createProfileDto)
         (dto_fullName createProfileDto) in
     UserService.createProfile defaultIsActive profileData)
    (fun error =>
       if has_code error "P2002"
       then throw (Http (BadRequestException "Profile with this email already exists"))
       else throw error).
End WithStore.

Definition getCurrentProfile (userId : string) : Handler Profile :=
  let* profile := UserService.getProfileWithAnalytics userId in
  match profile with
  | None => throw (Http (NotFoundException "Profile not found"))
  | Some profile => ret profile
  end.

Definition getProfileById (currentUserId id : string) : Handler Profile :=
  throw_if (strict_ne id currentUserId)
    (Http (BadRequestException "You can only access your own profile")) ;;;
  let* profile := UserService.findProfileById id in
  match profile with
  | None => throw (Http (NotFoundException "Profile not found"))
  | Some profile => ret profile
  end.

Definition updateCurrentProfile (userId : string)
    (updateProfileDto : UserService.UpdateInput) : Handler Profile :=
  try_catch (UserService.updateProfile userId updateProfileDto)
    (rethrow_P2025 "Profile not found").

Definition deactivateCurrentProfile (userId : string) : Handler Profile :=
  try_catch (UserService.deactivateProfile userId)
    (rethrow_P2025 "Profile not found").

End UsersController.

(** ** filters/http-exception.filter.ts *)
Module HttpExceptionFilter.

(** [handlePrismaError(error).status]. *)
Definition handlePrismaError (code : string) : Z :=
  if String.eqb code "P2000" then 400
  else if String.eqb code "P2002" then 409
  else if String.eqb code "P2014" then 400
  else if String.eqb code "P2003" then 400
  else if String.eqb code "P2025" then 404
  else if String.eqb code "P2016" then 400
  else if String.eqb code "P2021" then 500
  else if String.eqb code "P2022" then 500
  else 500.

(** The HTTP status [catch] answers with. *)
Definition status (exception : Exception) : Z :=
  match exception with
  | Http e => getStatus e
  | PrismaClientKnownRequestError code => handlePrismaError code
  | PrismaClientError => 500
  | TypeError => 500
  | Error _ => 500
  end.

(** A [message] of a response: a string or an array of strings. *)
Inductive Message :=
| Text (s : string)
| Lines (l : list string).

(** [exception.getResponse()] of an [HttpException]: a string, or an object
    with its [message] and [error] members. *)
Inductive ExceptionResponse :=
| ResponseString (s : string)
| ResponseObject (message : option Message) (error : option string).

Record HttpExceptionValue := mkHttpExceptionValue {
  he_status : Z;
  he_response : ExceptionResponse;
  he_name : string;
  he_message : string;
}.

(** What [catch] can be handed: an [HttpException]; any other [Error], with
    its [name], its [code] and [meta.target] when it has them, and its
    [message]; or a thrown value that is no [Error]. *)
Inductive Caught :=
| CaughtHttp (e : HttpExceptionValue)
| CaughtError (name : string) (code target : option string) (message : string)
| CaughtValue.

Record Detail := mkDetail {
  detail_field : string;
  detail_message : string;
}.

Record ErrorResponse := mkErrorResponse {
  statusCode : Z;
  message : Message;
  error : string;
  timestamp : Z;
  path : string;
  details : option (list Detail);
}.

Inductive LogEntry :=
| LogError (text : string)
| LogWarn (text : string).

(** What [catch] does: the HTTP status it sets, the JSON body it sends, and
    the lines it logs, oldest first. *)
Record Reply := mkReply {
  reply_status : Z;
  reply_body : ErrorResponse;
  reply_logs : list LogEntry;
}.

(** [\w] of a regular expression without flags: [[A-Za-z0-9_]]. *)
Definition is_word (c : ascii) : bool :=
  let n := nat_of_ascii c in
  ((48 <=? n) && (n <=? 57) || (65 <=? n) && (n <=? 90)
   || (97 <=? n) && (n <=? 122) || (n =? 95))%nat.

(** Does the string start with a character [\s] matches? These are U+0009
    to U+000D and U+0020, and beyond ASCII U+00A0, U+1680, U+2000 to U+200A,
    U+2028, U+2029, U+202F, U+205F, U+3000 and U+FEFF, read here in their
    UTF-8 encodings. *)
Definition starts_with_space (s : string) : bool :=
  match s with
  | EmptyString => false
  | String a s1 =>
      let a := nat_of_ascii a in
      ((9 <=? a) && (a <=? 13) || (a =? 32))%nat
      || match s1 with
         | EmptyString => false
         | String b s2 =>
             let b := nat_of_ascii b in
             ((a =? 194) && (b =? 160))%nat
             || match s2 with
                | EmptyString => false
                | String c _ =>
                    let c := nat_of_ascii c in
                    ((a =? 225) && (b =? 154) && (c =? 128)
                     || (a =? 226) && (b =? 128) && (128 <=? c) && (c <=? 138)
                     || (a =? 226) && (b =? 128)
                        && ((c =? 168) || (c =? 169) || (c =? 175))
                     || (a =? 226) && (b =? 129) && (c =? 159)
                     || (a =? 227) && (b =? 128) && (c =? 128)
                     || (a =? 239) && (b =? 187) && (c =? 191))%nat
                end
         end
  end.

(** The longest prefix of word characters, and what follows it. *)
Fixpoint word_prefix (s : string) : string * string :=
  match s with
  | EmptyString => (EmptyString, EmptyString)
  | String c s' =>
      if is_word c
      then let (w, rest) := word_prefix s' in (String c w, rest)
      else (EmptyString, s)
  end.

(** [message.match(/^(\w+)\s+/)], to its first group: the longest run of
    word characters at the front, when it is not empty and white space
    follows it. *)
Definition fieldMatch (message : string) : option string :=
  match word_prefix message with
  | (String c w, rest) => if starts_with_space rest then Some (String c w) else None
  | _ => None
  end.

(** [`${message}`]: an array is joined with commas. *)
Definition message_to_string (m : Message) : string :=
  match m with
  | Text s => s
  | Lines l => String.concat "," l
  end.

(** Truthiness of a [message] member: only [undefined] and [''] are falsy. *)
Definition truthy_message (m : option Message) : bool :=
  match m with
  | Some (Text s) => negb (String.eqb s "")
  | Some (Lines _) => true
  | None => false
  end.

Definition isValidationError (exceptionResponse : ExceptionResponse) : bool :=
  match exceptionResponse with
  | ResponseObject (Some (Lines _)) _ => true
  | _ => false
  end.

Definition isPrismaError (exception : Caught) : bool :=
  match exception with
  | CaughtError name _ _ _ =>
      String.eqb name "PrismaClientKnownRequestError"
      || String.eqb name "PrismaClientUnknownRequestError"
      || String.eqb name "PrismaClientValidationError"
      || String.eqb name "PrismaClientInitializationError"
  | _ => false
  end.

(** [handlePrismaError(error).message]. *)
Definition prismaMessage (code target : option string) : string :=
  let code := default "" code in
  if String.eqb code "P2000" then "The provided value for the column is too long"
  else if String.eqb code "P2002"
       then "A record with this " ++ Js.or_str target "field" ++ " already exists"
  else if String.eqb code "P2014"
       then "The change would violate the required relation constraint"
  else if String.eqb code "P2003" then "Foreign key constraint failed"
  else if String.eqb code "P2025" then "Record not found"
  else if String.eqb code "P2016" then "Query interpretation error"
  else if String.eqb code "P2021" then "The table does not exist in the current database"
  else if String.eqb code "P2022" then "The column does not exist in the current database"
  else "Database operation failed".

(** Does [handlePrismaError] fall to its [default] case (and log there)? *)
Definition unhandledPrismaCode (code : option string) : bool :=
  let code := default "" code in
  negb (existsb (String.eqb code)
          ["P2000"; "P2002"; "P2014"; "P2003"; "P2025"; "P2016"; "P2021"; "P2022"]).

Section Catch.
(** [new Date()], [request.method] and [request.url]. *)
Variable now : Z.
Variable method url : string.

Definition createValidationErrorResponse (messages : list string) : ErrorResponse :=
  mkErrorResponse 422 (Lines messages) "Validation Error" now url
    (Some ((fun message => mkDetail (default "unknown" (fieldMatch message)) message)
             <$> messages)).

Definition createHttpErrorResponse (exception : HttpExceptionValue) : ErrorResponse :=
  match he_response exception with
  | ResponseString s =>
      mkErrorResponse (he_status exception) (Text s) (he_name exception) now url None
  | ResponseObject message error =>
      mkErrorResponse (he_status exception)
        (if truthy_message message then default (Text "") message
         else Text (he_message exception))
        (Js.or_str error (he_name exception)) now url None
  end.

Definition createGenericErrorResponse (statusCode : Z) (message error : string)
    : ErrorResponse :=
  mkErrorResponse statusCode (Text message) error now url None.

Definition catch (exception : Caught) : Reply :=
  let '(status, errorResponse, logs) :=
    match exception with
    | CaughtHttp e =>
        match he_response e with
        | ResponseObject (Some (Lines messages)) _ =>
            if he_status e =? 400
            then (he_status e, createValidationErrorResponse messages, [])
            else (he_status e, createHttpErrorResponse e, [])
        | _ => (he_status e, createHttpErrorResponse e, [])
        end
    | CaughtError name code target message =>
        if isPrismaError exception
        then (handlePrismaError (default "" code),
              createGenericErrorResponse (handlePrismaError (default "" code))
                (prismaMessage code target) "Database Error",
              if unhandledPrismaCode code
              then [LogError ("Unhandled Prisma error: " ++ default "undefined" code)]
              else [])
        else (500,
              createGenericErrorResponse 500 "Internal server error" "Internal Server Error",
              [LogError ("Unexpected error: " ++ message)])
    | CaughtValue =>
        (500,
         createGenericErrorResponse 500 "Internal server error" "Internal Server Error",
         [LogError "Unexpected error: Unknown error"])
    end in
  mkReply status errorResponse
    (logs ++ if status =? 404 then []
             else [LogWarn (method ++ " " ++ url ++ " - " ++ Js.num_to_string status
                              ++ " - " ++ message_to_string (message errorResponse))]).
End Catch.

End HttpExceptionFilter.

(** ** The ownership guard, operation by operation *)
Module OwnershipGuard.

Inductive Resource := Series | AVideo | Account.

(** The single-resource operations of the three controllers, with the
    request body or query each takes besides the [id]. *)
Inductive Operation :=
| SeriesGetById
| SeriesUpdate (d : SeriesService.UserSeriesUpdateInput)
| SeriesToggle (isActive : bool)
| SeriesDelete
| SeriesAnalytics
| VideoGetById
| VideoUpdate (dto : VideosController.UpdateVideoDto)
| VideoDelete
| AccountGetById
| AccountUpdate (d : SocialAccountService.UpdateInput)
| AccountToggleAutoPost (autoPost : bool)
| AccountSync
| AccountDisconnect
| AccountAnalytics (days : option Z).

Definition resource_of (op : Operation) : Resource :=
  match op with
  | SeriesGetById | SeriesUpdate _ | SeriesToggle _ | SeriesDelete
  | SeriesAnalytics => Series
  | VideoGetById | VideoUpdate _ | VideoDelete => AVideo
  | AccountGetById | AccountUpdate _ | AccountToggleAutoPost _ | AccountSync
  | AccountDisconnect | AccountAnalytics _ => Account
  end.

(** The owning user of the stored entity [id], if the entity exists. *)
Definition owner (r : Resource) (db : Db) (id : string) : option string :=
  match r with
  | Series => series_userId <$> userSeries db !! id
  | AVideo => video_userId <$> videos db !! id
  | Account => account_userId <$> socialAccounts db !! id
  end.

(** A handler run for its outcome only. *)
Definition void {A} (h : Handler A) : Handler unit := h ;;; ret tt.

Section WithStore.
Variable now : Z.
Variable violatesUnique : gmap string SocialAccount -> SocialAccount -> bool.
Variable subDays : Z -> Z -> Z.

(** The controller method behind each operation. *)
Definition run (op : Operation) (userId id : string) : Handler unit :=
  match op with
  | SeriesGetById => void (SeriesController.getSeriesById userId id)
  | SeriesUpdate d => void (SeriesController.updateSeries now userId id d)
  | SeriesToggle b => void (SeriesController.toggleSeriesStatus now userId id b)
  | SeriesDelete => SeriesController.deleteSeries userId id
  | SeriesAnalytics => void (SeriesController.getSeriesAnalytics userId id)
  | VideoGetById => void (VideosController.getVideoById userId id)
  | VideoUpdate dto => void (VideosController.updateVideo now userId id dto)
  | VideoDelete => VideosController.deleteVideo userId id
  | AccountGetById => void (SocialController.getSocialAccountById userId id)
  | AccountUpdate d =>
      void (SocialController.updateSocialAccount now violatesUnique userId id d)
  | AccountToggleAutoPost b => void (SocialController.toggleAutoPost userId id b)
  | AccountSync => void (SocialController.syncSocialAccount now userId id)
  | AccountDisconnect => SocialController.disconnectSocialAccount userId id
  | AccountAnalytics days =>
      void (SocialController.getSocialAccountAnalytics now subDays userId id days)
  end.
End WithStore.

End OwnershipGuard.

(** ** Request validation (class-validator decorators of the DTOs) *)

(** [PaginationDto]: [page] is [@IsInt() @Min(1)], [limit] is
    [@IsInt() @Min(1) @Max(100)], both [@IsOptional()]. *)
Definition PaginationDto_valid (p : PaginationDto) : Prop :=
  match page p with Some n => 1 <= n | None => True end
  /\ match limit p with Some n => 1 <= n <= 100 | None => True end.

(** ** A small store used to run the handlers *)
Module Sample.

Definition series1 : UserSeries :=
  mkUserSeries "s1" "u1" "Daily Tech" None None None None None 60 "engaging"
    true true 0 0 0 10 10.

Definition series2 : UserSeries :=
  mkUserSeries "s2" "u1" "Paused" None None None None None 60 "engaging"
    true false 4 7 2 11 11.

Definition video1 : Video :=
  mkVideo "v1" "u1" "s1" "Intro" None "script" "prompt" [] ∅ "queued" 0 None 20 20.

Definition account1 : SocialAccount :=
  mkSocialAccount "a1" "u1" "youtube" "UC1" "tech" None "tok" None None None None None
    true true 30 None.

Definition post1 : SocialPost := mkSocialPost "p1" "a1" "v1" 0 3 1 1 None None 40.
Definition post2 : SocialPost := mkSocialPost "p2" "a1" "v1" 200 10 4 6 None None 41.

Definition profile1 : Profile := mkProfile "u1" "u1@example.com" None true.

Definition db : Db :=
  mkDb {[ "u1" := profile1 ]}
       (<["s2" := series2]> {[ "s1" := series1 ]})
       {[ "v1" := video1 ]}
       {[ "a1" := account1 ]}
       (<["p2" := post2]> {[ "p1" := post1 ]}).


(** [setDate(getDate() - days)] with instants counted in days. *)
Definition subDays (d days : Z) : Z := d - days.

(** [toLowerCase] on strings of ASCII characters. *)
Definition lower_ascii (c : ascii) : ascii :=
  let n := nat_of_ascii c in
  if (65 <=? n)%nat && (n <=? 90)%nat then ascii_of_nat (n + 32) else c.

Fixpoint toLowerCase (s : string) : string :=
  match s with
  | EmptyString => EmptyString
  | String c s' => String (lower_ascii c) (toLowerCase s')
  end.

(** A store with a second, later video of the same user. *)
Definition video2 : Video :=
  mkVideo "v2" "u1" "s1" "Second" None "script" "prompt" [] ∅ "ready" 100 None 30 30.

Definition db_two_videos : Db :=
  set_videos (<["v2" := video2]> {[ "v1" := video1 ]}) db.

(** A store in which a post of the video has been published. *)
Definition post3 : SocialPost := mkSocialPost "p3" "a1" "v1" 5 1 0 0 None (Some 45) 44.

Definition db_published : Db :=
  set_socialPosts (<["p3" := post3]> (socialPosts db)) db.

Definition no_unique_constraint (_ : gmap string SocialAccount) (_ : SocialAccount)
  : bool := false.


(** A store whose video has failed with a message. *)
Definition failed_video1 : Video :=
  VideoService.with_status "failed" None (Some "boom") 40 video1.

Definition db_failed : Db := set_videos {[ "v1" := failed_video1 ]} db.

(** A store with a second profile. *)
Definition profile2 : Profile := mkProfile "u2" "u2@example.com" None true.

Definition db_two_profiles : Db :=
  set_profiles (<["u2" := profile2]> {[ "u1" := profile1 ]}) db.



End Sample.

(** ** Vocabulary of the properties *)

(** The items of page [page] of a list cut in pages of [limit] items. *)
Definition page_of {T} (items : list T) (page limit : Z) : list T :=
  take (Z.to_nat limit) (drop (Z.to_nat ((page - 1) * limit)) items).

(** A paginated response as the specification asks for it, for a list
    operation that was asked for page [page] with [limit] items per page and
    reports [total] items: the metadata repeats the three numbers;
    [totalPages] is [ceil(total / limit)], that is the integer [k] with
    [limit * (k - 1) < total <= limit * k]; [hasNext] is [page < totalPages];
    [hasPrev] is [page > 1]; and the page holds no more than [limit] items. *)
Definition paginated_as_specified {T} (page limit total : Z)
    (r : PaginatedResponseDto T) : Prop :=
  meta_page (meta r) = page
  /\ meta_limit (meta r) = limit
  /\ meta_total (meta r) = total
  /\ limit * (meta_totalPages (meta r) - 1) < total <= limit * meta_totalPages (meta r)
  /\ meta_hasNext (meta r) = (page <? meta_totalPages (meta r))
  /\ meta_hasPrev (meta r) = (1 <? page)
  /\ Z.of_nat (length (data r)) <= limit.


(** The sum of a counter over a list of posts. *)
Definition total (f : SocialPost -> Z) (posts : list SocialPost) : Z :=
  foldr (fun p acc => f p + acc) 0 posts.


(** Does the stored video [v] of key [key] depend on the entity [id] of the
    resource, so that it goes when the entity is deleted? *)
Definition video_depends (r : OwnershipGuard.Resource) (id key : string) (v : Video)
    : Prop :=
  match r with
  | OwnershipGuard.Series => video_seriesId v = id
  | OwnershipGuard.AVideo => key = id
  | OwnershipGuard.Account => False
  end.

(** Does the stored post [p] depend on the entity [id] of the resource? *)
Definition post_depends (r : OwnershipGuard.Resource) (db : Db) (id : string)
    (p : SocialPost) : Prop :=
  match r with
  | OwnershipGuard.Series => Prisma.post_of_series db id p = true
  | OwnershipGuard.AVideo => post_videoId p = id
  | OwnershipGuard.Account => post_socialAccountId p = id
  end.

(** * Properties *)

(** ** Running handlers: unfolding lemmas *)

Lemma bind_returned {A B} (m : Handler A) (k : A -> Handler B) db a db' :
  m db = (Returned a, db') -> bind m k db = k a db'.
Proof. intros H. unfold bind. now rewrite H. Qed.

Lemma bind_thrown {A B} (m : Handler A) (k : A -> Handler B) db e db' :
  m db = (Thrown e, db') -> bind m k db = (Thrown e, db').
Proof. intros H. unfold bind. now rewrite H. Qed.

Lemma findUnique_run {R} (tbl : Db -> gmap string R) id db :
  Prisma.findUnique tbl id db = (Returned (tbl db !! id), db).
Proof. reflexivity. Qed.

Lemma update_run_Some {R} (tbl : Db -> gmap string R) set_tbl id f db r :
  tbl db !! id = Some r ->
  Prisma.update tbl set_tbl id f db = (Returned (f r), set_tbl (<[id := f r]> (tbl db)) db).
Proof. intros H. unfold Prisma.update. now rewrite H. Qed.

Lemma strict_ne_same a : strict_ne a a = false.
Proof. unfold strict_ne. now rewrite String.eqb_refl. Qed.

Lemma strict_ne_diff a b : a <> b -> strict_ne a b = true.
Proof.
  intros H. unfold strict_ne. destruct (String.eqb_spec a b); [contradiction | reflexivity].
Qed.

(** ** C4: [updateSeriesStats] without an explicit generated-count *)

(** C4. On an existing series, [updateSeriesStats] called without a
    [totalVideosGenerated] value stores the prior generated-count plus one;
    [totalViews] and [totalLikes] keep their prior values unless a value is
    supplied; and the operation is not idempotent: calling it again with the
    same argument adds one more. *)
Theorem updateSeriesStats_bumps_generated_count
    (now : Z) (db : Db) (id : string) (stats : SeriesService.StatsInput)
    (current : UserSeries) :
  userSeries db !! id = Some current ->
  SeriesService.totalVideosGenerated stats = None ->
  exists updated db',
    SeriesService.updateSeriesStats now id stats db = (Returned updated, db')
    /\ userSeries db' !! id = Some updated
    /\ series_totalVideosGenerated updated = series_totalVideosGenerated current + 1
    /\ series_totalViews updated
       = default (series_totalViews current) (SeriesService.totalViews stats)
    /\ series_totalLikes updated
       = default (series_totalLikes current) (SeriesService.totalLikes stats)
    /\ exists again db'',
         SeriesService.updateSeriesStats now id stats db' = (Returned again, db'')
         /\ userSeries db'' !! id = Some again
         /\ series_totalVideosGenerated again = series_totalVideosGenerated current + 2.
Proof.
  intros Hcur Hnone.
  unfold SeriesService.updateSeriesStats.
  rewrite (bind_returned _ _ db (Some current) db) by (rewrite findUnique_run, Hcur; reflexivity).
  rewrite (update_run_Some _ _ _ _ _ current Hcur), Hnone.
  eexists _, _. split; [reflexivity |].
  split; [simpl; apply lookup_insert_eq |].
  split; [reflexivity |].
  split; [simpl; destruct (SeriesService.totalViews stats); reflexivity |].
  split; [simpl; destruct (SeriesService.totalLikes stats); reflexivity |].
  set (updated := SeriesService.with_stats _ _ _ _ current).
  set (db1 := set_userSeries _ db).
  assert (Hup : userSeries db1 !! id = Some updated) by (simpl; apply lookup_insert_eq).
  rewrite (bind_returned _ _ db1 (Some updated) db1) by (rewrite findUnique_run, Hup; reflexivity).
  rewrite (update_run_Some _ _ _ _ _ updated Hup).
  eexists _, _. split; [reflexivity |].
  split; [simpl; apply lookup_insert_eq |].
  subst updated. simpl. lia.
Qed.

Lemma updateSeriesStats_bumps_generated_count_witness :
  exists updated db',
    SeriesService.updateSeriesStats 50 "s2" (SeriesService.mkStatsInput None (Some 9) None)
      Sample.db = (Returned updated, db')
    /\ series_totalVideosGenerated updated = 5
    /\ series_totalViews updated = 9
    /\ series_totalLikes updated = 2.
Proof.
  destruct (updateSeriesStats_bumps_generated_count 50 Sample.db "s2"
              (SeriesService.mkStatsInput None (Some 9) None) Sample.series2
              eq_refl eq_refl)
    as (updated & db' & Hrun & _ & Hgen & Hviews & Hlikes & _).
  exists updated, db'. repeat split; assumption.
Defined.


Lemma create_run_None {R} (tbl : Db -> gmap string R) set_tbl key r db :
  tbl db !! key r = None ->
  Prisma.create tbl set_tbl key r db = (Returned r, set_tbl (<[key r := r]> (tbl db)) db).
Proof. intros H. unfold Prisma.create. now rewrite H. Qed.

Lemma create_run_Some {R} (tbl : Db -> gmap string R) set_tbl key r db old :
  tbl db !! key r = Some old ->
  Prisma.create tbl set_tbl key r db = (Thrown (PrismaClientKnownRequestError "P2002"), db).
Proof. intros H. unfold Prisma.create. now rewrite H. Qed.

Lemma updateSeriesStats_run now id stats db current :
  userSeries db !! id = Some current ->
  let updated :=
    SeriesService.with_stats
      (default (series_totalVideosGenerated current + 1)
         (SeriesService.totalVideosGenerated stats))
      (default (series_totalViews current) (SeriesService.totalViews stats))
      (default (series_totalLikes current) (SeriesService.totalLikes stats))
      now current in
  SeriesService.updateSeriesStats now id stats db
  = (Returned updated, set_userSeries (<[id := updated]> (userSeries db)) db).
Proof.
  intros Hcur updated. subst updated. unfold SeriesService.updateSeriesStats.
  rewrite (bind_returned _ _ db (Some current) db) by (rewrite findUnique_run, Hcur; reflexivity).
  rewrite (update_run_Some _ _ _ _ _ current Hcur).
  destruct stats as [[g|] [v|] [l|]]; reflexivity.
Qed.

(** ** C2 and C3: video generation *)

(** The guard of [generateVideo] lets an owned, active series through. *)
Lemma generateVideo_guard_passes now newId defaultStatus defaultProgress db userId dto series :
  userSeries db !! VideosController.gen_seriesId dto = Some series ->
  series_userId series = userId ->
  series_isActive series = true ->
  VideosController.generateVideo now newId defaultStatus defaultProgress userId dto db
  = (let* video :=
       VideoService.createVideo now newId defaultStatus defaultProgress
         (VideosController.videoData userId dto series) in
     VideoService.updateVideoStatus now (video_id video) "queued" (Js.Value 0) None ;;;
     SeriesService.updateSeriesStats now (VideosController.gen_seriesId dto)
       (SeriesService.mkStatsInput
          (Some (series_totalVideosGenerated series + 1)) None None) ;;;
     ret (VideosController.with_queued video)) db.
Proof.
  intros Hs Ho Ha. unfold VideosController.generateVideo.
  rewrite (bind_returned _ _ db (Some series) db)
    by (unfold SeriesService.getSeriesById; rewrite findUnique_run, Hs; reflexivity).
  rewrite Ho, strict_ne_same, Ha. cbn [negb throw_if].
  rewrite (bind_returned _ _ db tt db) by reflexivity.
  rewrite (bind_returned _ _ db tt db) by reflexivity.
  reflexivity.
Qed.

(** With a new primary key, the three writes of [generateVideo] go through. *)
Lemma generateVideo_run now newId defaultStatus defaultProgress db userId dto series :
  userSeries db !! VideosController.gen_seriesId dto = Some series ->
  series_userId series = userId ->
  series_isActive series = true ->
  videos db !! newId = None ->
  let row :=
    VideoService.created_row now newId defaultStatus defaultProgress
      (VideosController.videoData userId dto series) in
  let queued := VideoService.with_status "queued" (Some 0) None now row in
  let counted :=
    SeriesService.with_stats (series_totalVideosGenerated series + 1)
      (series_totalViews series) (series_totalLikes series) now series in
  VideosController.generateVideo now newId defaultStatus defaultProgress userId dto db
  = (Returned (VideosController.with_queued row),
     mkDb (profiles db)
          (<[VideosController.gen_seriesId dto := counted]> (userSeries db))
          (<[newId := queued]> (<[newId := row]> (videos db)))
          (socialAccounts db) (socialPosts db)).
Proof.
  intros Hs Ho Ha Hf row queued counted.
  rewrite (generateVideo_guard_passes _ _ _ _ _ _ _ _ Hs Ho Ha).
  unfold VideoService.createVideo. fold row.
  rewrite (bind_returned _ _ db row (set_videos (<[newId := row]> (videos db)) db))
    by (apply (create_run_None videos set_videos video_id row db Hf)).
  set (db1 := set_videos _ db).
  assert (H1 : videos db1 !! newId = Some row) by (simpl; apply lookup_insert_eq).
  unfold VideoService.updateVideoStatus.
  change (video_id row) with newId.
  rewrite (bind_returned _ _ db1 queued _
             (update_run_Some videos set_videos newId _ db1 row H1)).
  cbv beta. set (db2 := set_videos _ db1).
  assert (H2 : userSeries db2 !! VideosController.gen_seriesId dto = Some series) by exact Hs.
  rewrite (bind_returned _ _ db2 _ _ (updateSeriesStats_run now _ _ db2 series H2)).
  reflexivity.
Qed.

(** When the key is taken, [generateVideo] fails in [create]. *)
Lemma generateVideo_key_taken now newId defaultStatus defaultProgress db userId dto series old :
  userSeries db !! VideosController.gen_seriesId dto = Some series ->
  series_userId series = userId ->
  series_isActive series = true ->
  videos db !! newId = Some old ->
  VideosController.generateVideo now newId defaultStatus defaultProgress userId dto db
  = (Thrown (PrismaClientKnownRequestError "P2002"), db).
Proof.
  intros Hs Ho Ha Hf.
  rewrite (generateVideo_guard_passes _ _ _ _ _ _ _ _ Hs Ho Ha).
  apply bind_thrown. unfold VideoService.createVideo.
  apply (create_run_Some videos set_videos video_id
           (VideoService.created_row now newId defaultStatus defaultProgress
              (VideosController.videoData userId dto series)) db old Hf).
Qed.

(** C2. A generation request against an existing series that the caller owns
    and that is inactive throws the 400 "Cannot generate videos for inactive
    series", and leaves the whole store as it was: no video row is created
    and the series keeps its three counters. *)
Theorem generateVideo_inactive_series_rejected
    (now : Z) (newId defaultStatus : string) (defaultProgress : Z)
    (db : Db) (userId : string) (dto : VideosController.GenerateVideoDto)
    (series : UserSeries) :
  userSeries db !! VideosController.gen_seriesId dto = Some series ->
  series_userId series = userId ->
  series_isActive series = false ->
  exists e db',
    VideosController.generateVideo now newId defaultStatus defaultProgress userId dto db
    = (Thrown (Http e), db')
    /\ e = BadRequestException "Cannot generate videos for inactive series"
    /\ getStatus e = 400
    /\ db' = db
    /\ videos db' = videos db
    /\ userSeries db' !! VideosController.gen_seriesId dto = Some series.
Proof.
  intros Hs Ho Ha.
  exists (BadRequestException "Cannot generate videos for inactive series"), db.
  split; [| repeat split; assumption].
  unfold VideosController.generateVideo.
  rewrite (bind_returned _ _ db (Some series) db)
    by (unfold SeriesService.getSeriesById; rewrite findUnique_run, Hs; reflexivity).
  rewrite Ho, strict_ne_same, Ha. cbn [negb throw_if].
  rewrite (bind_returned _ _ db tt db) by reflexivity.
  reflexivity.
Qed.

Lemma generateVideo_inactive_series_rejected_witness :
  exists e db',
    VideosController.generateVideo 50 "v2" "pending" 0 "u1"
      (VideosController.mkGenerateVideoDto "s2" None None None) Sample.db
    = (Thrown (Http e), db')
    /\ getStatus e = 400 /\ db' = Sample.db.
Proof.
  destruct (generateVideo_inactive_series_rejected 50 "v2" "pending" 0 Sample.db "u1"
              (VideosController.mkGenerateVideoDto "s2" None None None) Sample.series2
              eq_refl eq_refl eq_refl)
    as (e & db' & Hrun & _ & Hstatus & Hdb & _).
  exists e, db'. repeat split; assumption.
Defined.

(** C3. Take a generation request against an existing active series [S]
    that the caller owns, and let [N] be [S]'s generated-count before the
    request. If the request succeeds, then the returned video and the stored
    video row both have status ['queued'], progress 0 and the placeholder
    script; the stored [S] has generated-count [N + 1]; and without a topic
    the title is ["<S.name> Episode <N+1>"], which is ["<S.name> Episode 1"]
    when [N] is 0. The request succeeds whenever the store's new primary key
    is unused. *)
Theorem generateVideo_queues_video_and_counts_it
    (now : Z) (newId defaultStatus : string) (defaultProgress : Z)
    (db : Db) (userId : string) (dto : VideosController.GenerateVideoDto)
    (series : UserSeries) :
  userSeries db !! VideosController.gen_seriesId dto = Some series ->
  series_userId series = userId ->
  series_isActive series = true ->
  (videos db !! newId = None ->
   exists video db',
     VideosController.generateVideo now newId defaultStatus defaultProgress userId dto db
     = (Returned video, db'))
  /\ forall video db',
       VideosController.generateVideo now newId defaultStatus defaultProgress userId dto db
       = (Returned video, db') ->
       video_status video = "queued"
       /\ video_generationProgress video = 0
       /\ video_script video = "[AI Generated Script - Processing...]"
       /\ (exists stored,
             videos db' !! video_id video = Some stored
             /\ videos db !! video_id video = None
             /\ video_status stored = "queued"
             /\ video_generationProgress stored = 0
             /\ video_script stored = "[AI Generated Script - Processing...]"
             /\ video_title stored = video_title video)
       /\ (exists stored,
             userSeries db' !! VideosController.gen_seriesId dto = Some stored
             /\ series_totalVideosGenerated stored = series_totalVideosGenerated series + 1)
       /\ (VideosController.gen_topic dto = None ->
           video_title video
           = series_name series ++ " Episode "
               ++ Js.num_to_string (series_totalVideosGenerated series + 1))
       /\ (VideosController.gen_topic dto = None ->
           series_totalVideosGenerated series = 0 ->
           video_title video = series_name series ++ " Episode 1").
Proof.
  intros Hs Ho Ha. split.
  - intros Hf. eexists _, _.
    apply (generateVideo_run now newId defaultStatus defaultProgress db userId dto series
             Hs Ho Ha Hf).
  - intros video db' Hrun.
    destruct (videos db !! newId) as [old |] eqn:Hf.
    { rewrite (generateVideo_key_taken _ _ _ _ _ _ _ _ old Hs Ho Ha Hf) in Hrun.
      discriminate Hrun. }
    rewrite (generateVideo_run now newId defaultStatus defaultProgress db userId dto series
               Hs Ho Ha Hf) in Hrun.
    injection Hrun as <- <-. cbn.
    repeat split.
    + eexists. split; [apply lookup_insert_eq |]. repeat split. exact Hf.
    + eexists. split; [apply lookup_insert_eq |]. reflexivity.
    + intros Ht. unfold VideosController.videoTitle. rewrite Ht. reflexivity.
    + intros Ht Hn. unfold VideosController.videoTitle. rewrite Ht, Hn. reflexivity.
Qed.

Lemma generateVideo_queues_video_and_counts_it_witness :
  exists video db',
    VideosController.generateVideo 50 "v2" "pending" 7 "u1"
      (VideosController.mkGenerateVideoDto "s1" None None None) Sample.db
    = (Returned video, db')
    /\ video_status video = "queued"
    /\ video_generationProgress video = 0
    /\ video_title video = "Daily Tech Episode 1"
    /\ (series_totalVideosGenerated <$> userSeries db' !! "s1") = Some 1.
Proof.
  pose proof (generateVideo_queues_video_and_counts_it 50 "v2" "pending" 7 Sample.db "u1"
                (VideosController.mkGenerateVideoDto "s1" None None None) Sample.series1
                eq_refl eq_refl eq_refl) as [Hreturns Hprops].
  destruct (Hreturns eq_refl) as (video & db' & Hrun).
  destruct (Hprops video db' Hrun)
    as (Hst & Hpr & _ & _ & (stored & Hlk & Hcount) & _ & Htitle).
  exists video, db'. split; [exact Hrun |].
  split; [exact Hst |]. split; [exact Hpr |].
  split; [exact (Htitle eq_refl eq_refl) |].
  cbn in Hlk. rewrite Hlk. cbn. f_equal. exact Hcount.
Defined.

(** ** C1: the ownership guard *)

Ltac unfold_guarded :=
  unfold OwnershipGuard.run, OwnershipGuard.void,
    SeriesController.getSeriesById, SeriesController.updateSeries,
    SeriesController.toggleSeriesStatus, SeriesController.deleteSeries,
    SeriesController.getSeriesAnalytics,
    VideosController.getVideoById, VideosController.updateVideo,
    VideosController.deleteVideo,
    SocialController.getSocialAccountById, SocialController.updateSocialAccount,
    SocialController.toggleAutoPost, SocialController.syncSocialAccount,
    SocialController.disconnectSocialAccount, SocialController.getSocialAccountAnalytics,
    SeriesService.getSeriesById, VideoService.findVideoById,
    SocialAccountService.getSocialAccountById.

Lemma guard_absent {R A} (tbl : Db -> gmap string R) id db (k : option R -> Handler A) :
  tbl db !! id = None ->
  bind (Prisma.findUnique tbl id) k db = k None db.
Proof. intros H. unfold bind, Prisma.findUnique. now rewrite H. Qed.

Lemma guard_present {R A} (tbl : Db -> gmap string R) id db (k : option R -> Handler A) r :
  tbl db !! id = Some r ->
  bind (Prisma.findUnique tbl id) k db = k (Some r) db.
Proof. intros H. unfold bind, Prisma.findUnique. now rewrite H. Qed.

Lemma throw_if_true {A} e (k : unit -> Handler A) db :
  bind (throw_if true e) k db = (Thrown e, db).
Proof. reflexivity. Qed.

Lemma void_thrown {A} (h : Handler A) db e db' :
  h db = (Thrown e, db') -> OwnershipGuard.void h db = (Thrown e, db').
Proof. apply bind_thrown. Qed.

(** C1. For each single-resource operation of the series, videos and
    social-accounts controllers (get by id, update, toggle, sync, delete,
    analytics): when no entity has the given id the handler throws
    [NotFoundException], whoever the caller is; when the entity exists and its
    [userId] is not the caller's, the handler throws [ForbiddenException].
    Both hold in every store (so whatever [isActive] says), and the store is
    left as it was. *)
Theorem guard_not_found_then_forbidden
    (now : Z) (violatesUnique : gmap string SocialAccount -> SocialAccount -> bool)
    (subDays : Z -> Z -> Z) (op : OwnershipGuard.Operation)
    (db : Db) (userId id : string) :
  (OwnershipGuard.owner (OwnershipGuard.resource_of op) db id = None ->
   exists msg,
     OwnershipGuard.run now violatesUnique subDays op userId id db
     = (Thrown (Http (NotFoundException msg)), db))
  /\ (forall o,
        OwnershipGuard.owner (OwnershipGuard.resource_of op) db id = Some o ->
        o <> userId ->
        exists msg,
          OwnershipGuard.run now violatesUnique subDays op userId id db
          = (Thrown (Http (ForbiddenException msg)), db)).
Proof.
  split.
  - intros Habs.
    destruct op; cbn [OwnershipGuard.resource_of OwnershipGuard.owner] in Habs;
      apply fmap_None in Habs; eexists;
      unfold OwnershipGuard.run; try apply void_thrown;
      unfold_guarded; rewrite (guard_absent _ _ _ _ Habs); reflexivity.
  - intros o Hown Hne.
    destruct op; cbn [OwnershipGuard.resource_of OwnershipGuard.owner] in Hown;
      apply fmap_Some in Hown; destruct Hown as (r & Hr & ->); eexists;
      unfold OwnershipGuard.run; try apply void_thrown;
      unfold_guarded; rewrite (guard_present _ _ _ _ _ Hr);
      rewrite (strict_ne_diff _ _ Hne); reflexivity.
Qed.

Lemma guard_not_found_then_forbidden_witness :
  (exists msg,
     OwnershipGuard.run 50 Sample.no_unique_constraint Sample.subDays OwnershipGuard.SeriesDelete "u2" "s9" Sample.db
     = (Thrown (Http (NotFoundException msg)), Sample.db))
  /\ (exists msg,
        OwnershipGuard.run 50 Sample.no_unique_constraint Sample.subDays (OwnershipGuard.SeriesToggle true) "u2" "s2"
          Sample.db
        = (Thrown (Http (ForbiddenException msg)), Sample.db)).
Proof.
  split.
  - apply (proj1 (guard_not_found_then_forbidden 50 Sample.no_unique_constraint Sample.subDays
                    OwnershipGuard.SeriesDelete Sample.db "u2" "s9") eq_refl).
  - apply (proj2 (guard_not_found_then_forbidden 50 Sample.no_unique_constraint Sample.subDays
                    (OwnershipGuard.SeriesToggle true) Sample.db "u2" "s2") "u1" eq_refl).
    intros H. discriminate H.
Defined.

(** ** C5: connecting a platform twice *)

Lemma findFirst_finds {R} (tbl : Db -> gmap string R) (p : R -> bool) db k r :
  tbl db !! k = Some r ->
  p r = true ->
  exists r', Prisma.findFirst tbl p db = (Returned (Some r'), db) /\ p r' = true.
Proof.
  intros Hk Hp. unfold Prisma.findFirst.
  destruct (list_find (fun r0 => p r0 = true) (map_to_list (tbl db)).*2)
    as [[i r'] |] eqn:Hfind.
  - exists r'. split; [reflexivity |].
    apply list_find_Some in Hfind. tauto.
  - exfalso. apply list_find_None in Hfind.
    rewrite Forall_forall in Hfind. apply (Hfind r); [| exact Hp].
    apply list_elem_of_fmap. exists (k, r). split; [reflexivity |].
    now apply elem_of_map_to_list.
Qed.

(** C5. When the caller already has an active social account on the
    requested platform, [connectSocialAccount] throws [ConflictException]
    (status 409) and leaves the store as it was: no row is added and the
    existing connection is untouched. *)
Theorem connectSocialAccount_conflict
    (now : Z) (newId : string) (defaultIsActive defaultAutoPost : bool)
    (violatesUnique : gmap string SocialAccount -> SocialAccount -> bool)
    (db : Db) (userId : string) (dto : SocialController.ConnectSocialAccountDto)
    (k : string) (existing : SocialAccount) :
  socialAccounts db !! k = Some existing ->
  account_userId existing = userId ->
  account_platform existing = SocialController.dto_platform dto ->
  account_isActive existing = true ->
  exists e db',
    SocialController.connectSocialAccount now newId defaultIsActive defaultAutoPost
      violatesUnique userId dto db
    = (Thrown (Http e), db')
    /\ e = ConflictException
             (SocialController.dto_platform dto
                ++ " account is already connected. Disconnect the existing one first.")
    /\ getStatus e = 409
    /\ db' = db
    /\ socialAccounts db' = socialAccounts db
    /\ socialAccounts db' !! k = Some existing.
Proof.
  intros Hk Hu Hp Ha.
  destruct (findFirst_finds socialAccounts
              (fun a => String.eqb (account_userId a) userId
                        && String.eqb (account_platform a) (SocialController.dto_platform dto)
                        && Bool.eqb (account_isActive a) true) db k existing Hk)
    as (found & Hfind & _).
  { rewrite Hu, Hp, Ha, !String.eqb_refl. reflexivity. }
  eexists _, db. split; [| repeat split; assumption].
  unfold SocialController.connectSocialAccount,
    SocialAccountService.getSocialAccountByPlatform.
  rewrite (bind_returned _ _ db (Some found) db Hfind).
  reflexivity.
Qed.

Lemma connectSocialAccount_conflict_witness :
  exists e db',
    SocialController.connectSocialAccount 50 "a2" true true Sample.no_unique_constraint "u1"
      (SocialController.mkConnectSocialAccountDto "youtube" "UC2" "tech2" None "tok2"
         None None None None None None) Sample.db
    = (Thrown (Http e), db')
    /\ getStatus e = 409
    /\ socialAccounts db' = socialAccounts Sample.db.
Proof.
  destruct (connectSocialAccount_conflict 50 "a2" true true Sample.no_unique_constraint
              Sample.db "u1"
              (SocialController.mkConnectSocialAccountDto "youtube" "UC2" "tech2" None "tok2"
                 None None None None None None)
              "a1" Sample.account1 eq_refl eq_refl eq_refl eq_refl)
    as (e & db' & Hrun & _ & Hstatus & _ & Hsame & _).
  exists e, db'. repeat split; assumption.
Defined.

(** ** C6: paginated responses *)

Lemma Math_ceil_div_spec total limit :
  1 <= limit ->
  limit * (Math_ceil_div total limit - 1) < total <= limit * Math_ceil_div total limit.
Proof.
  intros Hl. unfold Math_ceil_div.
  destruct limit as [| p | p]; try lia.
  unfold Qceiling, Qfloor. cbn -[Z.div Z.mul].
  rewrite Z.mul_1_r, Pos.mul_1_l.
  pose proof (Z.div_mod (- total) (Z.pos p) ltac:(lia)) as Hdm.
  pose proof (Z.mod_pos_bound (- total) (Z.pos p) ltac:(lia)) as Hb.
  lia.
Qed.

Lemma new_PaginatedResponseDto_as_specified {T} (items : list T) total page limit :
  1 <= limit ->
  Z.of_nat (length items) <= limit ->
  paginated_as_specified page limit total (new_PaginatedResponseDto items total page limit).
Proof.
  intros Hl Hlen. unfold paginated_as_specified, new_PaginatedResponseDto. cbn.
  repeat split; try reflexivity; try exact Hlen; apply Math_ceil_div_spec; exact Hl.
Qed.

(** [slice] returns at most [stop - start] items. *)
Lemma slice_length {A} (l : list A) (start stop : Z) :
  start <= stop ->
  Z.of_nat (length (Js.slice l start stop)) <= stop - start.
Proof.
  intros Hle. unfold Js.slice, Js.relative_index.
  rewrite length_take, length_drop.
  destruct (start <? 0) eqn:Hs, (stop <? 0) eqn:Ht; lia.
Qed.

Lemma slice_window {A} (l : list A) (i n : nat) :
  Js.slice l (Z.of_nat i) (Z.of_nat i + Z.of_nat n) = take n (drop i l).
Proof.
  unfold Js.slice, Js.relative_index.
  destruct (Z.ltb_spec (Z.of_nat i) 0); [lia |].
  destruct (Z.ltb_spec (Z.of_nat i + Z.of_nat n) 0); [lia |].
  destruct (Nat.le_gt_cases (length l) i) as [Hge | Hlt].
  - rewrite (drop_ge l i Hge).
    replace (Z.to_nat (Z.min (Z.of_nat i) (Z.of_nat (length l)))) with (length l) by lia.
    rewrite drop_all. by rewrite !take_nil.
  - replace (Z.to_nat (Z.min (Z.of_nat i) (Z.of_nat (length l)))) with i by lia.
    destruct (Nat.le_gt_cases (length l) (i + n)) as [Hge' | Hlt'].
    + replace (Z.to_nat _) with (length l - i)%nat by lia.
      rewrite !take_ge; [reflexivity | rewrite length_drop; lia | rewrite length_drop; lia].
    + f_equal. lia.
Qed.

(** For a page of at least 1, the [slice] of [getUserSeries] is the page. *)
Lemma slice_page_of {A} (l : list A) (page limit : Z) :
  1 <= page -> 0 <= limit ->
  Js.slice l ((page - 1) * limit) ((page - 1) * limit + limit) = page_of l page limit.
Proof.
  intros Hp Hl. unfold page_of.
  rewrite <- slice_window. f_equal; nia.
Qed.

(** A validated [PaginationDto] gives a page of at least 1 and a limit
    between 1 and 100. *)
Lemma PaginationDto_valid_bounds dto :
  PaginationDto_valid dto ->
  1 <= Js.or_num (page dto) 1 /\ 1 <= Js.or_num (limit dto) 10 <= 100.
Proof.
  intros [Hp Hl]. unfold Js.or_num.
  destruct (page dto) as [n |], (limit dto) as [m |];
    repeat match goal with |- context [?x =? 0] => destruct (x =? 0) end; lia.
Qed.

Lemma getUserSeries_run toLowerCase userId dto isActive db :
  SeriesController.getUserSeries toLowerCase userId dto isActive db
  = (Returned
       (new_PaginatedResponseDto
          (Js.slice
             (SeriesController.filteredSeries toLowerCase userId (search dto) isActive db)
             ((Js.or_num (page dto) 1 - 1) * Js.or_num (limit dto) 10)
             ((Js.or_num (page dto) 1 - 1) * Js.or_num (limit dto) 10
              + Js.or_num (limit dto) 10))
          (Z.of_nat
             (length
                (SeriesController.filteredSeries toLowerCase userId (search dto) isActive db)))
          (Js.or_num (page dto) 1) (Js.or_num (limit dto) 10)),
     db).
Proof. reflexivity. Qed.

(** Building the responses of a list of videos: the first video whose
    response throws makes the whole [map] throw, and no response is built
    otherwise than from its row. *)
Lemma map_handler_toResponse (l : list Video) (db : Db) :
  VideosController.map_handler VideosController.toResponse l db
  = (if existsb (VideosController.response_throws db) l
     then Thrown TypeError else Returned l, db).
Proof.
  induction l as [| v l IH]; [reflexivity |].
  cbn [VideosController.map_handler existsb]. unfold bind at 1.
  unfold VideosController.toResponse at 1.
  destruct (VideosController.response_throws db v); [reflexivity |].
  unfold bind. rewrite IH. cbn [orb].
  destruct (existsb _ l); reflexivity.
Qed.

(** What [getUserVideos] answers: a negative offset is refused by the
    store; otherwise the listed videos are the filtered window, and the
    response is built unless the response of one of them throws. *)
Lemma getUserVideos_run toLowerCase userId dto status seriesId db :
  0 <= (Js.or_num (page dto) 1 - 1) * Js.or_num (limit dto) 10 ->
  1 <= Js.or_num (limit dto) 10 ->
  let listed := VideosController.filteredVideos toLowerCase userId dto status seriesId db in
  VideosController.getUserVideos toLowerCase userId dto status seriesId db
  = (if existsb (VideosController.response_throws db) listed
     then Thrown TypeError
     else Returned (new_PaginatedResponseDto listed (Z.of_nat (length listed))
                      (Js.or_num (page dto) 1) (Js.or_num (limit dto) 10)),
     db).
Proof.
  intros Hoff Hl listed. subst listed.
  unfold VideosController.getUserVideos, VideosController.filteredVideos,
    VideoService.getUserVideos, Prisma.skip_take.
  cbn [VideoService.opt_offset VideoService.opt_limit VideoService.opt_status
         VideoService.opt_seriesId].
  set (offset := (Js.or_num (page dto) 1 - 1) * Js.or_num (limit dto) 10) in *.
  set (lim := Js.or_num (limit dto) 10) in *.
  assert (Ho : Js.or_num (Some offset) 0 = offset).
  { unfold Js.or_num. destruct (Z.eqb_spec offset 0); [lia | reflexivity]. }
  assert (Hlim : Js.or_num (Some lim) 20 = lim).
  { unfold Js.or_num. destruct (Z.eqb_spec lim 0); [lia | reflexivity]. }
  rewrite Ho, Hlim.
  destruct (Z.ltb_spec offset 0); [lia |].
  unfold bind at 1. unfold ret at 1.
  unfold bind at 1. rewrite map_handler_toResponse.
  destruct (existsb _ _); reflexivity.
Qed.

Lemma getUserVideos_negative_offset toLowerCase userId dto status seriesId db :
  (Js.or_num (page dto) 1 - 1) * Js.or_num (limit dto) 10 < 0 ->
  VideosController.getUserVideos toLowerCase userId dto status seriesId db
  = (Thrown PrismaClientError, db).
Proof.
  intros Hoff.
  unfold VideosController.getUserVideos, VideoService.getUserVideos, Prisma.skip_take.
  cbn [VideoService.opt_offset VideoService.opt_limit VideoService.opt_status
         VideoService.opt_seriesId].
  set (offset := (Js.or_num (page dto) 1 - 1) * Js.or_num (limit dto) 10) in *.
  assert (Ho : Js.or_num (Some offset) 0 = offset).
  { unfold Js.or_num. destruct (Z.eqb_spec offset 0); [lia | reflexivity]. }
  rewrite Ho. destruct (Z.ltb_spec offset 0); [reflexivity | lia].
Qed.

Lemma filteredVideos_length toLowerCase userId dto status seriesId db :
  1 <= Js.or_num (limit dto) 10 ->
  Z.of_nat (length (VideosController.filteredVideos toLowerCase userId dto status seriesId db))
  <= Js.or_num (limit dto) 10.
Proof.
  intros Hl. unfold VideosController.filteredVideos.
  assert (Htake : forall l : list Video,
             Z.of_nat (length (take (Z.to_nat (Js.or_num (limit dto) 10)) l))
             <= Js.or_num (limit dto) 10).
  { intros l. rewrite length_take. lia. }
  destruct (Js.truthy_str (search dto)); [| apply Htake].
  etransitivity; [| apply Htake]. apply inj_le, length_filter.
Qed.

(** C6. A response built by [new PaginatedResponseDto(data, total, page,
    limit)] with [limit >= 1] repeats [page], [limit] and [total] and has
    [totalPages = ceil(total / limit)], [hasNext = (page < totalPages)] and
    [hasPrev = (page > 1)]. With a limit of at least 1 (10 when the request
    gives none), the series list always answers with such a response for the
    page and limit of the request and for the number of the user's filtered
    series, holding at most [limit] items, which for a page of at least 1 are
    that page of the filtered series. The video list, whenever it answers,
    answers with such a response for the page and limit of the request and
    the number of videos it lists, which are the filtered window of the
    user's videos and at most [limit]; it answers when the page is at least 1
    and no listed video makes the response mapping throw. *)
Theorem paginated_list_responses
    (toLowerCase : string -> string) (db : Db) (userId : string) (dto : PaginationDto)
    (isActive : option bool) (status seriesId : option string) :
  1 <= Js.or_num (limit dto) 10 ->
  (forall (T : Type) (items : list T) (total page limit : Z),
     1 <= limit ->
     Z.of_nat (length items) <= limit ->
     paginated_as_specified page limit total
       (new_PaginatedResponseDto items total page limit)
     /\ data (new_PaginatedResponseDto items total page limit) = items)
  /\ (exists r,
        SeriesController.getUserSeries toLowerCase userId dto isActive db = (Returned r, db)
        /\ paginated_as_specified (Js.or_num (page dto) 1) (Js.or_num (limit dto) 10)
             (Z.of_nat
                (length (SeriesController.filteredSeries toLowerCase userId (search dto)
                           isActive db)))
             r
        /\ (1 <= Js.or_num (page dto) 1 ->
            data r
            = page_of
                (SeriesController.filteredSeries toLowerCase userId (search dto) isActive db)
                (Js.or_num (page dto) 1) (Js.or_num (limit dto) 10)))
  /\ (forall r db',
        VideosController.getUserVideos toLowerCase userId dto status seriesId db
        = (Returned r, db') ->
        db' = db
        /\ data r = VideosController.filteredVideos toLowerCase userId dto status seriesId db
        /\ paginated_as_specified (Js.or_num (page dto) 1) (Js.or_num (limit dto) 10)
             (Z.of_nat (length (data r))) r)
  /\ (1 <= Js.or_num (page dto) 1 ->
      existsb (VideosController.response_throws db)
        (VideosController.filteredVideos toLowerCase userId dto status seriesId db) = false ->
      exists r,
        VideosController.getUserVideos toLowerCase userId dto status seriesId db
        = (Returned r, db)).
Proof.
  intros Hl. split; [| split; [| split]].
  - intros T items total page limit Hlimit Hlen.
    split; [apply new_PaginatedResponseDto_as_specified; assumption | reflexivity].
  - eexists. split; [apply getUserSeries_run |]. split.
    + apply new_PaginatedResponseDto_as_specified; [exact Hl |].
      etransitivity; [apply slice_length; lia |]. lia.
    + intros Hp. cbn [data new_PaginatedResponseDto]. apply slice_page_of; lia.
  - intros r db' Hrun.
    destruct (Z.lt_ge_cases ((Js.or_num (page dto) 1 - 1) * Js.or_num (limit dto) 10) 0)
      as [Hneg | Hoff].
    { rewrite (getUserVideos_negative_offset _ _ _ _ _ _ Hneg) in Hrun. discriminate Hrun. }
    rewrite (getUserVideos_run _ _ _ _ _ _ Hoff Hl) in Hrun.
    destruct (existsb _ _); [discriminate Hrun |].
    injection Hrun as <- <-. split; [reflexivity |]. split; [reflexivity |].
    cbn [data new_PaginatedResponseDto].
    apply new_PaginatedResponseDto_as_specified; [exact Hl |].
    apply filteredVideos_length. exact Hl.
  - intros Hp Hmap.
    assert (Hoff : 0 <= (Js.or_num (page dto) 1 - 1) * Js.or_num (limit dto) 10) by nia.
    rewrite (getUserVideos_run _ _ _ _ _ _ Hoff Hl). cbv zeta. rewrite Hmap.
    eexists. reflexivity.
Qed.

Lemma paginated_list_responses_witness :
  (exists r,
     SeriesController.getUserSeries Sample.toLowerCase "u1"
       (mkPaginationDto (Some 2) (Some 1) None) None Sample.db = (Returned r, Sample.db)
     /\ paginated_as_specified 2 1 2 r
     /\ data r = [Sample.series1])
  /\ (exists r,
        VideosController.getUserVideos Sample.toLowerCase "u1"
          (mkPaginationDto (Some 1) (Some 1) None) None None Sample.db
        = (Returned r, Sample.db)
        /\ paginated_as_specified 1 1 1 r
        /\ data r = [Sample.video1]).
Proof.
  split.
  - destruct (paginated_list_responses Sample.toLowerCase Sample.db "u1"
                (mkPaginationDto (Some 2) (Some 1) None) None None None (Z.le_refl 1))
      as (_ & (r & Hrun & Hspec & Hdata) & _).
    exists r. split; [exact Hrun |]. split; [exact Hspec |].
    rewrite Hdata by (cbn; lia). vm_compute. reflexivity.
  - destruct (paginated_list_responses Sample.toLowerCase Sample.db "u1"
                (mkPaginationDto (Some 1) (Some 1) None) None None None (Z.le_refl 1))
      as (_ & _ & Hvideos & Hreturns).
    destruct (Hreturns (Z.le_refl 1) ltac:(vm_compute; reflexivity)) as (r & Hrun).
    destruct (Hvideos r Sample.db Hrun) as (_ & Hdata & Hspec).
    exists r. split; [exact Hrun |].
    assert (Hlisted : data r = [Sample.video1]) by (rewrite Hdata; vm_compute; reflexivity).
    rewrite Hlisted in Hspec. split; [exact Hspec | exact Hlisted].
Defined.

(** ** C7: account analytics *)

Lemma insert_desc_perm {R} (k : R -> Z) x l : Prisma.insert_desc k x l ≡ₚ x :: l.
Proof.
  induction l as [| y l IH]; [reflexivity |]. cbn.
  destruct (k y <? k x); [reflexivity |].
  rewrite IH. apply Permutation_swap.
Qed.

Lemma order_desc_perm {R} (k : R -> Z) l : Prisma.order_desc k l ≡ₚ l.
Proof.
  induction l as [| x l IH]; [reflexivity |]. cbn.
  rewrite insert_desc_perm. now rewrite IH.
Qed.






(** ** C8 and C10: updating a video *)

(** Whether the response of a video throws depends on its [id], on its
    [seriesId], and on the series and the posts of the store. *)
Lemma response_throws_ext db db' v v' :
  userSeries db' = userSeries db ->
  socialPosts db' = socialPosts db ->
  video_id v' = video_id v ->
  video_seriesId v' = video_seriesId v ->
  VideosController.response_throws db' v' = VideosController.response_throws db v.
Proof.
  intros Hs Hp Hi Hsid.
  unfold VideosController.response_throws, VideoService.socialPosts_of.
  by rewrite Hs, Hp, Hi, Hsid.
Qed.

(** What [updateVideo] does to an existing video of the caller: the status
    write happens only under a status, the content write only when
    [updateData] has a key, and the content write comes last; then the
    response is built, which may throw after the writes. *)
Lemma updateVideo_run now db userId id dto v :
  videos db !! id = Some v ->
  video_userId v = userId ->
  (Js.truthy_str (VideosController.uv_status dto) = true ->
   VideosController.uv_generationProgress dto <> Js.Null) ->
  let v1 :=
    if Js.truthy_str (VideosController.uv_status dto)
    then VideoService.with_status (default "" (VideosController.uv_status dto))
           (match VideosController.uv_generationProgress dto with
            | Js.Value progress => Some progress
            | _ => None
            end)
           (VideosController.uv_errorMessage dto) now v
    else v in
  let v2 :=
    if 0 <? VideosController.keys_length (VideosController.updateData_of dto)
    then VideoService.with_content (VideosController.updateData_of dto) now v1
    else v1 in
  exists db',
    VideosController.updateVideo now userId id dto db
    = (if VideosController.response_throws db v then Thrown TypeError else Returned v2, db')
    /\ videos db' !! id = Some v2
    /\ (forall k, k <> id -> videos db' !! k = videos db !! k)
    /\ set_videos (videos db) db' = db
    /\ (Js.truthy_str (VideosController.uv_status dto) = false ->
        VideosController.keys_length (VideosController.updateData_of dto) = 0 ->
        db' = db).
Proof.
  intros Hv Ho Hnull v1 v2.
  assert (Hdb : set_videos (videos db) db = db) by (destruct db; reflexivity).
  unfold VideosController.updateVideo, VideoService.findVideoById.
  rewrite (guard_present _ _ _ _ _ Hv). cbv beta iota.
  rewrite Ho, strict_ne_same.
  unfold throw_if. rewrite (bind_returned _ _ db tt db) by reflexivity.
  unfold try_catch, VideoService.updateVideoStatus, VideoService.updateVideoContent.
  set (keys := VideosController.keys_length _) in *.
  destruct (Js.truthy_str (VideosController.uv_status dto)) eqn:Hst.
  - specialize (Hnull eq_refl).
    destruct (VideosController.uv_generationProgress dto) as [| | progress];
      [| contradiction |];
      destruct (0 <? keys) eqn:Hk; subst v1 v2; cbv beta iota;
      unfold bind, ret, Prisma.update, Prisma.findUnique, VideosController.toResponse;
      rewrite ?Hv; cbn [videos set_videos];
      rewrite ?lookup_insert_eq; cbn [videos set_videos]; rewrite ?lookup_insert_eq;
      rewrite (response_throws_ext db _ v) by reflexivity;
      destruct (VideosController.response_throws db v);
      (eexists; split; [reflexivity |]);
      cbn [videos set_videos];
      (split; [apply lookup_insert_eq |]);
      (split; [intros k Hne; by rewrite ?lookup_insert_ne by done |]);
      (split; [exact Hdb | intros; discriminate]).
  - destruct (0 <? keys) eqn:Hk; subst v1 v2; cbv beta iota;
      unfold bind, ret, Prisma.update, Prisma.findUnique, VideosController.toResponse;
      rewrite ?Hv; cbn [videos set_videos];
      rewrite ?lookup_insert_eq; cbn [videos set_videos]; rewrite ?lookup_insert_eq;
      rewrite ?(response_throws_ext db _ v) by reflexivity;
      destruct (VideosController.response_throws db v);
      (eexists; split; [reflexivity |]);
      cbn [videos set_videos];
      (split; [try apply lookup_insert_eq; exact Hv |]);
      (split; [intros k Hne; by rewrite ?lookup_insert_ne by done |]);
      (split; [exact Hdb || (destruct db; reflexivity) | intros; try reflexivity; lia]).
Qed.

(** A [null] progress sent with a status is refused by the store: nothing is
    written. *)
Lemma updateVideo_null_progress now db userId id dto v :
  videos db !! id = Some v ->
  video_userId v = userId ->
  Js.truthy_str (VideosController.uv_status dto) = true ->
  VideosController.uv_generationProgress dto = Js.Null ->
  VideosController.updateVideo now userId id dto db = (Thrown PrismaClientError, db).
Proof.
  intros Hv Ho Hst Hnull.
  unfold VideosController.updateVideo, VideoService.findVideoById.
  rewrite (guard_present _ _ _ _ _ Hv). cbv beta iota.
  rewrite Ho, strict_ne_same.
  unfold throw_if. rewrite (bind_returned _ _ db tt db) by reflexivity.
  unfold try_catch, VideoService.updateVideoStatus. rewrite Hst, Hnull. reflexivity.
Qed.

(** [updateData] has a key exactly when the request carries a non-empty
    title, a description (be it [null]), a non-empty script, tags or
    generation settings. *)
Lemma keys_length_positive dto :
  0 < VideosController.keys_length (VideosController.updateData_of dto)
  <-> (Js.truthy_str (VideosController.uv_title dto) = true
       \/ Js.defined (VideosController.uv_description dto) = true
       \/ Js.truthy_str (VideosController.uv_script dto) = true
       \/ is_Some (VideosController.uv_tags dto)
       \/ is_Some (VideosController.uv_generationSettings dto)).
Proof.
  assert (Ht : forall o, Js.truthy_ref (if Js.truthy_str o then o else None)
                         = Js.truthy_str o).
  { intros [x |]; cbn; [destruct (String.eqb x ""); reflexivity | reflexivity]. }
  assert (Hr : forall A (o : option A),
             Js.truthy_ref (if Js.truthy_ref o then o else None) = Js.truthy_ref o).
  { intros A [x |]; reflexivity. }
  assert (Hs : forall A (o : option A), is_Some o <-> Js.truthy_ref o = true).
  { intros A [x |]; cbn; split; try reflexivity; try discriminate; eauto.
    intros [y Hy]. discriminate Hy. }
  unfold VideosController.keys_length, VideosController.updateData_of.
  cbn [VideoService.ct_title VideoService.ct_description VideoService.ct_script
         VideoService.ct_tags VideoService.ct_generationSettings].
  rewrite !Ht, !Hr, !Hs.
  destruct (Js.truthy_str (VideosController.uv_title dto)),
           (Js.defined (VideosController.uv_description dto)),
           (Js.truthy_str (VideosController.uv_script dto)),
           (Js.truthy_ref (VideosController.uv_tags dto)),
           (Js.truthy_ref (VideosController.uv_generationSettings dto));
    cbn; split; intros H; try lia; tauto.
Qed.

(** C8, as stated, fails: a progress value sent without a status is not
    stored, and neither is an error message sent without a status. *)
Lemma progress_or_message_without_status_not_stored :
  (exists v',
     VideosController.updateVideo 50 "u1" "v1"
       (VideosController.mkUpdateVideoDto None Js.Undefined None None None None
          (Js.Value 50) None)
       Sample.db = (Returned v', Sample.db)
     /\ videos Sample.db !! "v1" = Some v'
     /\ video_generationProgress v' <> 50)
  /\ (exists v',
        VideosController.updateVideo 50 "u1" "v1"
          (VideosController.mkUpdateVideoDto None Js.Undefined None None None None
             Js.Undefined (Some "render failed"))
          Sample.db = (Returned v', Sample.db)
        /\ videos Sample.db !! "v1" = Some v'
        /\ video_errorMessage v' <> Some "render failed").
Proof.
  split; exists Sample.video1; (split; [vm_compute; reflexivity |]);
    (split; [reflexivity |]); intros H; discriminate H.
Qed.

(** C8, amended. On an existing video of the caller, for a request of
    which the handler keeps no content field (none is sent, or only an empty
    title or script) and whose progress, if a status is sent, is not [null]:
    with a status, the stored video takes that status, takes the progress if
    one is sent (keeping its own otherwise) and takes the error message if a
    non-empty one is sent (keeping its own otherwise), so progress and error
    message are optional independently of each other; without a status the
    video and the store stay as they were, whatever progress or error message
    the request carries. The call returns the stored video, unless building
    the response throws, which happens after the write. *)
Theorem updateVideo_status_fields
    (now : Z) (db : Db) (userId id : string) (dto : VideosController.UpdateVideoDto)
    (v : Video) :
  videos db !! id = Some v ->
  video_userId v = userId ->
  VideosController.keys_length (VideosController.updateData_of dto) = 0 ->
  (Js.truthy_str (VideosController.uv_status dto) = true ->
   VideosController.uv_generationProgress dto <> Js.Null) ->
  exists v' db',
    VideosController.updateVideo now userId id dto db
    = (if VideosController.response_throws db v then Thrown TypeError else Returned v', db')
    /\ videos db' !! id = Some v'
    /\ (Js.truthy_str (VideosController.uv_status dto) = true ->
        Some (video_status v') = VideosController.uv_status dto
        /\ video_generationProgress v'
           = match VideosController.uv_generationProgress dto with
             | Js.Value progress => progress
             | _ => video_generationProgress v
             end
        /\ video_errorMessage v'
           = (if Js.truthy_str (VideosController.uv_errorMessage dto)
              then VideosController.uv_errorMessage dto
              else video_errorMessage v))
    /\ (Js.truthy_str (VideosController.uv_status dto) = false -> v' = v /\ db' = db).
Proof.
  intros Hv Ho Hk Hnull.
  destruct (updateVideo_run now db userId id dto v Hv Ho Hnull)
    as (db' & Hrun & Hlk & _ & _ & Hsame).
  rewrite Hk in Hrun, Hlk. cbn [Z.ltb Z.compare] in Hrun, Hlk.
  eexists _, db'. split; [exact Hrun |]. split; [exact Hlk |].
  split.
  - intros Hst. rewrite Hst.
    destruct (VideosController.uv_status dto) as [s |]; [| discriminate Hst].
    cbn. repeat split.
    destruct (VideosController.uv_generationProgress dto); reflexivity.
  - intros Hst. rewrite Hst. split; [reflexivity | exact (Hsame Hst Hk)].
Qed.

Lemma updateVideo_status_fields_witness :
  exists v' db',
    VideosController.updateVideo 50 "u1" "v1"
      (VideosController.mkUpdateVideoDto None Js.Undefined None None None
         (Some "processing") (Js.Value 50) None)
      Sample.db = (Returned v', db')
    /\ videos db' !! "v1" = Some v'
    /\ video_status v' = "processing"
    /\ video_generationProgress v' = 50
    /\ video_errorMessage v' = None.
Proof.
  destruct (updateVideo_status_fields 50 Sample.db "u1" "v1"
              (VideosController.mkUpdateVideoDto None Js.Undefined None None None
                 (Some "processing") (Js.Value 50) None)
              Sample.video1 eq_refl eq_refl eq_refl ltac:(intros _ H; discriminate H))
    as (v' & db' & Hrun & Hlk & Hwith & _).
  destruct (Hwith eq_refl) as (Hst & Hpr & Hmsg).
  exists v', db'. repeat split; try assumption.
  injection Hst as Hst. exact Hst.
Defined.

(** C10, as stated, fails: a request whose only content field is an empty
    title leaves a queued video queued. *)
Lemma empty_title_does_not_mark_ready :
  exists v',
    VideosController.updateVideo 50 "u1" "v1"
      (VideosController.mkUpdateVideoDto (Some "") Js.Undefined None None None None
         Js.Undefined None)
      Sample.db = (Returned v', Sample.db)
    /\ videos Sample.db !! "v1" = Some v'
    /\ video_status v' = "queued"
    /\ video_status v' <> "ready"
    /\ video_generationProgress v' <> 100.
Proof.
  exists Sample.video1. split; [vm_compute; reflexivity |].
  repeat split; intros H; discriminate H.
Qed.

(** C10, amended. On an existing video of the caller, a request that carries
    a non-empty title, a description (be it [null]), a non-empty script, tags
    or generation settings, and no [null] progress with a status, leaves the
    stored video with status ['ready'] and progress 100, whether or not the
    request carries a status (and whatever status the video had). The call
    returns the stored video, unless building the response throws, which
    happens after the write. *)
Theorem updateVideo_content_marks_ready
    (now : Z) (db : Db) (userId id : string) (dto : VideosController.UpdateVideoDto)
    (v : Video) :
  videos db !! id = Some v ->
  video_userId v = userId ->
  (Js.truthy_str (VideosController.uv_title dto) = true
   \/ Js.defined (VideosController.uv_description dto) = true
   \/ Js.truthy_str (VideosController.uv_script dto) = true
   \/ is_Some (VideosController.uv_tags dto)
   \/ is_Some (VideosController.uv_generationSettings dto)) ->
  (Js.truthy_str (VideosController.uv_status dto) = true ->
   VideosController.uv_generationProgress dto <> Js.Null) ->
  exists v' db',
    VideosController.updateVideo now userId id dto db
    = (if VideosController.response_throws db v then Thrown TypeError else Returned v', db')
    /\ videos db' !! id = Some v'
    /\ video_status v' = "ready"
    /\ video_generationProgress v' = 100.
Proof.
  intros Hv Ho Hfield Hnull.
  apply keys_length_positive in Hfield. apply Z.ltb_lt in Hfield.
  destruct (updateVideo_run now db userId id dto v Hv Ho Hnull) as (db' & Hrun & Hlk & _).
  rewrite Hfield in Hrun, Hlk.
  eexists _, db'. split; [exact Hrun |]. split; [exact Hlk |].
  split; reflexivity.
Qed.

Lemma updateVideo_content_marks_ready_witness :
  (exists v' db',
     VideosController.updateVideo 50 "u1" "v1"
       (VideosController.mkUpdateVideoDto None Js.Null None None None None
          (Js.Value 50) None)
       Sample.db = (Returned v', db')
     /\ videos db' !! "v1" = Some v'
     /\ video_status v' = "ready"
     /\ video_generationProgress v' = 100)
  /\ (exists v' db',
        VideosController.updateVideo 50 "u1" "v1"
          (VideosController.mkUpdateVideoDto (Some "New title") Js.Undefined None None None
             None Js.Undefined None)
          Sample.db_published = (Thrown TypeError, db')
        /\ videos db' !! "v1" = Some v'
        /\ video_status v' = "ready"
        /\ video_generationProgress v' = 100).
Proof.
  split.
  - apply (updateVideo_content_marks_ready 50 Sample.db "u1" "v1"
             (VideosController.mkUpdateVideoDto None Js.Null None None None None
                (Js.Value 50) None)
             Sample.video1 eq_refl eq_refl (or_intror (or_introl eq_refl))
             ltac:(intros H; discriminate H)).
  - apply (updateVideo_content_marks_ready 50 Sample.db_published "u1" "v1"
             (VideosController.mkUpdateVideoDto (Some "New title") Js.Undefined None None None
                None Js.Undefined None)
             Sample.video1 eq_refl eq_refl (or_introl eq_refl)
             ltac:(intros H; discriminate H)).
Defined.

(** ** C9: a duplicate profile email *)

Lemma email_taken_true (tbl : gmap string Profile) k p email :
  tbl !! k = Some p ->
  profile_email p = email ->
  UserService.email_taken tbl email = true.
Proof.
  intros Hk He. unfold UserService.email_taken.
  apply existsb_exists. exists p. split.
  - apply list_elem_of_In, list_elem_of_fmap. exists (k, p).
    split; [reflexivity | now apply elem_of_map_to_list].
  - rewrite He. apply String.eqb_refl.
Qed.

(** Whenever the email of the request is the email of a stored profile,
    [createProfile] answers with a [BadRequestException], status 400. *)
Lemma createProfile_duplicate_email defaultIsActive randomUUID db dto k p :
  profiles db !! k = Some p ->
  profile_email p = UsersController.dto_email dto ->
  UsersController.createProfile defaultIsActive randomUUID dto db
  = (Thrown (Http (BadRequestException "Profile with this email already exists")), db).
Proof.
  intros Hk He.
  unfold UsersController.createProfile, try_catch, UserService.createProfile.
  cbn [UserService.cp_email].
  rewrite (email_taken_true _ k p _ Hk He). reflexivity.
Qed.

(** C9, on the code: creating a profile with the email of a stored profile
    is answered with status 400 (a [BadRequestException]), where the
    specification, the handler's own [@ApiResponse({ status: 409 })] and the
    exception filter's mapping of the same store error P2002 all say 409. *)
Lemma createProfile_duplicate_email_answers_400 :
  exists e,
    UsersController.createProfile true "u2"
      (UsersController.mkCreateProfileDto "u1@example.com" None) Sample.db
    = (Thrown (Http e), Sample.db)
    /\ e = BadRequestException "Profile with this email already exists"
    /\ HttpExceptionFilter.status (Http e) = 400
    /\ HttpExceptionFilter.status (PrismaClientKnownRequestError "P2002") = 409
    /\ UserService.createProfile true
         (UserService.mkCreateData "u2" "u1@example.com" None) Sample.db
       = (Thrown (PrismaClientKnownRequestError "P2002"), Sample.db).
Proof.
  eexists. split; [| repeat split].
  apply (createProfile_duplicate_email true "u2" Sample.db
           (UsersController.mkCreateProfileDto "u1@example.com" None)
           "u1" Sample.profile1 eq_refl eq_refl).
Qed.

(** * Further properties *)

(** ** The guarded operations, on their success paths *)

Ltac unfold_run :=
  unfold OwnershipGuard.run, OwnershipGuard.void,
    SeriesController.getSeriesById, SeriesController.updateSeries,
    SeriesController.toggleSeriesStatus, SeriesController.deleteSeries,
    SeriesController.getSeriesAnalytics,
    VideosController.getVideoById, VideosController.updateVideo,
    VideosController.deleteVideo,
    SocialController.getSocialAccountById, SocialController.updateSocialAccount,
    SocialController.toggleAutoPost, SocialController.syncSocialAccount,
    SocialController.disconnectSocialAccount, SocialController.getSocialAccountAnalytics,
    SeriesService.getSeriesById, SeriesService.updateSeries,
    SeriesService.toggleSeriesStatus, SeriesService.deleteSeries,
    VideoService.findVideoById, VideoService.updateVideoStatus,
    VideoService.updateVideoContent, VideoService.deleteVideo,
    SocialAccountService.getSocialAccountById, SocialAccountService.updateSocialAccount,
    SocialAccountService.toggleAutoPost, SocialAccountService.updateAccountMetrics,
    SocialAccountService.disconnectAccount, SocialAccountService.getAccountAnalytics,
    VideosController.toResponse,
    rethrow_P2025, try_catch, throw_if, bind, ret, throw,
    Prisma.findUnique, Prisma.update, Prisma.delete,
    Prisma.cascade_userSeries, Prisma.cascade_video, Prisma.cascade_socialAccount in *.

(** X1. Whatever a guarded operation of the three controllers answers, it
    creates no entity and changes no owner: a series, video or social account
    that is in the store afterwards was there before, with the same owner. *)
Theorem guarded_operation_keeps_owners
    (now : Z) (violatesUnique : gmap string SocialAccount -> SocialAccount -> bool)
    (subDays : Z -> Z -> Z) (op : OwnershipGuard.Operation)
    (userId id : string) (db : Db) (r : OwnershipGuard.Resource) (id' o : string) :
  OwnershipGuard.owner r (snd (OwnershipGuard.run now violatesUnique subDays op userId id db)) id' = Some o ->
  OwnershipGuard.owner r db id' = Some o.
Proof.
  destruct (OwnershipGuard.run now violatesUnique subDays op userId id db) as [out db'] eqn:Hrun.
  cbn [snd]. revert Hrun.
  destruct op; unfold_run; intros Hrun; repeat case_match; simplify_eq; try done.
  all: destruct r; cbn; try done.
  all: try (destruct (decide (id = id')) as [-> | Hne]; simplify_map_eq; done).
  intros Hlk. apply fmap_Some in Hlk. destruct Hlk as (v & Hv & ->).
  apply map_lookup_filter_Some in Hv. destruct Hv as [Hv _]. by rewrite Hv.
Qed.

Lemma guarded_operation_keeps_owners_witness :
  OwnershipGuard.owner OwnershipGuard.Series Sample.db "s2" = Some "u1".
Proof.
  apply (guarded_operation_keeps_owners 50 Sample.no_unique_constraint Sample.subDays
           (OwnershipGuard.SeriesToggle true) "u1" "s2" Sample.db
           OwnershipGuard.Series "s2" "u1").
  reflexivity.
Defined.

(** X2. A guarded operation on [id] writes at most the row [id] of its own
    table, and a delete takes with it the rows that depend on the deleted
    entity and nothing else: profiles stay as they are; so does every series
    and every social account but the one operated on; so does every video
    and every post that does not depend on the entity; no post is ever
    changed or added; and an operation that is not a delete leaves the posts
    alone, and every video but the one operated on. *)
Theorem guarded_operation_touches_one_row
    (now : Z) (violatesUnique : gmap string SocialAccount -> SocialAccount -> bool)
    (subDays : Z -> Z -> Z) (op : OwnershipGuard.Operation)
    (userId id : string) (db : Db) :
  let r := OwnershipGuard.resource_of op in
  let db' := snd (OwnershipGuard.run now violatesUnique subDays op userId id db) in
  profiles db' = profiles db
  /\ (forall id',
        r <> OwnershipGuard.Series \/ id' <> id ->
        userSeries db' !! id' = userSeries db !! id')
  /\ (forall id',
        r <> OwnershipGuard.Account \/ id' <> id ->
        socialAccounts db' !! id' = socialAccounts db !! id')
  /\ (forall id',
        (forall v, videos db !! id' = Some v -> ~ video_depends r id id' v) ->
        videos db' !! id' = videos db !! id')
  /\ (forall k,
        (forall p, socialPosts db !! k = Some p -> ~ post_depends r db id p) ->
        socialPosts db' !! k = socialPosts db !! k)
  /\ socialPosts db' ⊆ socialPosts db
  /\ (op <> OwnershipGuard.SeriesDelete ->
      op <> OwnershipGuard.VideoDelete ->
      op <> OwnershipGuard.AccountDisconnect ->
      socialPosts db' = socialPosts db
      /\ forall id',
           r <> OwnershipGuard.AVideo \/ id' <> id -> videos db' !! id' = videos db !! id').
Proof.
  assert (Hfilter : forall {A} (P : string * A -> Prop) `{!forall x, Decision (P x)}
                      (m : gmap string A) k,
             (forall x, m !! k = Some x -> P (k, x)) -> filter P m !! k = m !! k).
  { intros A P HP m k HPk. destruct (m !! k) as [x |] eqn:Hx.
    - apply map_lookup_filter_Some. split; [exact Hx | by apply HPk].
    - apply map_lookup_filter_None. left. exact Hx. }
  cbv zeta.
  destruct (OwnershipGuard.run now violatesUnique subDays op userId id db) as [out db'] eqn:Hrun.
  cbn [snd]. revert Hrun.
  destruct op; unfold_run; intros Hrun; repeat case_match; simplify_eq;
    cbn [profiles userSeries videos socialAccounts socialPosts
         set_profiles set_userSeries set_videos set_socialAccounts set_socialPosts
         OwnershipGuard.resource_of video_depends post_depends].
  all: split; [reflexivity |].
  all: split; [intros id' [Hr | Hne]; try done; by simplify_map_eq |].
  all: split; [intros id' [Hr | Hne]; try done; by simplify_map_eq |].
  all: split;
    [intros id' Hdep; try done;
     try (destruct (decide (id' = id)) as [-> | Hne];
          [exfalso; by eapply Hdep | by simplify_map_eq]);
     try (apply Hfilter; intros v Hv; exact (Hdep v Hv)) |].
  all: split;
    [intros k Hdep; try done;
     try (apply Hfilter; intros p Hp; cbn [snd]; specialize (Hdep p Hp);
          first [exact Hdep | by destruct (Prisma.post_of_series _ _ _)]) |].
  all: split; [try done; try apply map_filter_subseteq |].
  all: intros Hop1 Hop2 Hop3; try done.
  all: split; [reflexivity |].
  all: intros id' [Hr | Hne]; try done; by simplify_map_eq.
Qed.

(** X3. While it stays in the store, a series keeps its three counters, its
    owner and its creation time through every guarded operation: the
    controllers' update, toggle and delete paths never write a counter. *)
Theorem guarded_operation_keeps_counters
    (now : Z) (violatesUnique : gmap string SocialAccount -> SocialAccount -> bool)
    (subDays : Z -> Z -> Z) (op : OwnershipGuard.Operation)
    (userId id : string) (db : Db) (id' : string) (after : UserSeries) :
  userSeries (snd (OwnershipGuard.run now violatesUnique subDays op userId id db)) !! id' = Some after ->
  exists before,
    userSeries db !! id' = Some before
    /\ series_totalVideosGenerated after = series_totalVideosGenerated before
    /\ series_totalViews after = series_totalViews before
    /\ series_totalLikes after = series_totalLikes before
    /\ series_userId after = series_userId before
    /\ series_createdAt after = series_createdAt before.
Proof.
  destruct (OwnershipGuard.run now violatesUnique subDays op userId id db) as [out db'] eqn:Hrun.
  cbn [snd]. revert Hrun.
  destruct op; unfold_run; intros Hrun; repeat case_match; simplify_eq; cbn;
    intros Hafter; try (eexists; split; [exact Hafter | done]).
  all: destruct (decide (id = id')) as [-> | Hne]; simplify_map_eq;
    eexists; (split; [eassumption || reflexivity | done]).
Qed.

Lemma guarded_operation_keeps_counters_witness :
  exists before,
    userSeries Sample.db !! "s2" = Some before
    /\ series_totalVideosGenerated before = 4
    /\ series_totalViews before = 7.
Proof.
  destruct (guarded_operation_keeps_counters 50 Sample.no_unique_constraint Sample.subDays
              (OwnershipGuard.SeriesUpdate
                 (SeriesService.mkUserSeriesUpdateInput (Some "Renamed") None None None
                    None None (Some true)))
              "u1" "s2" Sample.db "s2"
              (SeriesService.with_data
                 (SeriesService.mkUserSeriesUpdateInput (Some "Renamed") None None None
                    None None (Some true)) 50 Sample.series2)
              eq_refl)
    as (before & Hlk & Hgen & Hviews & _).
  exists before. split; [exact Hlk |]. split; [rewrite <- Hgen | rewrite <- Hviews]; reflexivity.
Defined.

(** X4. When its owner deletes a series, deletes a video or disconnects a
    social account, the call returns, the row is gone, and from then on every
    guarded operation of that resource on the same id answers
    [NotFoundException], whoever calls. *)
Theorem owner_delete_then_not_found
    (now : Z) (violatesUnique : gmap string SocialAccount -> SocialAccount -> bool)
    (subDays : Z -> Z -> Z) (op : OwnershipGuard.Operation)
    (userId id : string) (db : Db) :
  op = OwnershipGuard.SeriesDelete \/ op = OwnershipGuard.VideoDelete
  \/ op = OwnershipGuard.AccountDisconnect ->
  OwnershipGuard.owner (OwnershipGuard.resource_of op) db id = Some userId ->
  exists db',
    OwnershipGuard.run now violatesUnique subDays op userId id db = (Returned tt, db')
    /\ OwnershipGuard.owner (OwnershipGuard.resource_of op) db' id = None
    /\ forall op' caller,
         OwnershipGuard.resource_of op' = OwnershipGuard.resource_of op ->
         exists msg,
           OwnershipGuard.run now violatesUnique subDays op' caller id db'
           = (Thrown (Http (NotFoundException msg)), db').
Proof.
  intros Hop Hown.
  destruct Hop as [-> | [-> | ->]]; cbn in Hown;
    apply fmap_Some in Hown; destruct Hown as (row & Hrow & Hu);
    unfold_run; rewrite Hrow, Hu, strict_ne_same; cbv beta iota; rewrite ?Hrow;
    (eexists; split; [reflexivity |]); cbn;
    (split; [by rewrite lookup_delete_eq |]);
    intros op' caller Hres; destruct op'; try discriminate Hres;
    eexists; unfold_run; cbn; rewrite lookup_delete_eq; reflexivity.
Qed.

Lemma owner_delete_then_not_found_witness :
  exists db',
    OwnershipGuard.run 50 Sample.no_unique_constraint Sample.subDays
      OwnershipGuard.VideoDelete "u1" "v1" Sample.db
    = (Returned tt, db')
    /\ videos db' !! "v1" = None
    /\ socialPosts db' = ∅
    /\ exists msg,
         OwnershipGuard.run 50 Sample.no_unique_constraint Sample.subDays
           OwnershipGuard.VideoGetById "u1" "v1" db'
         = (Thrown (Http (NotFoundException msg)), db').
Proof.
  destruct (owner_delete_then_not_found 50 Sample.no_unique_constraint Sample.subDays
              OwnershipGuard.VideoDelete
              "u1" "v1" Sample.db (or_intror (or_introl eq_refl)) eq_refl)
    as (db' & Hrun & Hgone & Hafter).
  exists db'. split; [exact Hrun |]. split; [| split].
  - cbn in Hgone. apply fmap_None in Hgone. exact Hgone.
  - injection Hrun as <-. vm_compute. reflexivity.
  - exact (Hafter OwnershipGuard.VideoGetById "u1" eq_refl).
Defined.

(** ** Video generation, further *)

Lemma generateVideo_inactive_run now newId defaultStatus defaultProgress db userId dto series :
  userSeries db !! VideosController.gen_seriesId dto = Some series ->
  series_userId series = userId ->
  series_isActive series = false ->
  VideosController.generateVideo now newId defaultStatus defaultProgress userId dto db
  = (Thrown (Http (BadRequestException "Cannot generate videos for inactive series")), db).
Proof.
  intros Hs Ho Ha. unfold VideosController.generateVideo, SeriesService.getSeriesById.
  rewrite (guard_present _ _ _ _ _ Hs). cbv beta iota.
  rewrite Ho, strict_ne_same, Ha. reflexivity.
Qed.

(** X5. Deactivating a series switches generation off and reactivating it
    switches generation back on: after the owner's toggle to [false],
    [generateVideo] on that series answers 400 and writes nothing; after the
    toggle back to [true], [generateVideo] returns a video as soon as the
    store's new key is unused. *)
Theorem toggle_switches_generation
    (now : Z) (newId defaultStatus : string) (defaultProgress : Z)
    (db : Db) (userId : string) (dto : VideosController.GenerateVideoDto)
    (series : UserSeries) :
  userSeries db !! VideosController.gen_seriesId dto = Some series ->
  series_userId series = userId ->
  exists off db1 on db2,
    SeriesController.toggleSeriesStatus now userId (VideosController.gen_seriesId dto)
      false db = (Returned off, db1)
    /\ VideosController.generateVideo now newId defaultStatus defaultProgress userId dto db1
       = (Thrown (Http (BadRequestException "Cannot generate videos for inactive series")),
          db1)
    /\ SeriesController.toggleSeriesStatus now userId (VideosController.gen_seriesId dto)
         true db1 = (Returned on, db2)
    /\ videos db2 = videos db
    /\ (videos db !! newId = None ->
        exists video db3,
          VideosController.generateVideo now newId defaultStatus defaultProgress userId dto
            db2 = (Returned video, db3)).
Proof.
  intros Hs Ho.
  set (sid := VideosController.gen_seriesId dto) in *.
  set (off := SeriesService.with_isActive false now series).
  set (db1 := set_userSeries (<[sid := off]> (userSeries db)) db).
  set (on := SeriesService.with_isActive true now off).
  set (db2 := set_userSeries (<[sid := on]> (userSeries db1)) db1).
  assert (H1 : userSeries db1 !! sid = Some off) by (cbn; apply lookup_insert_eq).
  assert (H2 : userSeries db2 !! sid = Some on) by (cbn; apply lookup_insert_eq).
  exists off, db1, on, db2. repeat split.
  - unfold SeriesController.toggleSeriesStatus, SeriesService.getSeriesById,
      SeriesService.toggleSeriesStatus.
    rewrite (guard_present _ _ _ _ _ Hs). cbv beta iota.
    rewrite Ho, strict_ne_same. unfold throw_if.
    rewrite (bind_returned _ _ db tt db) by reflexivity.
    apply (update_run_Some userSeries set_userSeries sid
             (SeriesService.with_isActive false now) db series Hs).
  - apply (generateVideo_inactive_run now newId defaultStatus defaultProgress db1 userId dto
             off H1 Ho eq_refl).
  - unfold SeriesController.toggleSeriesStatus, SeriesService.getSeriesById,
      SeriesService.toggleSeriesStatus.
    rewrite (guard_present _ _ _ _ _ H1). cbv beta iota.
    change (series_userId off) with (series_userId series).
    rewrite Ho, strict_ne_same. unfold throw_if.
    rewrite (bind_returned _ _ db1 tt db1) by reflexivity.
    apply (update_run_Some userSeries set_userSeries sid
             (SeriesService.with_isActive true now) db1 off H1).
  - intros Hfresh. eexists _, _.
    apply (generateVideo_run now newId defaultStatus defaultProgress db2 userId dto on
             H2 Ho eq_refl Hfresh).
Qed.

Lemma toggle_switches_generation_witness :
  exists off db1,
    SeriesController.toggleSeriesStatus 50 "u1" "s1" false Sample.db = (Returned off, db1)
    /\ VideosController.generateVideo 50 "v2" "pending" 0 "u1"
         (VideosController.mkGenerateVideoDto "s1" None None None) db1
       = (Thrown (Http (BadRequestException "Cannot generate videos for inactive series")),
          db1).
Proof.
  destruct (toggle_switches_generation 50 "v2" "pending" 0 Sample.db "u1"
              (VideosController.mkGenerateVideoDto "s1" None None None) Sample.series1
              eq_refl eq_refl)
    as (off & db1 & on & db2 & Hoff & Hrefused & _).
  exists off, db1. split; assumption.
Defined.

(** X6. [generateVideo] refuses before it writes: a series id that is not in
    the store is answered 400 "Series not found" (not 404), and a series of
    another user is answered 403 whether the series is active or not. The
    store is left as it was. *)
Theorem generateVideo_refusals
    (now : Z) (newId defaultStatus : string) (defaultProgress : Z)
    (db : Db) (userId : string) (dto : VideosController.GenerateVideoDto) :
  (userSeries db !! VideosController.gen_seriesId dto = None ->
   VideosController.generateVideo now newId defaultStatus defaultProgress userId dto db
   = (Thrown (Http (BadRequestException "Series not found")), db))
  /\ (forall series,
        userSeries db !! VideosController.gen_seriesId dto = Some series ->
        series_userId series <> userId ->
        VideosController.generateVideo now newId defaultStatus defaultProgress userId dto db
        = (Thrown (Http (ForbiddenException
                           "You can only generate videos in your own series")), db)).
Proof.
  split.
  - intros Habs. unfold VideosController.generateVideo, SeriesService.getSeriesById.
    rewrite (guard_absent _ _ _ _ Habs). reflexivity.
  - intros series Hs Hne. unfold VideosController.generateVideo, SeriesService.getSeriesById.
    rewrite (guard_present _ _ _ _ _ Hs). cbv beta iota.
    rewrite (strict_ne_diff _ _ Hne). reflexivity.
Qed.

Lemma generateVideo_refusals_witness :
  VideosController.generateVideo 50 "v2" "pending" 0 "u1"
    (VideosController.mkGenerateVideoDto "s9" None None None) Sample.db
  = (Thrown (Http (BadRequestException "Series not found")), Sample.db)
  /\ VideosController.generateVideo 50 "v2" "pending" 0 "u2"
       (VideosController.mkGenerateVideoDto "s2" None None None) Sample.db
     = (Thrown (Http (ForbiddenException
                        "You can only generate videos in your own series")), Sample.db).
Proof.
  split.
  - apply (proj1 (generateVideo_refusals 50 "v2" "pending" 0 Sample.db "u1"
                    (VideosController.mkGenerateVideoDto "s9" None None None)) eq_refl).
  - apply (proj2 (generateVideo_refusals 50 "v2" "pending" 0 Sample.db "u2"
                    (VideosController.mkGenerateVideoDto "s2" None None None))
             Sample.series2 eq_refl).
    intros H. discriminate H.
Defined.

(** X7. In the generation settings of a generated video the request's own
    settings win over everything; then come the four computed keys
    ([duration], [style], [useTrending], [priority], the last one ['normal']
    unless the request names one), which the series' style objects cannot
    override; any other key is read from the music settings, then the voice
    settings, then the visual style. *)
Theorem merged_settings_precedence
    (series : UserSeries) (dto : VideosController.GenerateVideoDto) (k : string) :
  let request := Js.or_ref (VideosController.gen_generationSettings dto) ∅ in
  let merged := VideosController.merged_settings series dto in
  (forall v, request !! k = Some v -> merged !! k = Some v)
  /\ (request !! "duration" = None ->
      merged !! "duration" = Some (Js.JNum (series_videoDuration series)))
  /\ (request !! "style" = None ->
      merged !! "style" = Some (Js.JStr (series_contentStyle series)))
  /\ (request !! "useTrending" = None ->
      merged !! "useTrending" = Some (Js.JBool (series_useTrendingTopics series)))
  /\ (request !! "priority" = None ->
      merged !! "priority"
      = Some (Js.JStr (Js.or_str (VideosController.gen_priority dto) "normal")))
  /\ (request !! k = None ->
      k <> "duration" -> k <> "style" -> k <> "useTrending" -> k <> "priority" ->
      merged !! k
      = match Js.or_ref (series_musicSettings series) ∅ !! k with
        | Some v => Some v
        | None =>
            match Js.or_ref (series_voiceSettings series) ∅ !! k with
            | Some v => Some v
            | None => Js.or_ref (series_visualStyle series) ∅ !! k
            end
        end).
Proof.
  intros request merged. subst request merged.
  unfold VideosController.merged_settings, Js.spread.
  repeat split.
  - intros v Hv. apply lookup_union_Some_l. exact Hv.
  - intros Hn. rewrite lookup_union_r by exact Hn. by simplify_map_eq.
  - intros Hn. rewrite lookup_union_r by exact Hn. by simplify_map_eq.
  - intros Hn. rewrite lookup_union_r by exact Hn. by simplify_map_eq.
  - intros Hn. rewrite lookup_union_r by exact Hn. by simplify_map_eq.
  - intros Hn H1 H2 H3 H4. rewrite lookup_union_r by exact Hn.
    rewrite !lookup_insert_ne by done.
    rewrite !lookup_union.
    destruct (Js.or_ref (series_musicSettings series) ∅ !! k),
             (Js.or_ref (series_voiceSettings series) ∅ !! k),
             (Js.or_ref (series_visualStyle series) ∅ !! k); reflexivity.
Qed.

Lemma merged_settings_precedence_witness :
  VideosController.merged_settings Sample.series1
    (VideosController.mkGenerateVideoDto "s1" None
       (Some {[ "duration" := Js.JNum 15 ]}) (Some "high")) !! "duration"
  = Some (Js.JNum 15)
  /\ VideosController.merged_settings Sample.series1
       (VideosController.mkGenerateVideoDto "s1" None
          (Some {[ "duration" := Js.JNum 15 ]}) (Some "high")) !! "priority"
     = Some (Js.JStr "high").
Proof.
  pose proof (merged_settings_precedence Sample.series1
                (VideosController.mkGenerateVideoDto "s1" None
                   (Some {[ "duration" := Js.JNum 15 ]}) (Some "high")) "duration")
    as (Hwins & _ & _ & _ & Hpriority & _).
  split; [apply Hwins; reflexivity | apply Hpriority; reflexivity].
Defined.

(** X8. A successful [generateVideo] writes two rows and nothing else: the
    new video row, and the series row, of which only the generated-count and
    [updatedAt] change. Every other video, every other series and the other
    tables stay as they were. *)
Theorem generateVideo_writes_two_rows
    (now : Z) (newId defaultStatus : string) (defaultProgress : Z)
    (db : Db) (userId : string) (dto : VideosController.GenerateVideoDto)
    (series : UserSeries) :
  userSeries db !! VideosController.gen_seriesId dto = Some series ->
  series_userId series = userId ->
  series_isActive series = true ->
  videos db !! newId = None ->
  exists video db',
    VideosController.generateVideo now newId defaultStatus defaultProgress userId dto db
    = (Returned video, db')
    /\ profiles db' = profiles db
    /\ socialAccounts db' = socialAccounts db
    /\ socialPosts db' = socialPosts db
    /\ (forall id, id <> newId -> videos db' !! id = videos db !! id)
    /\ (forall id, id <> VideosController.gen_seriesId dto ->
                   userSeries db' !! id = userSeries db !! id)
    /\ userSeries db' !! VideosController.gen_seriesId dto
       = Some (SeriesService.with_stats (series_totalVideosGenerated series + 1)
                 (series_totalViews series) (series_totalLikes series) now series)
    /\ (video_userId <$> videos db' !! newId) = Some userId
    /\ (video_seriesId <$> videos db' !! newId) = Some (VideosController.gen_seriesId dto).
Proof.
  intros Hs Ho Ha Hf. eexists _, _. split.
  - apply (generateVideo_run now newId defaultStatus defaultProgress db userId dto series
             Hs Ho Ha Hf).
  - cbn. repeat split; intros; by simplify_map_eq.
Qed.

Lemma generateVideo_writes_two_rows_witness :
  exists video db',
    VideosController.generateVideo 50 "v2" "pending" 7 "u1"
      (VideosController.mkGenerateVideoDto "s1" None None None) Sample.db
    = (Returned video, db')
    /\ videos db' !! "v1" = Some Sample.video1
    /\ userSeries db' !! "s2" = Some Sample.series2.
Proof.
  destruct (generateVideo_writes_two_rows 50 "v2" "pending" 7 Sample.db "u1"
              (VideosController.mkGenerateVideoDto "s1" None None None) Sample.series1
              eq_refl eq_refl eq_refl eq_refl)
    as (video & db' & Hrun & _ & _ & _ & Hvideos & Hseries & _).
  exists video, db'. split; [exact Hrun |]. split.
  - rewrite (Hvideos "v1") by (intros H; discriminate H). reflexivity.
  - rewrite (Hseries "s2") by (intros H; discriminate H). reflexivity.
Defined.

(** X9. [updateVideo] never erases an error message: if the stored video
    of the caller carries one, the stored video carries one after any update
    request, whatever the call answers, also when the request moves the video
    to ['ready']. *)
Theorem updateVideo_keeps_an_error_message
    (now : Z) (db : Db) (userId id : string) (dto : VideosController.UpdateVideoDto)
    (v : Video) :
  videos db !! id = Some v ->
  video_userId v = userId ->
  is_Some (video_errorMessage v) ->
  exists v',
    videos (snd (VideosController.updateVideo now userId id dto db)) !! id = Some v'
    /\ is_Some (video_errorMessage v').
Proof.
  intros Hv Ho [m Hm].
  destruct (Js.truthy_str (VideosController.uv_status dto)) eqn:Hst.
  - destruct (VideosController.uv_generationProgress dto) as [| | progress] eqn:Hprogress.
    2:{ rewrite (updateVideo_null_progress now db userId id dto v Hv Ho Hst Hprogress).
        exists v. split; [exact Hv | by exists m]. }
    all: destruct (updateVideo_run now db userId id dto v Hv Ho)
           as (db' & Hrun & Hlk & _);
      [intros _; rewrite Hprogress; discriminate |];
      rewrite Hrun; cbn [snd]; eexists; split; [exact Hlk |];
      rewrite Hst;
      destruct (0 <? _); cbn;
      destruct (VideosController.uv_errorMessage dto) as [e |]; cbn; rewrite ?Hm;
      try (eexists; reflexivity);
      destruct (String.eqb e ""); cbn; rewrite ?Hm; eexists; reflexivity.
  - destruct (updateVideo_run now db userId id dto v Hv Ho) as (db' & Hrun & Hlk & _).
    { intros H. rewrite Hst in H. discriminate H. }
    rewrite Hrun. cbn [snd]. eexists. split; [exact Hlk |].
    rewrite Hst. destruct (0 <? _); cbn; rewrite ?Hm; eexists; reflexivity.
Qed.

Lemma updateVideo_keeps_an_error_message_witness :
  exists v',
    videos (snd (VideosController.updateVideo 50 "u1" "v1"
                   (VideosController.mkUpdateVideoDto (Some "Fixed") Js.Undefined None None
                      None None Js.Undefined (Some ""))
                   Sample.db_failed)) !! "v1" = Some v'
    /\ video_status v' = "ready"
    /\ is_Some (video_errorMessage v').
Proof.
  destruct (updateVideo_keeps_an_error_message 50 Sample.db_failed "u1" "v1"
              (VideosController.mkUpdateVideoDto (Some "Fixed") Js.Undefined None None None
                 None Js.Undefined (Some ""))
              Sample.failed_video1 eq_refl eq_refl (ex_intro _ "boom" eq_refl))
    as (v' & Hlk & Hmsg).
  exists v'. split; [exact Hlk |]. split; [| exact Hmsg].
  vm_compute in Hlk. injection Hlk as <-. reflexivity.
Defined.

(** ** Pagination, further *)

(** X10. In a response built with [limit >= 1], [hasNext] says whether items
    remain beyond the page: it is [true] exactly when [page * limit < total]. *)
Theorem hasNext_iff_items_remain
    (T : Type) (items : list T) (total page limit : Z) :
  1 <= limit ->
  meta_hasNext (meta (new_PaginatedResponseDto items total page limit)) = true
  <-> page * limit < total.
Proof.
  intros Hl. cbn. rewrite Z.ltb_lt.
  pose proof (Math_ceil_div_spec total limit Hl) as [Hlow Hhigh].
  split; intros H; nia.
Qed.

Lemma hasNext_iff_items_remain_witness :
  meta_hasNext (meta (new_PaginatedResponseDto [1; 2; 3] 7 2 3)) = true <-> 2 * 3 < 7.
Proof.
  apply (hasNext_iff_items_remain Z [1; 2; 3] 7 2 3). lia.
Defined.

Lemma windows_concat {A} (l : list A) (n k : nat) :
  concat ((fun i => take n (drop (i * n) l)) <$> seq 0 k) = take (k * n) l.
Proof.
  induction k as [| k IH]; [reflexivity |].
  rewrite seq_S, fmap_app, concat_app, IH. cbn [fmap list_fmap concat].
  rewrite app_nil_r. cbn [Nat.add].
  replace (S k * n)%nat with (k * n + n)%nat by lia.
  by rewrite take_take_drop.
Qed.

(** X11. The pages of the series list tile it: for a limit of at least 1,
    the pages 1, 2, ..., [totalPages] of [getUserSeries], put end to end, are
    the user's filtered series, each once and in order, and every later page
    is empty. *)
Theorem getUserSeries_pages_tile
    (toLowerCase : string -> string) (db : Db) (userId : string) (pageSize : Z)
    (term : option string) (isActive : option bool) :
  1 <= pageSize ->
  let all := SeriesController.filteredSeries toLowerCase userId term isActive db in
  let pageData (p : Z) :=
    match fst (SeriesController.getUserSeries toLowerCase userId
                 (mkPaginationDto (Some p) (Some pageSize) term) isActive db) with
    | Returned r => data r
    | Thrown _ => []
    end in
  let totalPages := Math_ceil_div (Z.of_nat (length all)) pageSize in
  concat (pageData <$> (Z.of_nat <$> seq 1 (Z.to_nat totalPages))) = all
  /\ forall p, totalPages < p -> pageData p = [].
Proof.
  intros Hl all pageData totalPages.
  pose proof (Math_ceil_div_spec (Z.of_nat (length all)) pageSize Hl) as [Hlow Hhigh].
  fold totalPages in Hlow, Hhigh.
  assert (Hlim : Js.or_num (Some pageSize) 10 = pageSize).
  { unfold Js.or_num. destruct (Z.eqb_spec pageSize 0); [lia | reflexivity]. }
  assert (Hpage : forall p, 1 <= p ->
             pageData p = take (Z.to_nat pageSize) (drop (Z.to_nat (p - 1) * Z.to_nat pageSize) all)).
  { intros p Hp. subst pageData. cbv beta. rewrite getUserSeries_run.
    cbn [fst page limit search]. rewrite Hlim.
    assert (Hor : Js.or_num (Some p) 1 = p).
    { unfold Js.or_num. destruct (Z.eqb_spec p 0); [lia | reflexivity]. }
    rewrite Hor. cbn [data new_PaginatedResponseDto].
    rewrite <- slice_window. unfold all. f_equal; nia. }
  split.
  - transitivity (concat ((fun i => take (Z.to_nat pageSize) (drop (i * Z.to_nat pageSize) all))
                            <$> seq 0 (Z.to_nat totalPages))).
    + f_equal. rewrite <- (fmap_S_seq 0), <- !list_fmap_compose.
      apply list_fmap_ext. intros _ i _. unfold compose.
      rewrite Hpage by lia. do 2 f_equal. lia.
    + rewrite windows_concat. apply take_ge. nia.
  - intros p Hp. rewrite Hpage by nia.
    rewrite drop_ge by nia. apply take_nil.
Qed.

Lemma getUserSeries_pages_tile_witness :
  concat ((fun p =>
             match fst (SeriesController.getUserSeries Sample.toLowerCase "u1"
                          (mkPaginationDto (Some p) (Some 1) None) None Sample.db) with
             | Returned r => data r
             | Thrown _ => []
             end) <$> [1; 2])
  = SeriesController.filteredSeries Sample.toLowerCase "u1" None None Sample.db.
Proof.
  apply (proj1 (getUserSeries_pages_tile Sample.toLowerCase Sample.db "u1" 1 None None
                  (Z.le_refl 1))).
Defined.

(** X12. The video list never announces a next page: [getUserVideos] takes
    [total] from the page it has just read, so for a limit of at least 1
    every response it gives has [total <= limit], [totalPages <= 1] and
    [hasNext = false], however many videos the user has; and it gives one
    whenever the page is at least 1 and no listed video makes the response
    mapping throw. *)
Theorem getUserVideos_never_has_next
    (toLowerCase : string -> string) (db : Db) (userId : string) (dto : PaginationDto)
    (status seriesId : option string) :
  1 <= Js.or_num (limit dto) 10 ->
  (forall r db',
     VideosController.getUserVideos toLowerCase userId dto status seriesId db
     = (Returned r, db') ->
     meta_total (meta r) = Z.of_nat (length (data r))
     /\ meta_total (meta r) <= meta_limit (meta r)
     /\ meta_totalPages (meta r) <= 1
     /\ meta_hasNext (meta r) = false)
  /\ (1 <= Js.or_num (page dto) 1 ->
      existsb (VideosController.response_throws db)
        (VideosController.filteredVideos toLowerCase userId dto status seriesId db) = false ->
      exists r,
        VideosController.getUserVideos toLowerCase userId dto status seriesId db
        = (Returned r, db)).
Proof.
  intros Hl. split.
  - intros r db' Hrun.
    destruct (Z.lt_ge_cases ((Js.or_num (page dto) 1 - 1) * Js.or_num (limit dto) 10) 0)
      as [Hneg | Hoff].
    { rewrite (getUserVideos_negative_offset _ _ _ _ _ _ Hneg) in Hrun. discriminate Hrun. }
    rewrite (getUserVideos_run _ _ _ _ _ _ Hoff Hl) in Hrun.
    destruct (existsb _ _); [discriminate Hrun |].
    injection Hrun as <- <-.
    cbn [data meta new_PaginatedResponseDto meta_total meta_limit meta_totalPages
           meta_hasNext].
    pose proof (filteredVideos_length toLowerCase userId dto status seriesId db Hl) as Hlen.
    set (n := Z.of_nat (length _)) in *.
    pose proof (Math_ceil_div_spec n _ Hl) as [Hlow Hhigh].
    assert (Hpages : Math_ceil_div n (Js.or_num (limit dto) 10) <= 1) by nia.
    assert (Hpage : 1 <= Js.or_num (page dto) 1) by nia.
    split; [reflexivity |]. split; [exact Hlen |]. split; [exact Hpages |].
    apply Z.ltb_ge. lia.
  - intros Hp Hmap.
    assert (Hoff : 0 <= (Js.or_num (page dto) 1 - 1) * Js.or_num (limit dto) 10) by nia.
    rewrite (getUserVideos_run _ _ _ _ _ _ Hoff Hl). cbv zeta. rewrite Hmap.
    eexists. reflexivity.
Qed.

Lemma getUserVideos_never_has_next_witness :
  exists r,
    VideosController.getUserVideos Sample.toLowerCase "u1"
      (mkPaginationDto (Some 1) (Some 1) None) None None Sample.db_two_videos
    = (Returned r, Sample.db_two_videos)
    /\ data r = [Sample.video2]
    /\ meta_hasNext (meta r) = false
    /\ videos Sample.db_two_videos !! "v1" = Some Sample.video1
    /\ video_userId Sample.video1 = "u1".
Proof.
  destruct (getUserVideos_never_has_next Sample.toLowerCase Sample.db_two_videos "u1"
              (mkPaginationDto (Some 1) (Some 1) None) None None (Z.le_refl 1))
    as (Hnever & Hreturns).
  destruct (Hreturns (Z.le_refl 1)) as (r & Hrun); [vm_compute; reflexivity |].
  destruct (Hnever r Sample.db_two_videos Hrun) as (_ & _ & _ & Hnext).
  exists r. split; [exact Hrun |]. split.
  - vm_compute in Hrun. injection Hrun as <-. reflexivity.
  - split; [exact Hnext |]. split; reflexivity.
Defined.

Lemma findMany_desc_elem {R} (tbl : gmap string R) (p : R -> bool) (k : R -> Z) x :
  x ∈ Prisma.findMany_desc tbl p k <-> p x = true /\ exists key, tbl !! key = Some x.
Proof.
  unfold Prisma.findMany_desc. rewrite order_desc_perm, list_elem_of_filter.
  rewrite list_elem_of_fmap. split.
  - intros [Hp [[key y] [-> Hy]]]. split; [exact Hp |].
    exists key. by apply elem_of_map_to_list.
  - intros [Hp [key Hkey]]. split; [exact Hp |].
    exists (key, x). split; [reflexivity | by apply elem_of_map_to_list].
Qed.

Lemma slice_subseteq {A} (l : list A) (start stop : Z) : Js.slice l start stop ⊆ l.
Proof.
  unfold Js.slice. etransitivity; [apply subseteq_take | apply subseteq_drop].
Qed.

(** X13. The two list handlers hand a caller only that caller's rows: every
    series in a [getUserSeries] response and every video in a [getUserVideos]
    response is a stored row whose [userId] is the caller's; a series also
    passes the [isActive] filter of the request, and a video has the status
    and the series asked for. *)
Theorem list_handlers_return_own_rows
    (toLowerCase : string -> string) (db : Db) (userId : string) (dto : PaginationDto)
    (isActive : option bool) (status seriesId : option string) :
  (forall r db' s,
     SeriesController.getUserSeries toLowerCase userId dto isActive db = (Returned r, db') ->
     s ∈ data r ->
     series_userId s = userId
     /\ (exists key, userSeries db !! key = Some s)
     /\ (forall b, isActive = Some b -> series_isActive s = b))
  /\ (forall r db' v,
        VideosController.getUserVideos toLowerCase userId dto status seriesId db
        = (Returned r, db') ->
        v ∈ data r ->
        video_userId v = userId
        /\ (exists key, videos db !! key = Some v)
        /\ (Js.truthy_str status = true -> Some (video_status v) = status)
        /\ (Js.truthy_str seriesId = true -> Some (video_seriesId v) = seriesId)).
Proof.
  split.
  - intros r db' s Hrun Hs. rewrite getUserSeries_run in Hrun.
    injection Hrun as <- <-. cbn [data new_PaginatedResponseDto] in Hs.
    apply slice_subseteq in Hs. unfold SeriesController.filteredSeries in Hs.
    assert (Hactive : s ∈ match isActive with
                          | Some b => filter (fun s => Bool.eqb (series_isActive s) b = true)
                                        (Prisma.findMany_desc (userSeries db)
                                           (fun s => String.eqb (series_userId s) userId)
                                           series_createdAt)
                          | None => Prisma.findMany_desc (userSeries db)
                                      (fun s => String.eqb (series_userId s) userId)
                                      series_createdAt
                          end).
    { destruct (Js.truthy_str (search dto)); [| exact Hs].
      apply list_elem_of_filter in Hs. tauto. }
    assert (Hall : s ∈ Prisma.findMany_desc (userSeries db)
                         (fun s => String.eqb (series_userId s) userId) series_createdAt
                   /\ forall b, isActive = Some b -> series_isActive s = b).
    { destruct isActive as [b |].
      - apply list_elem_of_filter in Hactive. destruct Hactive as [Hb Hin].
        split; [exact Hin |]. intros b' [= <-]. by apply Bool.eqb_prop.
      - split; [exact Hactive | discriminate]. }
    destruct Hall as [Hin Hfilter]. apply findMany_desc_elem in Hin.
    destruct Hin as [Hu Hkey]. apply String.eqb_eq in Hu. tauto.
  - intros r db' v.
    unfold VideosController.getUserVideos, VideoService.getUserVideos, Prisma.skip_take.
    cbn [VideoService.opt_offset VideoService.opt_limit VideoService.opt_status
           VideoService.opt_seriesId].
    destruct (_ <? 0); [discriminate |].
    unfold bind at 1. unfold ret at 1. unfold bind at 1.
    rewrite map_handler_toResponse.
    destruct (existsb _ _); [discriminate |].
    unfold ret. intros Hrun Hv. injection Hrun as <- _.
    cbn [data new_PaginatedResponseDto] in Hv.
    assert (Hin : v ∈ Prisma.findMany_desc (videos db)
                        (fun v =>
                           String.eqb (video_userId v) userId
                           && (if Js.truthy_str status
                               then String.eqb (video_status v) (default "" status)
                               else true)
                           && (if Js.truthy_str seriesId
                               then String.eqb (video_seriesId v) (default "" seriesId)
                               else true))
                        video_createdAt).
    { destruct (Js.truthy_str (search dto)).
      - apply list_elem_of_filter in Hv. destruct Hv as [_ Hv].
        by apply subseteq_take, subseteq_drop in Hv.
      - by apply subseteq_take, subseteq_drop in Hv. }
    apply findMany_desc_elem in Hin. destruct Hin as [Hp Hkey].
    apply andb_prop in Hp. destruct Hp as [Hp Hseries].
    apply andb_prop in Hp. destruct Hp as [Hu Hstatus].
    apply String.eqb_eq in Hu.
    split; [exact Hu |]. split; [exact Hkey |]. split.
    + intros Ht. rewrite Ht in Hstatus. apply String.eqb_eq in Hstatus.
      destruct status; [cbn in Hstatus; by rewrite Hstatus | discriminate Ht].
    + intros Ht. rewrite Ht in Hseries. apply String.eqb_eq in Hseries.
      destruct seriesId; [cbn in Hseries; by rewrite Hseries | discriminate Ht].
Qed.

Lemma list_handlers_return_own_rows_witness :
  exists r,
    SeriesController.getUserSeries Sample.toLowerCase "u1" (mkPaginationDto None None None)
      (Some false) Sample.db = (Returned r, Sample.db)
    /\ forall s, s ∈ data r -> series_userId s = "u1" /\ series_isActive s = false.
Proof.
  eexists. split; [reflexivity |].
  intros s Hs.
  destruct (proj1 (list_handlers_return_own_rows Sample.toLowerCase Sample.db "u1"
                     (mkPaginationDto None None None) (Some false) None None)
              _ Sample.db s eq_refl Hs)
    as (Hu & _ & Hactive).
  split; [exact Hu | exact (Hactive false eq_refl)].
Defined.

(** ** Creating a series *)



(** X15. [getActiveSeries], the query for automation, follows the toggle:
    after the owner's [toggleSeriesStatus] the series is among the active
    series exactly when it was switched on. *)
Theorem getActiveSeries_follows_toggle
    (now : Z) (db : Db) (userId id : string) (isActive : bool) (series : UserSeries) :
  userSeries db !! id = Some series ->
  series_userId series = userId ->
  exists toggled db',
    SeriesController.toggleSeriesStatus now userId id isActive db = (Returned toggled, db')
    /\ userSeries db' !! id = Some toggled
    /\ exists active,
         SeriesService.getActiveSeries db' = (Returned active, db')
         /\ (toggled ∈ active <-> isActive = true)
         /\ forall s, s ∈ active -> series_isActive s = true.
Proof.
  intros Hs Ho.
  set (toggled := SeriesService.with_isActive isActive now series).
  set (db' := set_userSeries (<[id := toggled]> (userSeries db)) db).
  exists toggled, db'. split.
  { unfold SeriesController.toggleSeriesStatus, SeriesService.getSeriesById,
      SeriesService.toggleSeriesStatus.
    rewrite (guard_present _ _ _ _ _ Hs). cbv beta iota.
    rewrite Ho, strict_ne_same. unfold throw_if.
    rewrite (bind_returned _ _ db tt db) by reflexivity.
    apply (update_run_Some userSeries set_userSeries id
             (SeriesService.with_isActive isActive now) db series Hs). }
  assert (Hlk : userSeries db' !! id = Some toggled) by (cbn; apply lookup_insert_eq).
  split; [exact Hlk |].
  eexists. split; [reflexivity |]. split.
  - rewrite list_elem_of_filter, list_elem_of_fmap. split.
    + intros [Hact _]. exact Hact.
    + intros ->. split; [reflexivity |].
      exists (id, toggled). split; [reflexivity | by apply elem_of_map_to_list].
  - intros s Hin. apply list_elem_of_filter in Hin. tauto.
Qed.

Lemma getActiveSeries_follows_toggle_witness :
  exists toggled db' active,
    SeriesController.toggleSeriesStatus 50 "u1" "s1" false Sample.db = (Returned toggled, db')
    /\ SeriesService.getActiveSeries db' = (Returned active, db')
    /\ ~ toggled ∈ active.
Proof.
  destruct (getActiveSeries_follows_toggle 50 Sample.db "u1" "s1" false Sample.series1
              eq_refl eq_refl)
    as (toggled & db' & Hrun & _ & active & Hactive & Hiff & _).
  exists toggled, db', active. split; [exact Hrun |]. split; [exact Hactive |].
  intros Hin. apply Hiff in Hin. discriminate Hin.
Defined.

(** ** Profiles *)

(** X16. [getProfileById] compares the id with the caller before it looks
    anything up: a foreign id is answered 400 ([BadRequestException])
    whether or not such a profile exists; the caller's own id is answered
    with the profile, or with [NotFoundException] when there is none. *)
Theorem getProfileById_checks_caller_first (db : Db) (currentUserId id : string) :
  (id <> currentUserId ->
   UsersController.getProfileById currentUserId id db
   = (Thrown (Http (BadRequestException "You can only access your own profile")), db))
  /\ (profiles db !! currentUserId = None ->
      UsersController.getProfileById currentUserId currentUserId db
      = (Thrown (Http (NotFoundException "Profile not found")), db))
  /\ (forall profile,
        profiles db !! currentUserId = Some profile ->
        UsersController.getProfileById currentUserId currentUserId db
        = (Returned profile, db)).
Proof.
  unfold UsersController.getProfileById, UserService.findProfileById.
  repeat split.
  - intros Hne. rewrite (strict_ne_diff _ _ Hne). reflexivity.
  - intros Habs. rewrite strict_ne_same. unfold throw_if.
    rewrite (bind_returned _ _ db tt db) by reflexivity.
    rewrite (guard_absent _ _ _ _ Habs). reflexivity.
  - intros profile Hp. rewrite strict_ne_same. unfold throw_if.
    rewrite (bind_returned _ _ db tt db) by reflexivity.
    rewrite (guard_present _ _ _ _ _ Hp). reflexivity.
Qed.

Lemma getProfileById_checks_caller_first_witness :
  UsersController.getProfileById "u2" "u1" Sample.db
  = (Thrown (Http (BadRequestException "You can only access your own profile")), Sample.db)
  /\ UsersController.getProfileById "u2" "u9" Sample.db
     = (Thrown (Http (BadRequestException "You can only access your own profile")),
        Sample.db)
  /\ UsersController.getProfileById "u1" "u1" Sample.db = (Returned Sample.profile1, Sample.db).
Proof.
  split; [| split].
  - apply (proj1 (getProfileById_checks_caller_first Sample.db "u2" "u1")).
    intros H. discriminate H.
  - apply (proj1 (getProfileById_checks_caller_first Sample.db "u2" "u9")).
    intros H. discriminate H.
  - apply (proj2 (proj2 (getProfileById_checks_caller_first Sample.db "u1" "u1"))
             Sample.profile1 eq_refl).
Defined.

Lemma email_taken_by_other_true (tbl : gmap string Profile) id k p email :
  tbl !! k = Some p -> k <> id -> profile_email p = email ->
  UserService.email_taken_by_other tbl id email = true.
Proof.
  intros Hk Hne He. unfold UserService.email_taken_by_other.
  apply existsb_exists. exists (k, p). split.
  - apply list_elem_of_In. by apply elem_of_map_to_list.
  - cbn. rewrite He, String.eqb_refl.
    destruct (String.eqb_spec k id); [contradiction | reflexivity].
Qed.

(** X17. Deactivating a profile is a soft delete: the caller's profile stays
    in the store with [isActive = false] and its email; it can still be read
    with [getCurrentProfile]; its email stays taken, so creating a profile
    with that email is still answered 400; and the series, videos, social
    accounts and posts are as they were. *)
Theorem deactivateCurrentProfile_is_soft
    (defaultIsActive : bool) (db : Db) (userId : string) (profile : Profile) :
  profiles db !! userId = Some profile ->
  exists deactivated db',
    UsersController.deactivateCurrentProfile userId db = (Returned deactivated, db')
    /\ profile_isActive deactivated = false
    /\ profile_email deactivated = profile_email profile
    /\ UsersController.getCurrentProfile userId db' = (Returned deactivated, db')
    /\ (forall randomUUID dto,
          UsersController.dto_email dto = profile_email profile ->
          UsersController.createProfile defaultIsActive randomUUID dto db'
          = (Thrown (Http (BadRequestException "Profile with this email already exists")),
             db'))
    /\ userSeries db' = userSeries db
    /\ videos db' = videos db
    /\ socialAccounts db' = socialAccounts db
    /\ socialPosts db' = socialPosts db.
Proof.
  intros Hp.
  set (off := UserService.with_isActive false profile).
  set (db' := set_profiles (<[userId := off]> (profiles db)) db).
  assert (Hlk : profiles db' !! userId = Some off) by (cbn; apply lookup_insert_eq).
  exists off, db'. split.
  { unfold UsersController.deactivateCurrentProfile, try_catch,
      UserService.deactivateProfile.
    rewrite (update_run_Some profiles set_profiles userId
               (UserService.with_isActive false) db profile Hp).
    reflexivity. }
  repeat split.
  - unfold UsersController.getCurrentProfile, UserService.getProfileWithAnalytics.
    rewrite (guard_present _ _ _ _ _ Hlk). reflexivity.
  - intros randomUUID dto He.
    apply (createProfile_duplicate_email defaultIsActive randomUUID db' dto userId off Hlk).
    symmetry. exact He.
Qed.

Lemma deactivateCurrentProfile_is_soft_witness :
  exists deactivated db',
    UsersController.deactivateCurrentProfile "u1" Sample.db = (Returned deactivated, db')
    /\ profile_isActive deactivated = false
    /\ UsersController.getCurrentProfile "u1" db' = (Returned deactivated, db')
    /\ userSeries db' = userSeries Sample.db.
Proof.
  destruct (deactivateCurrentProfile_is_soft true Sample.db "u1" Sample.profile1 eq_refl)
    as (off & db' & Hrun & Hoff & _ & Hread & _ & Hseries & _).
  exists off, db'. repeat split; assumption.
Defined.

(** X18. For a caller without a profile, [updateCurrentProfile] and
    [deactivateCurrentProfile] answer [NotFoundException] (the store's P2025,
    translated), and write nothing. *)
Theorem profile_writes_need_a_profile
    (db : Db) (userId : string) (dto : UserService.UpdateInput) :
  profiles db !! userId = None ->
  UsersController.updateCurrentProfile userId dto db
  = (Thrown (Http (NotFoundException "Profile not found")), db)
  /\ UsersController.deactivateCurrentProfile userId db
     = (Thrown (Http (NotFoundException "Profile not found")), db).
Proof.
  intros Habs.
  unfold UsersController.updateCurrentProfile, UsersController.deactivateCurrentProfile,
    try_catch, UserService.updateProfile, UserService.deactivateProfile, Prisma.update.
  rewrite Habs. split; reflexivity.
Qed.

Lemma profile_writes_need_a_profile_witness :
  UsersController.updateCurrentProfile "u9" (UserService.mkUpdateInput None (Some "N") None)
    Sample.db
  = (Thrown (Http (NotFoundException "Profile not found")), Sample.db).
Proof.
  apply (proj1 (profile_writes_need_a_profile Sample.db "u9"
                  (UserService.mkUpdateInput None (Some "N") None) eq_refl)).
Defined.

(** X19. Changing a profile's email to the email of another profile is
    refused by the store with P2002, which [updateCurrentProfile] lets
    through: the exception filter answers 409, where [createProfile] answers
    the same clash with 400. Nothing is written. *)
Theorem updateCurrentProfile_duplicate_email
    (db : Db) (userId : string) (dto : UserService.UpdateInput)
    (profile : Profile) (k : string) (other : Profile) :
  profiles db !! userId = Some profile ->
  profiles db !! k = Some other ->
  k <> userId ->
  UserService.pu_email dto = Some (profile_email other) ->
  UsersController.updateCurrentProfile userId dto db
  = (Thrown (PrismaClientKnownRequestError "P2002"), db)
  /\ HttpExceptionFilter.status (PrismaClientKnownRequestError "P2002") = 409.
Proof.
  intros Hp Hk Hne He. split; [| reflexivity].
  unfold UsersController.updateCurrentProfile, try_catch, UserService.updateProfile.
  rewrite Hp, He.
  rewrite (email_taken_by_other_true (profiles db) userId k other _ Hk Hne eq_refl).
  reflexivity.
Qed.

Lemma updateCurrentProfile_duplicate_email_witness :
  UsersController.updateCurrentProfile "u2"
    (UserService.mkUpdateInput (Some "u1@example.com") None None) Sample.db_two_profiles
  = (Thrown (PrismaClientKnownRequestError "P2002"), Sample.db_two_profiles).
Proof.
  apply (proj1 (updateCurrentProfile_duplicate_email Sample.db_two_profiles "u2"
                  (UserService.mkUpdateInput (Some "u1@example.com") None None)
                  Sample.profile2 "u1" Sample.profile1 eq_refl eq_refl
                  ltac:(intros H; discriminate H) eq_refl)).
Defined.

(** ** Social accounts, further *)

(** X21. [syncSocialAccount] stamps and changes nothing else: for the owner
    the call returns the stored account with [lastSyncAt] set to now, and the
    follower count, profile image, verification flag, tokens and flags are
    what they were. *)
Theorem syncSocialAccount_only_stamps
    (now : Z) (db : Db) (userId id : string) (a : SocialAccount) :
  socialAccounts db !! id = Some a ->
  account_userId a = userId ->
  let synced :=
    mkSocialAccount (account_id a) (account_userId a) (account_platform a)
      (account_platformUserId a) (account_username a) (account_displayName a)
      (account_accessToken a)
      (account_refreshToken a) (account_tokenExpiresAt a) (account_followerCount a)
      (account_profileImageUrl a) (account_isVerified a) (account_isActive a)
      (account_autoPost a) (account_connectedAt a) (Some now) in
  SocialController.syncSocialAccount now userId id db
  = (Returned synced, set_socialAccounts (<[id := synced]> (socialAccounts db)) db).
Proof.
  intros Ha Ho synced.
  unfold SocialController.syncSocialAccount, SocialAccountService.getSocialAccountById,
    SocialAccountService.updateAccountMetrics.
  rewrite (guard_present _ _ _ _ _ Ha). cbv beta iota.
  rewrite Ho, strict_ne_same. unfold throw_if.
  rewrite (bind_returned _ _ db tt db) by reflexivity.
  rewrite (update_run_Some socialAccounts set_socialAccounts id _ db a Ha).
  assert (Hsame : SocialAccountService.with_metrics (account_followerCount a)
                    (account_profileImageUrl a) (account_isVerified a) now a = synced).
  { subst synced. unfold SocialAccountService.with_metrics, SocialAccountService.keep.
    destruct (account_followerCount a), (account_profileImageUrl a),
      (account_isVerified a); reflexivity. }
  rewrite Hsame. reflexivity.
Qed.

Lemma syncSocialAccount_only_stamps_witness :
  exists synced db',
    SocialController.syncSocialAccount 50 "u1" "a1" Sample.db = (Returned synced, db')
    /\ account_lastSyncAt synced = Some 50
    /\ account_followerCount synced = account_followerCount Sample.account1.
Proof.
  eexists _, _. split.
  - apply (syncSocialAccount_only_stamps 50 Sample.db "u1" "a1" Sample.account1
             eq_refl eq_refl).
  - split; reflexivity.
Defined.

(** X22. Every account that [getActiveAccountsForPosting] offers is an
    account whose response shows ['connected'] at the same instant, has
    auto-posting on, and is the named user's when a user is named: an account
    shown as ['expired'] or ['error'] is never offered for posting. *)
Theorem posting_accounts_are_connected
    (now : Z) (db : Db) (userId : option string) (a : SocialAccount) :
  a ∈ match fst (SocialAccountService.getActiveAccountsForPosting now userId db) with
      | Returned accounts => accounts
      | Thrown _ => []
      end ->
  SocialAccountResponseDto.connectionStatus now a = "connected"
  /\ account_autoPost a = true
  /\ (exists key, socialAccounts db !! key = Some a)
  /\ (Js.truthy_str userId = true -> Some (account_userId a) = userId).
Proof.
  cbn [fst SocialAccountService.getActiveAccountsForPosting].
  rewrite list_elem_of_filter, list_elem_of_fmap.
  intros [Hp [[key a'] [-> Hin]]]. cbn [snd] in *.
  apply elem_of_map_to_list in Hin.
  apply andb_prop in Hp. destruct Hp as [Hp Hexp].
  apply andb_prop in Hp. destruct Hp as [Hp Hauto].
  apply andb_prop in Hp. destruct Hp as [Huser Hactive].
  repeat split.
  - unfold SocialAccountResponseDto.connectionStatus. rewrite Hactive.
    destruct (account_tokenExpiresAt a') as [t |]; [| reflexivity].
    apply Z.ltb_lt in Hexp. destruct (Z.ltb_spec t now); [lia | reflexivity].
  - exact Hauto.
  - exists key. exact Hin.
  - intros Ht. rewrite Ht in Huser. apply String.eqb_eq in Huser.
    destruct userId; [cbn in Huser; by rewrite Huser | discriminate Ht].
Qed.

Lemma posting_accounts_are_connected_witness :
  SocialAccountResponseDto.connectionStatus 50 Sample.account1 = "connected"
  /\ account_autoPost Sample.account1 = true.
Proof.
  destruct (posting_accounts_are_connected 50 Sample.db (Some "u1") Sample.account1)
    as (Hstatus & Hauto & _).
  - vm_compute. apply list_elem_of_here.
  - split; assumption.
Defined.

Lemma findFirst_none {R} (tbl : Db -> gmap string R) (p : R -> bool) db :
  (forall k r, tbl db !! k = Some r -> p r = false) ->
  Prisma.findFirst tbl p db = (Returned None, db).
Proof.
  intros Hnone. unfold Prisma.findFirst.
  destruct (list_find _ _) as [[i r] |] eqn:Hfind; [| reflexivity].
  apply list_find_Some in Hfind. destruct Hfind as (Hi & Hp & _).
  apply list_elem_of_lookup_2 in Hi. apply list_elem_of_fmap in Hi.
  destruct Hi as [[k r'] [-> Hin]]. apply elem_of_map_to_list in Hin.
  cbn [snd] in Hp. rewrite (Hnone k r' Hin) in Hp. discriminate Hp.
Qed.

(** The filter of the pre-check of [connectSocialAccount]. *)
Lemma precheck_false userId platform (a : SocialAccount) :
  (account_userId a = userId -> account_platform a = platform -> account_isActive a = false) ->
  String.eqb (account_userId a) userId && String.eqb (account_platform a) platform
  && Bool.eqb (account_isActive a) true = false.
Proof.
  intros H.
  destruct (String.eqb_spec (account_userId a) userId) as [Hu |]; [| reflexivity].
  destruct (String.eqb_spec (account_platform a) platform) as [Hp |]; [| reflexivity].
  rewrite (H Hu Hp). reflexivity.
Qed.



(** X24. When the pre-check finds no active account but the store reports a
    unique-constraint violation on the insert, [connectSocialAccount]
    answers [ConflictException] "This social account is already connected"
    (status 409) and writes nothing. *)
Theorem connect_unique_violation_is_conflict
    (now : Z) (newId : string) (defaultIsActive defaultAutoPost : bool)
    (violatesUnique : gmap string SocialAccount -> SocialAccount -> bool)
    (db : Db) (userId : string) (dto : SocialController.ConnectSocialAccountDto) :
  (forall k a,
     socialAccounts db !! k = Some a ->
     account_userId a = userId ->
     account_platform a = SocialController.dto_platform dto ->
     account_isActive a = false) ->
  violatesUnique (socialAccounts db)
    (mkSocialAccount newId userId (SocialController.dto_platform dto)
       (SocialController.dto_platformUserId dto) (SocialController.dto_username dto)
       (SocialController.dto_displayName dto)
       (SocialController.dto_accessToken dto) (SocialController.dto_refreshToken dto)
       (SocialController.dto_tokenExpiresAt dto) (SocialController.dto_followerCount dto)
       (SocialController.dto_profileImageUrl dto) (SocialController.dto_isVerified dto)
       defaultIsActive (default defaultAutoPost (SocialController.dto_autoPost dto))
       now None)
  = true
  \/ is_Some (socialAccounts db !! newId) ->
  SocialController.connectSocialAccount now newId defaultIsActive defaultAutoPost
    violatesUnique userId dto db
  = (Thrown (Http (ConflictException "This social account is already connected")), db).
Proof.
  intros Hnone Hviolation.
  unfold SocialController.connectSocialAccount,
    SocialAccountService.getSocialAccountByPlatform.
  rewrite (bind_returned _ _ db None db).
  2:{ apply findFirst_none. intros k a Hk. apply precheck_false. eauto. }
  cbn [Js.truthy_ref throw_if]. rewrite (bind_returned _ _ db tt db) by reflexivity.
  unfold try_catch, SocialAccountService.connectAccount, Prisma.create.
  cbn [SocialAccountService.cn_userId SocialAccountService.cn_platform
         SocialAccountService.cn_platformUserId SocialAccountService.cn_username
         SocialAccountService.cn_displayName
         SocialAccountService.cn_accessToken SocialAccountService.cn_refreshToken
         SocialAccountService.cn_tokenExpiresAt SocialAccountService.cn_followerCount
         SocialAccountService.cn_profileImageUrl SocialAccountService.cn_isVerified
         SocialAccountService.cn_autoPost].
  destruct (violatesUnique (socialAccounts db) _) eqn:Hv; [reflexivity |].
  destruct Hviolation as [Hall | [old Hold]].
  - discriminate Hall.
  - cbn [account_id]. rewrite Hold. reflexivity.
Qed.

Lemma connect_unique_violation_is_conflict_witness :
  SocialController.connectSocialAccount 50 "a1" true true Sample.no_unique_constraint "u1"
    (SocialController.mkConnectSocialAccountDto "tiktok" "T1" "tech" None "tok"
       None None None None None None) Sample.db
  = (Thrown (Http (ConflictException "This social account is already connected")),
     Sample.db).
Proof.
  apply (connect_unique_violation_is_conflict 50 "a1" true true Sample.no_unique_constraint
           Sample.db "u1"
           (SocialController.mkConnectSocialAccountDto "tiktok" "T1" "tech" None "tok"
              None None None None None None)).
  - intros k a Hk _ Hp. cbn in Hk. apply lookup_singleton_Some in Hk.
    destruct Hk as [_ <-]. discriminate Hp.
  - right. exists Sample.account1. reflexivity.
Defined.



(** X26. The account list hands a caller only that caller's accounts: every
    account in a [getUserSocialAccounts] response is a stored account of the
    caller, on the platform asked for and with the [isActive] asked for, and
    its [recentStats] count at most five posts. *)
Theorem getUserSocialAccounts_returns_own_accounts
    (engagementRate : SocialPost -> float) (db : Db) (userId : string)
    (platform : option string) (isActive : option bool)
    (a : SocialAccount) (stats : SocialController.RecentStats) :
  (a, stats) ∈ match fst (SocialController.getUserSocialAccounts engagementRate userId
                            platform isActive db) with
               | Returned accounts => accounts
               | Thrown _ => []
               end ->
  account_userId a = userId
  /\ (exists key, socialAccounts db !! key = Some a)
  /\ (Js.truthy_str platform = true -> Some (account_platform a) = platform)
  /\ (forall b, isActive = Some b -> account_isActive a = b)
  /\ 0 <= SocialController.rs_totalPosts stats <= 5.
Proof.
  unfold SocialController.getUserSocialAccounts,
    SocialAccountService.getUserSocialAccounts, bind, ret. cbn [fst].
  rewrite list_elem_of_fmap. intros [[a0 posts] [Heq Hin]]. cbn [fst snd] in Heq.
  injection Heq as -> ->.
  assert (Hactive : (a0, posts) ∈
            (if Js.truthy_str platform
             then filter (fun ap : SocialAccount * list SocialPost =>
                            account_platform (fst ap) = default "" platform)
                    ((fun a =>
                        (a, take 5 (Prisma.findMany_desc (socialPosts db)
                                      (fun p => String.eqb (post_socialAccountId p)
                                                  (account_id a))
                                      post_createdAt)))
                       <$> Prisma.findMany_desc (socialAccounts db)
                             (fun a => String.eqb (account_userId a) userId)
                             account_connectedAt)
             else (fun a =>
                     (a, take 5 (Prisma.findMany_desc (socialPosts db)
                                   (fun p => String.eqb (post_socialAccountId p)
                                               (account_id a))
                                   post_createdAt)))
                    <$> Prisma.findMany_desc (socialAccounts db)
                          (fun a => String.eqb (account_userId a) userId)
                          account_connectedAt)
          /\ forall b, isActive = Some b -> account_isActive a0 = b).
  { destruct isActive as [b |].
    - apply list_elem_of_filter in Hin. destruct Hin as [Hb Hin].
      split; [exact Hin |]. intros b' [= <-]. exact Hb.
    - split; [exact Hin | discriminate]. }
  destruct Hactive as [Hplat Hact].
  assert (Hbase : (a0, posts) ∈
            ((fun a =>
                (a, take 5 (Prisma.findMany_desc (socialPosts db)
                              (fun p => String.eqb (post_socialAccountId p) (account_id a))
                              post_createdAt)))
               <$> Prisma.findMany_desc (socialAccounts db)
                     (fun a => String.eqb (account_userId a) userId) account_connectedAt)
          /\ (Js.truthy_str platform = true -> Some (account_platform a0) = platform)).
  { destruct (Js.truthy_str platform) eqn:Ht.
    - apply list_elem_of_filter in Hplat. destruct Hplat as [Hp Hin'].
      split; [exact Hin' |]. intros _. cbn in Hp.
      destruct platform; [cbn in Hp; by rewrite Hp | discriminate Ht].
    - split; [exact Hplat | discriminate]. }
  destruct Hbase as [Hbase Hplatform].
  apply list_elem_of_fmap in Hbase. destruct Hbase as [a1 [Heq Hin1]].
  injection Heq as -> ->.
  apply findMany_desc_elem in Hin1. destruct Hin1 as [Hu Hkey].
  apply String.eqb_eq in Hu.
  repeat split; try assumption.
  - cbn. lia.
  - cbn. rewrite length_take. lia.
Qed.

Lemma getUserSocialAccounts_returns_own_accounts_witness :
  account_userId Sample.account1 = "u1"
  /\ 0 <= SocialController.rs_totalPosts
            (SocialController.recentStats (fun _ => 0%float) [Sample.post2; Sample.post1])
       <= 5.
Proof.
  destruct (getUserSocialAccounts_returns_own_accounts (fun _ => 0%float) Sample.db "u1"
              (Some "youtube") None Sample.account1
              (SocialController.recentStats (fun _ => 0%float)
                 [Sample.post2; Sample.post1]))
    as (Hu & _ & _ & _ & Hposts).
  - vm_compute. apply list_elem_of_here.
  - split; assumption.
Defined.

(** ** The exception filter *)

(** X27. What [catch] answers: for an [HttpException] the HTTP status is the
    exception's; the body's [statusCode] is the same, except for a validation
    error (status 400 with an array of messages), where the HTTP status stays
    400 while the body says 422 "Validation Error" and carries one detail per
    message, with that message. For anything else the two agree. *)
Theorem catch_status_and_body
    (now : Z) (method url : string) (exception : HttpExceptionFilter.Caught) :
  let reply := HttpExceptionFilter.catch now method url exception in
  match exception with
  | HttpExceptionFilter.CaughtHttp e =>
      HttpExceptionFilter.reply_status reply = HttpExceptionFilter.he_status e
      /\ match HttpExceptionFilter.he_response e with
         | HttpExceptionFilter.ResponseObject (Some (HttpExceptionFilter.Lines messages)) _ =>
             if HttpExceptionFilter.he_status e =? 400
             then HttpExceptionFilter.statusCode (HttpExceptionFilter.reply_body reply) = 422
                  /\ HttpExceptionFilter.error (HttpExceptionFilter.reply_body reply)
                     = "Validation Error"
                  /\ HttpExceptionFilter.message (HttpExceptionFilter.reply_body reply)
                     = HttpExceptionFilter.Lines messages
                  /\ exists details,
                       HttpExceptionFilter.details (HttpExceptionFilter.reply_body reply)
                       = Some details
                       /\ HttpExceptionFilter.detail_message <$> details = messages
             else HttpExceptionFilter.statusCode (HttpExceptionFilter.reply_body reply)
                  = HttpExceptionFilter.he_status e
         | _ =>
             HttpExceptionFilter.statusCode (HttpExceptionFilter.reply_body reply)
             = HttpExceptionFilter.he_status e
         end
  | _ =>
      HttpExceptionFilter.statusCode (HttpExceptionFilter.reply_body reply)
      = HttpExceptionFilter.reply_status reply
  end.
Proof.
  destruct exception as [[st resp nm msg] | name code target message |].
  - unfold HttpExceptionFilter.catch.
    destruct resp as [s | [[s | messages] |] err];
      cbn [HttpExceptionFilter.he_response HttpExceptionFilter.he_status];
      try (split; reflexivity).
    destruct (st =? 400) eqn:H400.
    + split; [reflexivity |]. repeat split.
      eexists. split; [reflexivity |].
      rewrite <- list_fmap_compose. apply list_fmap_id.
    + split; reflexivity.
  - unfold HttpExceptionFilter.catch.
    destruct (HttpExceptionFilter.isPrismaError _); reflexivity.
  - reflexivity.
Qed.

(** X28. The response to an exception that is no [HttpException] does not
    depend on the exception's message: two errors with the same name, code
    and target get the same status and the same body, which for an error
    that is not Prisma's is 500 "Internal server error". *)
Theorem catch_hides_internal_messages
    (now : Z) (method url name : string) (code target : option string)
    (message1 message2 : string) :
  let reply1 :=
    HttpExceptionFilter.catch now method url
      (HttpExceptionFilter.CaughtError name code target message1) in
  let reply2 :=
    HttpExceptionFilter.catch now method url
      (HttpExceptionFilter.CaughtError name code target message2) in
  HttpExceptionFilter.reply_status reply1 = HttpExceptionFilter.reply_status reply2
  /\ HttpExceptionFilter.reply_body reply1 = HttpExceptionFilter.reply_body reply2
  /\ (HttpExceptionFilter.isPrismaError
        (HttpExceptionFilter.CaughtError name code target message1) = false ->
      HttpExceptionFilter.reply_status reply1 = 500
      /\ HttpExceptionFilter.message (HttpExceptionFilter.reply_body reply1)
         = HttpExceptionFilter.Text "Internal server error").
Proof.
  cbv zeta. unfold HttpExceptionFilter.catch, HttpExceptionFilter.isPrismaError.
  destruct (_ || _); cbn; repeat split; intros; try reflexivity; discriminate.
Qed.

Lemma word_prefix_split (s : string) :
  s = fst (HttpExceptionFilter.word_prefix s) ++ snd (HttpExceptionFilter.word_prefix s)
  /\ forallb HttpExceptionFilter.is_word
       (list_ascii_of_string (fst (HttpExceptionFilter.word_prefix s))) = true.
Proof.
  induction s as [| c s [IH1 IH2]]; [split; reflexivity |].
  cbn [HttpExceptionFilter.word_prefix].
  destruct (HttpExceptionFilter.is_word c) eqn:Hc; [| split; reflexivity].
  destruct (HttpExceptionFilter.word_prefix s) as [w rest]. cbn in *.
  split; [rewrite IH1 at 1; reflexivity |].
  apply andb_true_intro. split; assumption.
Qed.

Lemma space_is_no_word (c : ascii) (r : string) :
  HttpExceptionFilter.starts_with_space (String c r) = true ->
  HttpExceptionFilter.is_word c = false.
Proof.
  intros H. apply Bool.not_true_is_false. intros Hw. revert H Hw.
  unfold HttpExceptionFilter.starts_with_space, HttpExceptionFilter.is_word. cbv zeta.
  generalize (nat_of_ascii c). intros n.
  assert (Hcut : ((9 <=? n) && (n <=? 13) || (n =? 32) = true
                  \/ n = 194 \/ n = 225 \/ n = 226 \/ n = 227 \/ n = 239 ->
                  (48 <=? n) && (n <=? 57) || (65 <=? n) && (n <=? 90)
                  || (97 <=? n) && (n <=? 122) || (n =? 95) = true -> False)%nat).
  { rewrite !orb_true_iff, !andb_true_iff, !Nat.leb_le, !Nat.eqb_eq. lia. }
  intros H. apply Hcut. clear Hcut.
  apply orb_prop in H. destruct H as [H | H]; [by left | right].
  destruct r as [| b [| c2 r]]; [discriminate H | |].
  - rewrite orb_false_r in H. apply andb_prop in H. destruct H as [H _].
    apply Nat.eqb_eq in H. lia.
  - revert H. generalize (nat_of_ascii b) (nat_of_ascii c2). intros nb nc.
    rewrite !orb_true_iff, !andb_true_iff, !Nat.leb_le, !Nat.eqb_eq. lia.
Qed.

Lemma word_prefix_app (w rest : string) :
  forallb HttpExceptionFilter.is_word (list_ascii_of_string w) = true ->
  HttpExceptionFilter.starts_with_space rest = true ->
  HttpExceptionFilter.word_prefix (w ++ rest) = (w, rest).
Proof.
  intros Hw Hrest. induction w as [| c w IH].
  - destruct rest as [| d rest]; [discriminate Hrest |].
    change (HttpExceptionFilter.word_prefix (String d rest) = ("", String d rest)).
    cbn [HttpExceptionFilter.word_prefix].
    rewrite (space_is_no_word d rest Hrest). reflexivity.
  - cbn [list_ascii_of_string forallb] in Hw. apply andb_prop in Hw.
    destruct Hw as [Hc Hw].
    change (HttpExceptionFilter.word_prefix (String c (w ++ rest)) = (String c w, rest)).
    cbn [HttpExceptionFilter.word_prefix].
    rewrite Hc, (IH Hw). reflexivity.
Qed.

(** X29. The field [catch] names in a validation detail is read off the
    front of the message: [fieldMatch] finds the field [field] exactly when
    the message is [field], a non-empty run of word characters, followed by a
    character that [\s] matches, one of the white-space characters beyond
    ASCII included; every other message gets the field ['unknown']. *)
Theorem fieldMatch_reads_the_leading_word (message field : string) :
  HttpExceptionFilter.fieldMatch message = Some field
  <-> field <> ""
      /\ forallb HttpExceptionFilter.is_word (list_ascii_of_string field) = true
      /\ exists rest,
           message = field ++ rest /\ HttpExceptionFilter.starts_with_space rest = true.
Proof.
  unfold HttpExceptionFilter.fieldMatch. split.
  - pose proof (word_prefix_split message) as [Hsplit Hword].
    destruct (HttpExceptionFilter.word_prefix message) as [w rest]. cbn [fst snd] in *.
    destruct w as [| c w]; [discriminate |].
    destruct (HttpExceptionFilter.starts_with_space rest) eqn:Hd; [| discriminate].
    intros [= <-]. split; [discriminate |]. split; [exact Hword |].
    exists rest. split; [exact Hsplit | exact Hd].
  - intros (Hne & Hword & rest & -> & Hrest).
    rewrite (word_prefix_app field rest Hword Hrest).
    destruct field as [| c w]; [by destruct Hne |].
    rewrite Hrest. reflexivity.
Qed.

Lemma fieldMatch_reads_the_leading_word_witness :
  HttpExceptionFilter.fieldMatch "email must be an email" = Some "email"
  /\ HttpExceptionFilter.fieldMatch
       ("email" ++ String (ascii_of_nat 194) (String (ascii_of_nat 160) "must be an email"))
     = Some "email"
  /\ HttpExceptionFilter.fieldMatch "email: must be an email" = None.
Proof.
  split; [| split].
  - apply (proj2 (fieldMatch_reads_the_leading_word "email must be an email" "email")).
    split; [discriminate |]. split; [reflexivity |].
    exists " must be an email". split; reflexivity.
  - apply (proj2 (fieldMatch_reads_the_leading_word _ "email")).
    split; [discriminate |]. split; [reflexivity |].
    eexists. split; reflexivity.
  - reflexivity.
Defined.

(** ** The video dashboard *)





